(* ===== verification/_CoqProject ===== *)
-Q . S2P
Prelude.v
Json.v
JsonParse.v
NtPath.v
World.v
PyFloat.v
Transport.v
Resolver.v
Location.v
Config.v
Downloader.v
Converter.v
Window.v
ConvertTask.v
DownloadTask.v
Slots.v
MainWindow.v
