(* ===== verification/Prelude.v ===== *)
(** * Verification of 163worker: playlist resolution, throttled download, NCM conversion

    The program (src/utils) resolves a NetEase playlist id into songs
    through several third-party APIs, fetches a download location per song,
    streams the files with throttling and retries, and converts [.ncm]
    files with the external [ncmdump.exe].  Its parts, leaf first:

    - [APIHandler] (api.py): the config dict, read from [config.json] by
      [__init__] / [load_config] (under [sys._MEIPASS] in the packaged
      app) and written back by [set_request_interval], the retrying transport
      [request_with_retry], the id extraction, the provider loop
      [get_playlist_songs], the location fetch [get_song_download_url] and
      the interval setter [set_request_interval];
    - [SongDownloader] (downloader.py): [download_song] (skip, throttle,
      three whole-operation attempts), [download_file] (chunked stream with
      a byte-rate limit), [sanitize_filename];
    - [NCMConverter] (ncm_converter.py): [find_ncmdump], [convert_single_file]
      (one run of the external tool, then a search at two places) and
      [batch_convert] over a [glob];
    - the window of ui.py: two worker threads, [download_playlist] (resolve,
      then [download_song] per song) and [convert_ncm_files] (glob, derive
      the target name, skip, [convert_single_file], rename), their start
      handlers, stop buttons and signals, the slots that show the signals,
      the version check, and the settings page.

    The handler and the downloader share one config object and the
    downloader keeps a [last_request_time] across calls.  The window
    thread and a worker share a stop flag, which the worker reads only
    between items.

    ** Files

    - [Prelude]: Python [str] builtins on byte strings (replace, [in],
      strip, digits, [str(int)]), text mode on Windows ([\n] written as
      [\r\n], universal newlines on reading), their lemmas, strong
      induction on string length, the hint database [py_str], and the
      tactics [qltb_cases], [case_in], [case_any].
    - [Json]: JSON values as [json.load] returns them, Python exceptions
      and [str(e)], subscripting, [dict.get], iteration, truthiness,
      [str]/[repr], [str.format] with keyword arguments, [int(s)],
      [json.dump(indent=2, ensure_ascii=False)], dict item assignment.
    - [JsonParse]: [json.loads] as CPython's C scanner (Modules/_json.c)
      on UTF-8 text: strings with every escape and surrogate pairs,
      integers, arrays, objects, white space, the BOM check and the exact
      [JSONDecodeError] messages with line, column and code-point position;
      the strict UTF-8 decoder.  A mutual [Fixpoint] on fuel; the fuel
      [2 * length + 1] is proved sufficient for every text
      ([json_decode_total]), and [json.loads] of what [json.dump] wrote is
      the value again ([json_loads_dump]), by nested induction on values.
    - [NtPath]: [ntpath.join], [splitdrive], [split], [basename],
      [dirname], [splitext], [abspath], and [str.split] / [str.join] for the
      separators the source uses, with their round trips.
    - [World]: the world ([time.time] clock as a rational, the scripted
      network answers of [requests.get], the request log, files,
      directories, printed lines, and the two shared Python objects: the
      config and the downloader's fields), the state-and-exception monad
      [M] with its notation in [py_scope], the primitives, and the
      invariant [mono] (the clock never goes back and requests are stamped
      no earlier than the start) with its hint database [mono] and tactic
      [solve_mono]; the subprocess, rename and signal effects; [try/finally];
      the timed stop flags; the frame property [stop_frame] (a computation
      neither reads nor writes a stop flag), the property [silent] (it sends
      the window no signal), the total-correctness predicate
      [returns] and the last-signal predicate [ends_with_event], each with
      its combinator lemmas and tactic.
    - [PyFloat]: binary64 division and multiplication from the Standard
      Library's [SpecFloat], [int()] of a float, and the workers' progress
      value [int((i+1)/total*100)] with its bound.
    - [Transport]: [request_with_retry] as [attempt] / [retry_loop];
      recovery after k failures, re-raise of the last error, and the bound
      of [max_retries] requests.
    - [Resolver]: [extract_song_id_from_url] (both regex searches written
      out), [get_playlist_songs] as [try_playlist_apis] /
      [playlist_api_body] / [select_songs] / [collect_songs] /
      [normalize_song]; short circuit on the first provider with songs,
      the aggregate error, the agreement of the two nested shapes, the
      spec's scenario, and the findings.
    - [Location]: [get_song_download_url] = template + [request_with_retry]
      + [read_location]; the getters; [set_request_interval];
      [extract_data] and its agreement with [py_path].
    - [Config]: [APIHandler.__init__] and [load_config]; a handler created
      after [set_request_interval] reads back exactly the updated config
      (the spec's read-modify-write), except in the packaged app, where the
      bundled file is read again (a finding); a byte order mark or a
      missing file make the handler's creation raise.
    - [Downloader]: [download_song] = skip check + [os.makedirs] +
      [download_attempts] of [download_attempt] = [throttle] + location +
      [download_file]; the throttle guarantee across calls ([throttled]),
      skip without requests, totality of the retry loop, the streamed file
      and the byte-rate bound, [sanitize_filename].
    - [Converter]: [NCMConverter]; the executable search as the first
      existing entry of a candidate list (a refinement), every outcome of
      [convert_single_file], one result per listed file.
    - [Window]: [MainWindow.log], the counters and the progress value the
      two workers share, and their common loop [item_loop] (stop check,
      then the item) with the theorem that its progress signals are those
      of its first items in item order, whatever happens.
    - [ConvertTask]: the conversion worker and its handlers; the flip of
      the derived name, the stop flag read only between items, the
      counts, progress in item order, the skip on the derived name, the
      final signals, and the two scenarios of the spec (collision after a
      flip) and of a finding.
    - [DownloadTask]: the download worker, [start_download],
      [stop_download_task], [save_request_interval], the API test and
      [SongDownloader.download_playlist]; a transfer never reads the stop
      flag and sends no signal, progress in item order, the final
      signals, the input checks, the shape of [download_playlist]'s
      result, and the skip-marker finding.
    - [Slots]: what the window shows.  The widget state the slots change
      ([panel]: the log, the two progress cards with their start and stop
      buttons, the InfoBars, the version label), one function per slot,
      the signal connections [deliver], [run_worker] (a computation whose
      signals the event loop delivers in the order sent) and the version
      check [fetch_version].  The predicates [emits_only] (which signals a
      computation may send) and [reports] (feed signals, then one report)
      with their tactics [solve_emits] and [solve_reports], and the
      interface [WorkerThread] of the worker threads, proved for the
      download, conversion and API-test threads.
    - [MainWindow]: [MusicDownloaderUI.__init__] from the configuration on
      ([window_init]: the handler, the downloader, the converter and its
      warning, the stop flags, the version and API-test threads), the
      buttons ([start_download_clicked], [start_ncm_convert_clicked],
      [save_request_interval_clicked], the API test) and the window as a
      step relation [gui_step] over user actions with its [reachable]
      states.  For every run, the start button ends enabled, the stop
      button disabled and exactly one notification is added; every action
      keeps the window at rest and every reachable state is at rest (rule
      induction); and a finding: a stopped download is shown as a
      completed one.

    ** Modelling choices

    Time is [Q] seconds: [time.sleep] adds its argument (and raises
    [ValueError] on a negative one), each network answer and each streamed
    chunk carries its delay in microseconds.  The network is a list of
    answers consumed in order; when it is exhausted [requests.get] fails
    with a connection error, so every model function is total and no fuel
    is needed: every loop of the source is a [for] over a finite list and
    is a structural [Fixpoint] here; the one fuel is [json.loads]'s, whose
    sufficiency is a theorem.  Strings are UTF-8 byte strings; every
    operation the source applies inspects ASCII characters only.  JSON
    numbers are integers: a float literal (or an [int] of more than 4300
    digits) in the config makes [load_config] return [None], outside the
    model, as does a file that is not UTF-8 (the [UnicodeDecodeError]
    message is not modelled).  Python's recursion limit on deeply nested
    documents is not modelled.  [os.makedirs] does not track parent directories.
    Paths are compared as strings: relative paths are not resolved against
    the working directory, and case, ['.'] and ['..'] are not normalised.
    The files [glob] lists come in the store's key order.  A worker thread
    runs after the handler that starts it, and the event loop delivers its
    signals once it has ended; the window's stop click is the time stored
    in the flag, seen once the worker's clock reaches it.  The
    tool [ncmdump] is a list of scripted runs (delay, exit code, stderr and
    the files it writes as a function of its arguments).  The progress
    floats are exact binary64; their bound is proved for runs of at most 100
    items by evaluation, since the Standard Library has no theory of
    [SpecFloat] division.

    ** Not modelled

    The window's layout, its file dialogs ([browse_*]), the startup
    [MessageBox], the log's scroll position, [main]'s DPI and icon setup,
    and [tqdm]'s progress bar on stderr: none of them holds program logic.
    Signals sent before their slot is connected (a version check failing
    within [__init__]) are not modelled.  The stop buttons are enabled only
    during a run; a click on them is the time stored in the stop flag, so
    they are not actions of [MainWindow.gui_step].  [traceback.format_exc()] is
    modelled by its first and last lines. *)

From Stdlib Require Import String Ascii List ZArith QArith Lqa Lia Bool DecimalString.
Import ListNotations.

Declare Scope py_scope.
Delimit Scope py_scope with py.

Open Scope string_scope.

(** ** Python [str] builtins on byte strings

    A Python [str] is modelled by a Rocq [string], i.e. the UTF-8 bytes of
    the text.  Every operation below only inspects ASCII bytes (the
    characters of the source's literals, digits, whitespace), and UTF-8
    never uses an ASCII byte inside a multi-byte sequence, so the byte-level
    operations agree with Python's code-point level ones. *)

(** [sub in s] *)
Fixpoint str_in (sub s : string) : bool :=
  prefix sub s ||
  match s with
  | EmptyString => false
  | String _ s' => str_in sub s'
  end.

(** [s.replace(c, r)] for a one-character [c] *)
Fixpoint replace_char (c : ascii) (r s : string) : string :=
  match s with
  | EmptyString => EmptyString
  | String a s' =>
      if Ascii.eqb a c then r ++ replace_char c r s' else String a (replace_char c r s')
  end.

(** [for ch in s: acc = f(acc, ch)] *)
Fixpoint str_fold_left {A : Type} (f : A -> ascii -> A) (s : string) (acc : A) : A :=
  match s with
  | EmptyString => acc
  | String c s' => str_fold_left f s' (f acc c)
  end.

(** membership of one character, [c in s] *)
Fixpoint char_in (c : ascii) (s : string) : bool :=
  match s with
  | EmptyString => false
  | String a s' => Ascii.eqb a c || char_in c s'
  end.

(** the regular-expression class [[0-9]] *)
Definition is_digit (c : ascii) : bool :=
  let n := nat_of_ascii c in Nat.leb 48 n && Nat.leb n 57.

(** [str.isspace] restricted to ASCII: \t \n \v \f \r, \x1c-\x1f and space *)
Definition is_space (c : ascii) : bool :=
  let n := nat_of_ascii c in
  (Nat.leb 9 n && Nat.leb n 13) || (Nat.leb 28 n && Nat.leb n 32).

(** the longest prefix of [s] made of digits: what [[0-9]+] consumes greedily *)
Fixpoint digits_prefix (s : string) : string :=
  match s with
  | String c s' => if is_digit c then String c (digits_prefix s') else EmptyString
  | EmptyString => EmptyString
  end.

(** [s[n:]] *)
Fixpoint str_drop (n : nat) (s : string) : string :=
  match n, s with
  | O, _ => s
  | S n', String _ s' => str_drop n' s'
  | S _, EmptyString => EmptyString
  end.

Fixpoint lstrip (s : string) : string :=
  match s with
  | String c s' => if is_space c then lstrip s' else s
  | EmptyString => EmptyString
  end.

Fixpoint str_rev (s : string) : string :=
  match s with
  | EmptyString => EmptyString
  | String c s' => str_rev s' ++ String c EmptyString
  end.

(** [s.strip()] *)
Definition py_strip (s : string) : string := str_rev (lstrip (str_rev (lstrip s))).

Fixpoint all_chars (p : ascii -> bool) (s : string) : bool :=
  match s with
  | EmptyString => true
  | String c s' => p c && all_chars p s'
  end.

(** [str(n)] for a Python [int] *)
Definition str_of_Z (z : Z) : string :=
  let digits n := NilEmpty.string_of_uint (N.to_uint n) in
  if (z <? 0)%Z then "-" ++ digits (Z.to_N (- z)) else digits (Z.to_N z).

Definition str_of_nat (n : nat) : string := str_of_Z (Z.of_nat n).

(** The double-quote character, which a Rocq literal cannot hold on its own. *)
Definition dquote : string := String (ascii_of_nat 34) EmptyString.

(** Decidable comparison of clock values, Python's [a < b] on floats. *)
Definition Qltb (a b : Q) : bool := negb (Qle_bool b a).

(** [ord(c) == n] *)
Definition code_is (n : nat) (c : ascii) : bool := Nat.eqb (nat_of_ascii c) n.

(** ** Text mode on Windows *)

(** Text mode on Windows writes each line feed as [\r\n]. *)
Fixpoint crlf_newlines (s : string) : string :=
  match s with
  | EmptyString => EmptyString
  | String c s' =>
      if code_is 10 c then String (ascii_of_nat 13) (String c (crlf_newlines s'))
      else String c (crlf_newlines s')
  end.

(** Universal newlines of text mode: [\r\n] and [\r] read as [\n]. *)
Fixpoint translate_newlines (s : string) : string :=
  match s with
  | EmptyString => EmptyString
  | String c s' =>
      if code_is 13 c then
        match s' with
        | String d s'' => if code_is 10 d then String (ascii_of_nat 10) (translate_newlines s'')
                          else String (ascii_of_nat 10) (translate_newlines s')
        | EmptyString => String (ascii_of_nat 10) EmptyString
        end
      else String c (translate_newlines s')
  end.

(** ** Generic lemmas on strings *)

Lemma append_nil_r (s : string) : s ++ "" = s.
Proof. induction s as [|c s IH]; simpl; [reflexivity | now rewrite IH]. Qed.

Lemma append_assoc (a b c : string) : (a ++ b) ++ c = a ++ (b ++ c).
Proof. induction a as [|x a IH]; simpl; [reflexivity | now rewrite IH]. Qed.

Lemma length_append (a b : string) : String.length (a ++ b) = (String.length a + String.length b)%nat.
Proof. induction a as [|x a IH]; simpl; [reflexivity | now rewrite IH]. Qed.

Lemma char_in_append (c : ascii) (a b : string) :
  char_in c (a ++ b) = char_in c a || char_in c b.
Proof. induction a as [|x a IH]; simpl; [reflexivity | rewrite IH; apply orb_assoc]. Qed.

Lemma Qltb_iff (a b : Q) : Qltb a b = true <-> (a < b)%Q.
Proof.
  unfold Qltb. rewrite negb_true_iff. split; intro H.
  - apply Qnot_le_lt. intro H'. apply Qle_bool_iff in H'. congruence.
  - destruct (Qle_bool b a) eqn:E; [|reflexivity].
    apply Qle_bool_iff in E. exfalso. apply (Qlt_not_le a b H E).
Qed.

Lemma Qltb_false (a b : Q) : Qltb a b = false <-> (b <= a)%Q.
Proof.
  unfold Qltb. rewrite negb_false_iff. apply Qle_bool_iff.
Qed.

Lemma digits_prefix_digits (s : string) : all_chars is_digit (digits_prefix s) = true.
Proof.
  induction s as [|c s IH]; simpl; [reflexivity |].
  destruct (is_digit c) eqn:E; simpl; [now rewrite E, IH | reflexivity].
Qed.

(** A string of digits is its own longest digit prefix. *)
Lemma digits_prefix_all (s : string) : all_chars is_digit s = true -> digits_prefix s = s.
Proof.
  induction s as [|c s IH]; simpl; [reflexivity |].
  intros H. apply andb_true_iff in H as [Hc Hs]. rewrite Hc, IH; auto.
Qed.

Lemma str_drop_length (s : string) : str_drop (String.length s) s = "".
Proof. induction s; simpl; auto. Qed.

Section Replace.
Variables (c : ascii) (r : string).

Lemma replace_char_absent (s : string) : char_in c s = false -> replace_char c r s = s.
  Proof.
    induction s as [|a s IH]; simpl; [reflexivity |].
    intros H. apply orb_false_iff in H as [Ha Hs]. rewrite Ha, IH by exact Hs. reflexivity.
  Qed.

(** A character absent from [r] is in the result iff it was in [s] and is not [c]. *)
Lemma char_in_replace_char (d : ascii) (s : string) :
    char_in d r = false ->
    char_in d (replace_char c r s) = char_in d s && negb (Ascii.eqb d c).
  Proof.
    intros Hr. induction s as [|a s IH]; simpl; [reflexivity |].
    destruct (Ascii.eqb_spec a c) as [-> | Hac].
    - rewrite char_in_append, Hr, IH. simpl.
      destruct (Ascii.eqb_spec c d) as [<- | Hcd].
      + rewrite Ascii.eqb_refl. simpl. now rewrite andb_false_r.
      + destruct (Ascii.eqb_spec d c); [congruence | reflexivity].
    - simpl. rewrite IH.
      destruct (Ascii.eqb_spec a d) as [<- | Had]; [| reflexivity].
      destruct (Ascii.eqb_spec a c); [congruence | reflexivity].
  Qed.

Lemma length_replace_char (s : string) :
    String.length r = 1%nat -> String.length (replace_char c r s) = String.length s.
  Proof.
    intros Hr. induction s as [|a s IH]; simpl; [reflexivity |].
    destruct (Ascii.eqb a c); simpl; [rewrite length_append, Hr, IH | rewrite IH]; reflexivity.
  Qed.
End Replace.

(** Replacing, one after the other, every character of [cs] by [r]. *)
Definition replace_all (cs r s : string) : string :=
  str_fold_left (fun acc ch => replace_char ch r acc) cs s.

Lemma char_in_replace_all (cs r s : string) (d : ascii) :
  char_in d r = false ->
  char_in d (replace_all cs r s) = char_in d s && negb (char_in d cs).
Proof.
  unfold replace_all. revert s. induction cs as [|c cs IH]; intros s Hr; simpl.
  - now rewrite andb_true_r.
  - rewrite IH, char_in_replace_char by exact Hr.
    rewrite Ascii.eqb_sym. destruct (char_in d s), (Ascii.eqb c d), (char_in d cs); reflexivity.
Qed.

Lemma replace_all_absent (cs r s : string) :
  (forall d, char_in d cs = true -> char_in d s = false) -> replace_all cs r s = s.
Proof.
  unfold replace_all. revert s. induction cs as [|c cs IH]; intros s H; simpl; [reflexivity |].
  rewrite replace_char_absent by (apply H; simpl; now rewrite Ascii.eqb_refl).
  apply IH. intros d Hd. apply H. simpl. now rewrite Hd, orb_true_r.
Qed.

Lemma length_replace_all (cs r s : string) :
  String.length r = 1%nat -> String.length (replace_all cs r s) = String.length s.
Proof.
  unfold replace_all. revert s. induction cs as [|c cs IH]; intros s Hr; simpl; [reflexivity |].
  rewrite IH by exact Hr. now apply length_replace_char.
Qed.

(** Strong induction on the length of a string, for scanners whose
    recursive calls skip several characters at once. *)
Lemma string_len_ind (P : string -> Prop) :
  (forall s, (forall t, (String.length t < String.length s)%nat -> P t) -> P s) -> forall s, P s.
Proof.
  intros H s. remember (String.length s) as n. revert s Heqn.
  induction n as [n IH] using lt_wf_ind. intros s ->. apply H. intros t Ht. now apply (IH _ Ht).
Qed.

Lemma str_drop_app (p r : string) : str_drop (String.length p) (p ++ r) = r.
Proof. induction p; simpl; auto. Qed.

Lemma prefix_drop_length (p s : string) :
  String.prefix p s = true -> (String.length (str_drop (String.length p) s) + String.length p)%nat = String.length s.
Proof.
  revert s. induction p as [|a p IH]; intros s H; simpl; [lia|].
  destruct s as [|b s]; [discriminate|]. simpl in H.
  destruct (ascii_dec a b); [|discriminate]. simpl. rewrite <- (IH s H). lia.
Qed.

(** ** Automation shared by the components *)

Create Rewrite HintDb py_str.
#[export] Hint Rewrite append_nil_r append_assoc length_append char_in_append : py_str.

(** Case analysis on a clock comparison [Qltb a b], leaving the Prop facts. *)
(** Destruct the scrutinee of a [match] or [if] in hypothesis [H] (resp.
    in any hypothesis), keeping the equation. *)
Ltac case_in H :=
  match type of H with
  | context [match ?x with _ => _ end] => destruct x eqn:?
  end.

Ltac case_any :=
  match goal with
  | H : context [match ?x with _ => _ end] |- _ => destruct x eqn:?
  end.

Ltac qltb_cases a b :=
  let E := fresh "Hlt" in
  destruct (Qltb a b) eqn:E;
  [apply Qltb_iff in E | apply Qltb_false in E].

Lemma prefix_append (s t : string) : String.prefix s (s ++ t) = true.
Proof.
  induction s as [|c s IH]; simpl; [destruct t; reflexivity |].
  destruct (ascii_dec c c) as [_ | n]; [exact IH | now destruct n].
Qed.

(** [sub in x + sub + y] *)
Lemma str_in_middle (sub x y : string) : str_in sub (x ++ sub ++ y) = true.
Proof.
  induction x as [|c x IH]; simpl.
  - pose proof (prefix_append sub y) as H. destruct (sub ++ y); simpl in *; rewrite H; reflexivity.
  - rewrite IH, orb_true_r. reflexivity.
Qed.
