(* ===== verification/Json.v ===== *)
(** * JSON values and the Python runtime operations on them

    The values [json.load] / [response.json()] produce (dict, list, str, int,
    bool, None), the Python exceptions the source raises or catches, and the
    runtime operations the source applies to such values: subscripting
    [obj[key]], [dict.get], iteration, [isinstance], truthiness, [str()] and
    [repr()].  Dicts are association lists in insertion order, as Python
    keeps them. *)

From Stdlib Require Import String Ascii List ZArith Bool.
From S2P Require Import Prelude.
Import ListNotations.
Open Scope string_scope.

#[local] Set Warnings "-register-all".
Inductive json : Type :=
| JNull
| JBool (b : bool)
| JInt (z : Z)
| JStr (s : string)
| JList (l : list json)
| JObj (kvs : list (string * json)).

(** ** Python exceptions *)

Inductive req_kind := HTTPError | ConnectionError | Timeout | JSONDecodeError.

Inductive os_kind := FileNotFoundError | FileExistsError | PermissionError.

Inductive exn : Type :=
| RequestException (k : req_kind) (msg : string)   (** requests.RequestException and subclasses *)
| KeyError (key_repr : string)
| TypeError (msg : string)
| ValueError (msg : string)
| AttributeError (msg : string)
| IndexError (msg : string)
| OSError (k : os_kind) (msg : string)
| CalledProcessError (returncode : Z) (stderr : string)
| DecodeError (msg : string)                        (** json.JSONDecodeError, its full message *)
| Exception (msg : string).                         (** a bare [raise Exception(msg)] *)

(** [str(e)]; a KeyError prints the repr of its key. *)
Definition exn_str (e : exn) : string :=
  match e with
  | RequestException _ m | TypeError m | ValueError m | AttributeError m
  | IndexError m | OSError _ m | Exception m => m
  | KeyError k => k
  | DecodeError m => m
  | CalledProcessError c _ =>
      "Command returned non-zero exit status " ++ str_of_Z c ++ "."
  end.

(** The qualified class name a traceback prints. *)
Definition exn_class_name (e : exn) : string :=
  match e with
  | RequestException HTTPError _ => "requests.exceptions.HTTPError"
  | RequestException ConnectionError _ => "requests.exceptions.ConnectionError"
  | RequestException Timeout _ => "requests.exceptions.Timeout"
  | RequestException JSONDecodeError _ => "requests.exceptions.JSONDecodeError"
  | KeyError _ => "KeyError"
  | TypeError _ => "TypeError"
  | ValueError _ => "ValueError"
  | AttributeError _ => "AttributeError"
  | IndexError _ => "IndexError"
  | OSError FileNotFoundError _ => "FileNotFoundError"
  | OSError FileExistsError _ => "FileExistsError"
  | OSError PermissionError _ => "PermissionError"
  | DecodeError _ => "json.decoder.JSONDecodeError"
  | CalledProcessError _ _ => "subprocess.CalledProcessError"
  | Exception _ => "Exception"
  end.

(** [except requests.RequestException] *)
Definition is_request_exception (e : exn) : bool :=
  match e with RequestException _ _ => true | _ => false end.

(** ** repr / str *)

Definition hex_digit (n : nat) : ascii :=
  ascii_of_nat (if Nat.ltb n 10 then 48 + n else 87 + n).

(** One character of a string repr delimited by [q]. *)
Definition repr_char (q : ascii) (c : ascii) : string :=
  let n := nat_of_ascii c in
  if Ascii.eqb c q || Nat.eqb n 92 then String "\" (String c EmptyString)
  else if Nat.eqb n 9 then "\t"
  else if Nat.eqb n 10 then "\n"
  else if Nat.eqb n 13 then "\r"
  else if Nat.ltb n 32 || Nat.eqb n 127 then
    "\x" ++ String (hex_digit (n / 16)) (String (hex_digit (n mod 16)) EmptyString)
  else String c EmptyString.

(** [repr(s)]: single quotes unless the text has a single quote and no
    double quote. *)
Definition repr_str (s : string) : string :=
  let sq := ascii_of_nat 39 in
  let dq := ascii_of_nat 34 in
  let q := if char_in sq s && negb (char_in dq s) then dq else sq in
  String q (str_fold_left (fun acc c => acc ++ repr_char q c) s EmptyString ++ String q EmptyString).

Fixpoint py_repr (v : json) : string :=
  match v with
  | JNull => "None"
  | JBool true => "True"
  | JBool false => "False"
  | JInt z => str_of_Z z
  | JStr s => repr_str s
  | JList l =>
      "[" ++ (fix items (l : list json) : string :=
                match l with
                | [] => ""
                | [x] => py_repr x
                | x :: r => py_repr x ++ ", " ++ items r
                end) l ++ "]"
  | JObj kvs =>
      "{" ++ (fix items (kvs : list (string * json)) : string :=
                match kvs with
                | [] => ""
                | [(k, x)] => repr_str k ++ ": " ++ py_repr x
                | (k, x) :: r => repr_str k ++ ": " ++ py_repr x ++ ", " ++ items r
                end) kvs ++ "}"
  end.

(** [str(v)], which is also what an f-string interpolates. *)
Definition py_str (v : json) : string :=
  match v with
  | JStr s => s
  | _ => py_repr v
  end.

Definition py_type_name (v : json) : string :=
  match v with
  | JNull => "NoneType" | JBool _ => "bool" | JInt _ => "int"
  | JStr _ => "str" | JList _ => "list" | JObj _ => "dict"
  end.

(** [bool(v)]; [not v] is its negation. *)
Definition py_truthy (v : json) : bool :=
  match v with
  | JNull => false
  | JBool b => b
  | JInt z => negb (Z.eqb z 0)
  | JStr s => negb (String.eqb s "")
  | JList l => negb (Nat.eqb (length l) 0)
  | JObj kvs => negb (Nat.eqb (length kvs) 0)
  end.

(** [v == "lit"] for a str literal *)
Definition py_eq_str (v : json) (s : string) : bool :=
  match v with JStr s' => String.eqb s' s | _ => false end.

Definition is_dict (v : json) : bool := match v with JObj _ => true | _ => false end.
Definition is_list (v : json) : bool := match v with JList _ => true | _ => false end.

Fixpoint assoc (k : string) (kvs : list (string * json)) : option json :=
  match kvs with
  | [] => None
  | (k', v) :: r => if String.eqb k' k then Some v else assoc k r
  end.

(** [k in d] for a dict, [sub in s] for a str, [x in l] (by str equality
    only, which is how the source uses it) for a list. *)
Definition py_contains (container : json) (k : string) : sum exn bool :=
  match container with
  | JObj kvs => inr (match assoc k kvs with Some _ => true | None => false end)
  | JStr s => inr (str_in k s)
  | JList l => inr (existsb (fun x => py_eq_str x k) l)
  | v => inl (TypeError ("argument of type '" ++ py_type_name v ++ "' is not iterable"))
  end.

(** Python's index normalisation for [seq[i]]. *)
Definition py_index (len : nat) (i : Z) : option nat :=
  let j := if (i <? 0)%Z then (i + Z.of_nat len)%Z else i in
  if ((0 <=? j) && (j <? Z.of_nat len))%Z then Some (Z.to_nat j) else None.

Definition py_as_int (key : json) : option Z :=
  match key with
  | JInt z => Some z
  | JBool b => Some (if b then 1%Z else 0%Z)
  | _ => None
  end.

(** [obj[key]] *)
Definition py_subscript (obj key : json) : sum exn json :=
  match obj with
  | JObj kvs =>
      match key with
      | JStr k => match assoc k kvs with Some v => inr v | None => inl (KeyError (py_repr key)) end
      | JList _ | JObj _ => inl (TypeError ("unhashable type: '" ++ py_type_name key ++ "'"))
      | _ => inl (KeyError (py_repr key))
      end
  | JList l =>
      match py_as_int key with
      | Some i => match py_index (length l) i with
                  | Some n => match nth_error l n with Some v => inr v
                              | None => inl (IndexError "list index out of range") end
                  | None => inl (IndexError "list index out of range")
                  end
      | None => inl (TypeError ("list indices must be integers or slices, not " ++ py_type_name key))
      end
  | JStr s =>
      match py_as_int key with
      | Some i => match py_index (String.length s) i with
                  | Some n => match String.get n s with Some c => inr (JStr (String c EmptyString))
                              | None => inl (IndexError "string index out of range") end
                  | None => inl (IndexError "string index out of range")
                  end
      | None => inl (TypeError "string indices must be integers")
      end
  | v => inl (TypeError ("'" ++ py_type_name v ++ "' object is not subscriptable"))
  end.

(** [d.get(k, default)] *)
Definition py_dict_get (d : json) (k : string) (default : json) : sum exn json :=
  match d with
  | JObj kvs => inr (match assoc k kvs with Some v => v | None => default end)
  | v => inl (AttributeError ("'" ++ py_type_name v ++ "' object has no attribute 'get'"))
  end.

(** [for x in v]: a dict iterates its keys, a str its characters. *)
Definition py_iter (v : json) : sum exn (list json) :=
  match v with
  | JList l => inr l
  | JObj kvs => inr (map (fun kv => JStr (fst kv)) kvs)
  | JStr s => inr (map (fun c => JStr (String c EmptyString)) (list_ascii_of_string s))
  | v => inl (TypeError ("'" ++ py_type_name v ++ "' object is not iterable"))
  end.

(** ** [str.format] with keyword arguments *)

Inductive fmt_state := FNormal | FOpen | FField (name : string) | FClose.

(** A replacement field is looked up by its whole text; an empty or
    numeric field is positional, and there are no positional arguments. *)
Definition format_field (args : list (string * string)) (name : string) : sum exn string :=
  if String.eqb name "" || all_chars is_digit name
  then inl (IndexError ("Replacement index " ++ (if String.eqb name "" then "0" else name)
                        ++ " out of range for positional args tuple"))
  else match find (fun kv => String.eqb (fst kv) name) args with
       | Some (_, v) => inr v
       | None => inl (KeyError (repr_str name))
       end.

Fixpoint format_go (args : list (string * string)) (st : fmt_state) (s out : string) : sum exn string :=
  match s with
  | EmptyString =>
      match st with
      | FNormal => inr out
      | FOpen => inl (ValueError "Single '{' encountered in format string")
      | FField _ => inl (ValueError "expected '}' before end of string")
      | FClose => inl (ValueError "Single '}' encountered in format string")
      end
  | String c s' =>
      let n := nat_of_ascii c in
      match st with
      | FNormal =>
          if Nat.eqb n 123 then format_go args FOpen s' out
          else if Nat.eqb n 125 then format_go args FClose s' out
          else format_go args FNormal s' (out ++ String c EmptyString)
      | FOpen =>
          if Nat.eqb n 123 then format_go args FNormal s' (out ++ "{")
          else if Nat.eqb n 125 then
            match format_field args "" with
            | inl e => inl e
            | inr v => format_go args FNormal s' (out ++ v)
            end
          else format_go args (FField (String c EmptyString)) s' out
      | FField name =>
          if Nat.eqb n 125 then
            match format_field args name with
            | inl e => inl e
            | inr v => format_go args FNormal s' (out ++ v)
            end
          else if Nat.eqb n 123 then inl (ValueError "unexpected '{' in field name")
          else format_go args (FField (name ++ String c EmptyString)) s' out
      | FClose =>
          if Nat.eqb n 125 then format_go args FNormal s' (out ++ "}")
          else inl (ValueError "Single '}' encountered in format string")
      end
  end.

(** [template.format(k1=v1, ...)], the template being a config value. *)
Definition py_format (template : json) (args : list (string * string)) : sum exn string :=
  match template with
  | JStr t => format_go args FNormal t ""
  | v => inl (AttributeError ("'" ++ py_type_name v ++ "' object has no attribute 'format'"))
  end.

(** [v[k1][k2]...] with str keys *)
Fixpoint py_path (v : json) (keys : list string) : sum exn json :=
  match keys with
  | [] => inr v
  | k :: ks => match py_subscript v (JStr k) with
               | inl e => inl e
               | inr x => py_path x ks
               end
  end.

(** [int(s)] for a str, base 10: surrounding whitespace, an optional
    sign, digits with single underscores between them. *)
Fixpoint int_body_ok (s : string) (after_digit : bool) : bool :=
  match s with
  | EmptyString => after_digit
  | String c s' =>
      if is_digit c then int_body_ok s' true
      else if Nat.eqb (nat_of_ascii c) 95 then after_digit && int_body_ok s' false
      else false
  end.

Fixpoint int_body_value (s : string) (acc : Z) : Z :=
  match s with
  | EmptyString => acc
  | String c s' =>
      if is_digit c then int_body_value s' (acc * 10 + Z.of_nat (nat_of_ascii c - 48))%Z
      else int_body_value s' acc
  end.

Definition py_int_of_str (s : string) : sum exn Z :=
  let t := py_strip s in
  let '(neg, body) :=
    match t with
    | String c r => if Nat.eqb (nat_of_ascii c) 45 then (true, r)
                    else if Nat.eqb (nat_of_ascii c) 43 then (false, r) else (false, t)
    | EmptyString => (false, EmptyString)
    end in
  if int_body_ok body false
  then inr (if neg then (- int_body_value body 0)%Z else int_body_value body 0)
  else inl (ValueError ("invalid literal for int() with base 10: " ++ repr_str s)).

(** ** [json.dump(obj, f, ensure_ascii=False, indent=2)] *)

Definition hex4 (n : nat) : string :=
  "\u00" ++ String (hex_digit (n / 16)) (String (hex_digit (n mod 16)) EmptyString).

(** One character inside a JSON string literal. *)
Definition json_escape_char (c : ascii) : string :=
  let n := nat_of_ascii c in
  if Nat.eqb n 34 then String "\" (String c EmptyString)
  else if Nat.eqb n 92 then String "\" (String c EmptyString)
  else if Nat.eqb n 10 then "\n"
  else if Nat.eqb n 13 then "\r"
  else if Nat.eqb n 9 then "\t"
  else if Nat.eqb n 8 then "\b"
  else if Nat.eqb n 12 then "\f"
  else if Nat.ltb n 32 then hex4 n
  else String c EmptyString.

Definition json_quote (s : string) : string :=
  dquote ++ str_fold_left (fun acc c => acc ++ json_escape_char c) s EmptyString ++ dquote.

Definition newline : string := String (ascii_of_nat 10) EmptyString.

Fixpoint spaces (n : nat) : string :=
  match n with O => EmptyString | S n' => String " " (spaces n') end.

(** The items of a non-empty list or dict, one per line, indented two
    spaces deeper than [level] and separated by commas. *)
Fixpoint join_items (level : nat) (items : list string) : string :=
  match items with
  | [] => ""
  | [x] => newline ++ spaces (2 * S level) ++ x
  | x :: r => newline ++ spaces (2 * S level) ++ x ++ "," ++ join_items level r
  end.

(** The text [json.dump] writes for [v] at nesting [level]. *)
Fixpoint json_dump_at (level : nat) (v : json) : string :=
  match v with
  | JNull => "null"
  | JBool true => "true"
  | JBool false => "false"
  | JInt z => str_of_Z z
  | JStr s => json_quote s
  | JList [] => "[]"
  | JList l =>
      "[" ++ join_items level (map (json_dump_at (S level)) l) ++ newline ++ spaces (2 * level) ++ "]"
  | JObj [] => "{}"
  | JObj kvs =>
      "{" ++ join_items level (map (fun '(k, x) => json_quote k ++ ": " ++ json_dump_at (S level) x) kvs)
      ++ newline ++ spaces (2 * level) ++ "}"
  end.

Definition json_dump (v : json) : string := json_dump_at 0 v.

(** [d[k] = v]: a dict keeps the position of an existing key and appends a
    new one. *)
Fixpoint assoc_set (k : string) (v : json) (kvs : list (string * json)) : list (string * json) :=
  match kvs with
  | [] => [(k, v)]
  | (k', x) :: r => if String.eqb k' k then (k', v) :: r else (k', x) :: assoc_set k v r
  end.

Definition py_setitem (d : json) (k : string) (v : json) : sum exn json :=
  match d with
  | JObj kvs => inr (JObj (assoc_set k v kvs))
  | JList _ => inl (TypeError "list indices must be integers or slices, not str")
  | x => inl (TypeError ("'" ++ py_type_name x ++ "' object does not support item assignment"))
  end.

(** ** Lemmas *)

Lemma py_subscript_obj_str (kvs : list (string * json)) (k : string) (v : json) :
  assoc k kvs = Some v -> py_subscript (JObj kvs) (JStr k) = inr v.
Proof. intros H. simpl. now rewrite H. Qed.

Lemma py_truthy_str (s : string) : py_truthy (JStr s) = false <-> s = "".
Proof.
  simpl. rewrite negb_false_iff. apply String.eqb_eq.
Qed.

Lemma assoc_assoc_set (k : string) (v : json) (kvs : list (string * json)) :
  assoc k (assoc_set k v kvs) = Some v.
Proof.
  induction kvs as [|[k' x] r IH]; simpl.
  - now rewrite String.eqb_refl.
  - destruct (String.eqb_spec k' k) as [-> | Hne]; simpl.
    + now rewrite String.eqb_refl.
    + apply String.eqb_neq in Hne. now rewrite Hne.
Qed.
