(* ===== verification/JsonParse.v ===== *)
(** * [json.loads]: CPython's JSON scanner on UTF-8 text

    [json.load(f)] is [json.loads(f.read())], which refuses a leading byte
    order mark, skips white space, scans one value with the C accelerator
    of Modules/_json.c ([scan_once_unicode], [scanstring_unicode],
    [_parse_object_unicode], [_parse_array_unicode],
    [_match_number_unicode]) and refuses anything but white space after
    it.  The text is a UTF-8 byte string: the scanner only tests ASCII
    bytes, so it can walk bytes, and a position is the number of code
    points before it (the bytes that are not continuation bytes).

    A [json] has no floats: a number with a fraction or an exponent, and
    [NaN] or [Infinity], end the scan in [POut], outside the model, as does
    an integer of more than 4300 digits ([int()] raises [ValueError]).
    The nesting is bounded by a fuel, [2 * length + 1], which is enough for
    every text ([parse_fuel_enough], [json_decode_total]).  Error messages
    and their positions are those of the C scanner (before 3.13 and its
    trailing-comma message).  Python's recursion limit on deep nesting is
    not modelled.

    The second half holds the lemmas: the scan never grows the text
    ([parse_length]), more fuel gives the same result ([parse_fuel_mono]),
    [2 * length + 1] fuel suffices, and [json_loads_dump]: [json.loads]
    inverts [json.dump] on values with unique keys ([json_wf]), by the
    nested induction [json_nested_ind] through the list and dict loops.
    The file-level facts for [config.json] (its text-mode dump is valid
    UTF-8 and has no carriage return of its own) come from [json_dump_P],
    one induction for every property that the pieces of a dump share. *)

From Stdlib Require Import String Ascii List ZArith NArith Lia Bool DecimalString.
From Stdlib Require DecimalN DecimalPos DecimalFacts.
From S2P Require Import Prelude Json.
Import ListNotations.
Open Scope string_scope.

(** The outcome of a scan. *)
Inductive pres (A : Type) : Type :=
| PDone (a : A) (rest : string)       (** the value and the text after it *)
| PFail (msg : string) (at_ : string) (** [JSONDecodeError(msg)] at the start of [at_] *)
| POut                                (** outside the model: a float, or an [int] over 4300 digits *)
| PFuel.                              (** out of fuel *)
Arguments PDone {A} a rest.
Arguments PFail {A} msg at_.
Arguments POut {A}.
Arguments PFuel {A}.


(** [IS_WHITESPACE]: space, tab, line feed, carriage return *)
Definition is_ws (c : ascii) : bool :=
  code_is 32 c || code_is 9 c || code_is 10 c || code_is 13 c.

Fixpoint skip_ws (s : string) : string :=
  match s with
  | String c s' => if is_ws c then skip_ws s' else s
  | EmptyString => EmptyString
  end.

(** ** Strings *)

Definition hex_value (c : ascii) : option N :=
  let n := nat_of_ascii c in
  if (Nat.leb 48 n && Nat.leb n 57)%bool then Some (N.of_nat (n - 48))
  else if (Nat.leb 97 n && Nat.leb n 102)%bool then Some (N.of_nat (n - 87))
  else if (Nat.leb 65 n && Nat.leb n 70)%bool then Some (N.of_nat (n - 55))
  else None.

Definition hex4_value (a b c d : ascii) : option N :=
  match hex_value a, hex_value b, hex_value c, hex_value d with
  | Some x, Some y, Some z, Some t => Some (((x * 16 + y) * 16 + z) * 16 + t)%N
  | _, _, _, _ => None
  end.

Definition byte (n : N) : ascii := ascii_of_N n.

(** The UTF-8 bytes of a code point (a lone surrogate gets the three bytes
    of its value). *)
Definition utf8_encode (u : N) : string :=
  if (u <? 128)%N then String (byte u) ""
  else if (u <? 2048)%N then
    String (byte (192 + u / 64)) (String (byte (128 + u mod 64)) "")
  else if (u <? 65536)%N then
    String (byte (224 + u / 4096)) (String (byte (128 + (u / 64) mod 64)) (String (byte (128 + u mod 64)) ""))
  else
    String (byte (240 + u / 262144)) (String (byte (128 + (u / 4096) mod 64))
      (String (byte (128 + (u / 64) mod 64)) (String (byte (128 + u mod 64)) ""))).

Definition is_high_surrogate (u : N) : bool := ((55296 <=? u) && (u <=? 56319))%N.
Definition is_low_surrogate (u : N) : bool := ((56320 <=? u) && (u <=? 57343))%N.
Definition join_surrogates (hi lo : N) : N := (65536 + (hi - 55296) * 1024 + (lo - 56320))%N.

(** The one-character escapes: backslash followed by a double quote, a backslash, a slash, [b], [f], [n], [r] or [t]. *)
Definition simple_escape (e : ascii) : option ascii :=
  let n := nat_of_ascii e in
  if Nat.eqb n 34 then Some e
  else if Nat.eqb n 92 then Some e
  else if Nat.eqb n 47 then Some e
  else if Nat.eqb n 98 then Some (ascii_of_nat 8)
  else if Nat.eqb n 102 then Some (ascii_of_nat 12)
  else if Nat.eqb n 110 then Some (ascii_of_nat 10)
  else if Nat.eqb n 114 then Some (ascii_of_nat 13)
  else if Nat.eqb n 116 then Some (ascii_of_nat 9)
  else None.

(** [scanstring_unicode] after the opening quote; [begin] is the text from
    the quote on. *)
Fixpoint scan_str (s acc begin : string) : pres string :=
  match s with
  | EmptyString => PFail "Unterminated string starting at" begin
  | String c s1 =>
      if code_is 34 c then PDone acc s1
      else if code_is 92 c then
        match s1 with
        | EmptyString => PFail "Unterminated string starting at" begin
        | String e s2 =>
            if code_is 117 e then
              match s2 with
              | String h1 (String h2 (String h3 (String h4 (String _ _ as t5)))) =>
                  match hex4_value h1 h2 h3 h4 with
                  | None => PFail "Invalid \uXXXX escape" s1
                  | Some u =>
                      if is_high_surrogate u then
                        match t5 with
                        | String b1 (String _ (String g1 (String g2 (String g3 (String g4 (String _ _ as t7))))) as t6) =>
                            if code_is 92 b1 && match t6 with String b2 _ => code_is 117 b2 | _ => false end then
                              match hex4_value g1 g2 g3 g4 with
                              | None => PFail "Invalid \uXXXX escape" t6
                              | Some u2 =>
                                  if is_low_surrogate u2
                                  then scan_str t7 (acc ++ utf8_encode (join_surrogates u u2)) begin
                                  else scan_str t5 (acc ++ utf8_encode u) begin
                              end
                            else scan_str t5 (acc ++ utf8_encode u) begin
                        | _ => scan_str t5 (acc ++ utf8_encode u) begin
                        end
                      else scan_str t5 (acc ++ utf8_encode u) begin
                  end
              | _ => PFail "Invalid \uXXXX escape" s1
              end
            else
              match simple_escape e with
              | Some ch => scan_str s2 (acc ++ String ch "") begin
              | None => PFail "Invalid \escape" s
              end
        end
      else if Nat.leb (nat_of_ascii c) 31 then PFail "Invalid control character at" s
      else scan_str s1 (acc ++ String c "") begin
  end.

(** ** Numbers *)

Fixpoint take_digits (s : string) : string * string :=
  match s with
  | String c s' => if is_digit c then let '(d, r) := take_digits s' in (String c d, r) else ("", s)
  | EmptyString => ("", "")
  end.

(** The value of a run of decimal digits. *)
Definition digits_N (ds : string) : N :=
  match NilEmpty.uint_of_string ds with Some u => N.of_uint u | None => 0%N end.

(** What follows the integer part: a fraction [.d] or an exponent [e[+-]d]
    makes the number a float. *)
Definition float_tail (r : string) : bool :=
  match r with
  | String p (String d _) =>
      (code_is 46 p && is_digit d) ||
      ((code_is 101 p || code_is 69 p) &&
       match String d "" ++ str_drop 2 r with
       | String sg (String d2 _) => if code_is 43 sg || code_is 45 sg then is_digit d2 else is_digit sg
       | String d1 _ => is_digit d1
       | _ => false
       end)
  | _ => false
  end.

(** [_match_number_unicode] at [s]. *)
Definition parse_number (s : string) : pres json :=
  let '(neg, s1) := match s with
                    | String c r => if code_is 45 c then (true, r) else (false, s)
                    | EmptyString => (false, s)
                    end in
  match s1 with
  | EmptyString => PFail "Expecting value" s
  | String c r =>
      let '(ds, r') := if code_is 48 c then ("0", r)
                       else let '(d, r') := take_digits r in (String c d, r') in
      if is_digit c then
        if float_tail r' then POut
        else if Nat.ltb 4300 (String.length ds) then POut
        else let z := Z.of_N (digits_N ds) in PDone (JInt (if neg then (- z)%Z else z)) r'
      else PFail "Expecting value" s
  end.

(** ** Values *)

Definition pres_str (r : pres string) : pres json :=
  match r with
  | PDone a rest => PDone (JStr a) rest
  | PFail m a => PFail m a
  | POut => POut
  | PFuel => PFuel
  end.

(** [scan_once_unicode], and the loops of [_parse_object_unicode]
    ([parse_members], at a key) and [_parse_array_unicode] ([parse_elems],
    at an element); each call spends one unit of fuel. *)
Fixpoint parse_value (fuel : nat) (s : string) : pres json :=
  match fuel with
  | O => PFuel
  | S f =>
      match s with
      | EmptyString => PFail "Expecting value" s
      | String c s1 =>
          if code_is 34 c then pres_str (scan_str s1 "" s)
          else if code_is 123 c then
            match skip_ws s1 with
            | String d r as t => if code_is 125 d then PDone (JObj []) r else parse_members f t []
            | EmptyString => parse_members f EmptyString []
            end
          else if code_is 91 c then
            match skip_ws s1 with
            | String d r as t => if code_is 93 d then PDone (JList []) r else parse_elems f t []
            | EmptyString => parse_elems f EmptyString []
            end
          else if String.prefix "null" s then PDone JNull (str_drop 4 s)
          else if String.prefix "true" s then PDone (JBool true) (str_drop 4 s)
          else if String.prefix "false" s then PDone (JBool false) (str_drop 5 s)
          else if String.prefix "NaN" s || String.prefix "Infinity" s || String.prefix "-Infinity" s
          then POut
          else parse_number s
      end
  end
with parse_members (fuel : nat) (s : string) (acc : list (string * json)) : pres json :=
  match fuel with
  | O => PFuel
  | S f =>
      match s with
      | String c s1 =>
          if code_is 34 c then
            match scan_str s1 "" s with
            | PDone k r =>
                match skip_ws r with
                | String d r2 as t =>
                    if code_is 58 d then
                      match parse_value f (skip_ws r2) with
                      | PDone v r4 =>
                          let acc' := assoc_set k v acc in
                          match skip_ws r4 with
                          | String e r6 as t' =>
                              if code_is 125 e then PDone (JObj acc') r6
                              else if code_is 44 e then parse_members f (skip_ws r6) acc'
                              else PFail "Expecting ',' delimiter" t'
                          | EmptyString => PFail "Expecting ',' delimiter" EmptyString
                          end
                      | PFail m a => PFail m a
                      | POut => POut
                      | PFuel => PFuel
                      end
                    else PFail "Expecting ':' delimiter" t
                | EmptyString => PFail "Expecting ':' delimiter" EmptyString
                end
            | PFail m a => PFail m a
            | POut => POut
            | PFuel => PFuel
            end
          else PFail "Expecting property name enclosed in double quotes" s
      | EmptyString => PFail "Expecting property name enclosed in double quotes" s
      end
  end
with parse_elems (fuel : nat) (s : string) (acc : list json) : pres json :=
  match fuel with
  | O => PFuel
  | S f =>
      match parse_value f s with
      | PDone v r =>
          match skip_ws r with
          | String e r2 as t =>
              if code_is 93 e then PDone (JList (acc ++ [v])) r2
              else if code_is 44 e then parse_elems f (skip_ws r2) (acc ++ [v])
              else PFail "Expecting ',' delimiter" t
          | EmptyString => PFail "Expecting ',' delimiter" EmptyString
          end
      | PFail m a => PFail m a
      | POut => POut
      | PFuel => PFuel
      end
  end.

(** ** [json.loads] *)

(** Bytes that start a code point. *)
Definition starts_code_point (c : ascii) : bool :=
  negb (Nat.leb 128 (nat_of_ascii c) && Nat.leb (nat_of_ascii c) 191).

Fixpoint cp_count (s : string) : nat :=
  match s with
  | EmptyString => 0
  | String c s' => (if starts_code_point c then 1 else 0) + cp_count s'
  end.

(** The text after the last line feed of [s], if it has one. *)
Fixpoint after_last_newline (s : string) : option string :=
  match s with
  | EmptyString => None
  | String c s' =>
      match after_last_newline s' with
      | Some t => Some t
      | None => if code_is 10 c then Some s' else None
      end
  end.

Fixpoint count_newlines (s : string) : nat :=
  match s with
  | EmptyString => 0
  | String c s' => (if code_is 10 c then 1 else 0) + count_newlines s'
  end.

(** [JSONDecodeError(msg, doc, pos)]: ["msg: line L column C (char P)"]. *)
Definition decode_error (doc msg : string) (at_ : string) : exn :=
  let pre := substring 0 (String.length doc - String.length at_) doc in
  DecodeError (msg ++ ": line " ++ str_of_nat (S (count_newlines pre))
               ++ " column " ++ str_of_nat (S (cp_count (match after_last_newline pre with Some t => t | None => pre end)))
               ++ " (char " ++ str_of_nat (cp_count pre) ++ ")").

Definition bom : string := String (ascii_of_nat 239) (String (ascii_of_nat 187) (String (ascii_of_nat 191) "")).

(** [JSONDecoder.decode]: one value between white space. *)
Definition json_decode (s : string) : pres json :=
  match parse_value (S (2 * String.length s)) (skip_ws s) with
  | PDone v r => match skip_ws r with
                 | EmptyString => PDone v EmptyString
                 | t => PFail "Extra data" t
                 end
  | other => other
  end.

(** [json.loads(s)]; [None] for a document outside the model (a float). *)
Definition json_loads (s : string) : option (sum exn json) :=
  if String.prefix bom s
  then Some (inl (decode_error s "Unexpected UTF-8 BOM (decode using utf-8-sig)" s))
  else match json_decode s with
       | PDone v _ => Some (inr v)
       | PFail m a => Some (inl (decode_error s m a))
       | POut | PFuel => None
       end.



Definition in_range (lo hi : nat) (c : ascii) : bool :=
  Nat.leb lo (nat_of_ascii c) && Nat.leb (nat_of_ascii c) hi.

(** The strict UTF-8 decoder of [encoding='utf-8'] accepts exactly the
    well-formed sequences of the Unicode standard (table 3-7): no
    overlong forms, no surrogates, nothing above U+10FFFF. *)
Fixpoint utf8_valid (s : string) : bool :=
  match s with
  | EmptyString => true
  | String c r =>
      let n := nat_of_ascii c in
      if Nat.ltb n 128 then utf8_valid r
      else if in_range 194 223 c then
        match r with
        | String c2 r2 => in_range 128 191 c2 && utf8_valid r2
        | EmptyString => false
        end
      else if in_range 224 239 c then
        match r with
        | String c2 (String c3 r3) =>
            in_range (if Nat.eqb n 224 then 160 else 128) (if Nat.eqb n 237 then 159 else 191) c2
            && in_range 128 191 c3 && utf8_valid r3
        | _ => false
        end
      else if in_range 240 244 c then
        match r with
        | String c2 (String c3 (String c4 r4)) =>
            in_range (if Nat.eqb n 240 then 144 else 128) (if Nat.eqb n 244 then 143 else 191) c2
            && in_range 128 191 c3 && in_range 128 191 c4 && utf8_valid r4
        | _ => false
        end
      else false
  end.

(** ** The values [json.dump] writes *)

Definition safe_rest (r : string) : bool :=
  match r with EmptyString => true | String c _ => code_is 44 c || code_is 10 c end.

(** [str(n)] has at most Python's 4300 digits. *)
Definition int_digits_ok (z : Z) : bool :=
  Nat.leb (String.length (NilEmpty.string_of_uint (N.to_uint (Z.abs_N z)))) 4300.

Fixpoint escape_all (s : string) : string :=
  match s with
  | EmptyString => EmptyString
  | String c s' => json_escape_char c ++ escape_all s'
  end.

Section JsonInd.
Variable P : json -> Prop.
Hypothesis Hnull : P JNull.
Hypothesis Hbool : forall b, P (JBool b).
Hypothesis Hint : forall z, P (JInt z).
Hypothesis Hstr : forall s, P (JStr s).
Hypothesis Hlist : forall l, Forall P l -> P (JList l).
Hypothesis Hobj : forall kvs, Forall (fun kv => P (snd kv)) kvs -> P (JObj kvs).

Fixpoint json_nested_ind (v : json) : P v :=
  match v with
  | JNull => Hnull
  | JBool b => Hbool b
  | JInt z => Hint z
  | JStr s => Hstr s
  | JList l => Hlist l ((fix go (l : list json) : Forall P l :=
                         match l with
                         | [] => Forall_nil _
                         | x :: r => Forall_cons x (json_nested_ind x) (go r)
                         end) l)
  | JObj kvs => Hobj kvs ((fix go (kvs : list (string * json)) : Forall (fun kv => P (snd kv)) kvs :=
                            match kvs with
                            | [] => Forall_nil _
                            | kv :: r => Forall_cons kv (json_nested_ind (snd kv)) (go r)
                            end) kvs)
  end.
End JsonInd.

Fixpoint nodup_keys (kvs : list (string * json)) : bool :=
  match kvs with
  | [] => true
  | (k, _) :: r => negb (existsb (fun kv => String.eqb (fst kv) k) r) && nodup_keys r
  end.

(** A value [json.loads] gives back unchanged: dict keys are unique (a
    duplicate key keeps only its last value) and each [int] has at most
    4300 digits. *)
Fixpoint json_wf (v : json) : bool :=
  match v with
  | JInt z => int_digits_ok z
  | JList l => forallb json_wf l
  | JObj kvs => nodup_keys kvs && forallb (fun kv => json_wf (snd kv)) kvs
  | _ => true
  end.

Fixpoint json_size (v : json) : nat :=
  match v with
  | JList l => S (list_sum (map (fun x => S (json_size x)) l))
  | JObj kvs => S (list_sum (map (fun kv => S (json_size (snd kv))) kvs))
  | _ => 1
  end.

(** The characters a dump can start with. *)
Definition value_start (c : ascii) : bool :=
  is_digit c || code_is 45 c || code_is 34 c || code_is 91 c || code_is 123 c
  || code_is 110 c || code_is 116 c || code_is 102 c.

Definition member_text (lv : nat) (kv : string * json) : string :=
  let '(k, x) := kv in json_quote k ++ ": " ++ json_dump_at (S lv) x.

Definition is_ascii (c : ascii) : bool := Nat.ltb (nat_of_ascii c) 128.

Definition no_cr_lf (c : ascii) : bool := negb (code_is 13 c) && negb (code_is 10 c).

Definition plain_char (c : ascii) : bool := is_ascii c && negb (code_is 13 c).

(** The strings a config may hold: every [str] and dict key is text. *)
Fixpoint json_text_ok (v : json) : bool :=
  match v with
  | JStr s => utf8_valid s
  | JList l => forallb json_text_ok l
  | JObj kvs => forallb (fun kv => utf8_valid (fst kv) && json_text_ok (snd kv)) kvs
  | _ => true
  end.

(** A config in the shape of config.json, with a non-ASCII key, escapes and
    a negative number. *)
Definition json_sample : json :=
  JObj [("apis", JObj [("song_download", JObj [("request_interval", JInt 1000);
                                              ("quality_options", JList [JStr "128k"; JStr "320k"]);
                                              ("备注", JStr ("网易" ++ newline ++ "\x" ++ String (ascii_of_nat 9) ""))])]);
        ("offset", JInt (-42)); ("empty", JObj []); ("flags", JList [JBool true; JNull; JList []])].

(** ** Lemmas *)

Lemma skip_ws_length s : String.length (skip_ws s) <= String.length s.
Proof. induction s as [|c s IH]; simpl; [lia|]. destruct (is_ws c); simpl; lia. Qed.

Lemma scan_str_length s acc b k r :
  scan_str s acc b = PDone k r -> String.length r < String.length s.
Proof.
  revert acc. induction s as [s IH] using string_len_ind. intros acc H.
  destruct s as [|c s1]; [discriminate|]. cbn [scan_str] in H.
  repeat (case_in H; try discriminate); subst; cbn [String.length] in *;
  try (injection H as <- <-; lia);
  match type of H with scan_str ?t _ _ = _ => apply IH in H; cbn [String.length] in *; lia end.
Qed.

Lemma take_digits_length s d r : take_digits s = (d, r) -> String.length d + String.length r = String.length s.
Proof.
  revert d r. induction s as [|c s IH]; simpl; intros d r H.
  - now injection H as <- <-.
  - destruct (is_digit c); [|now injection H as <- <-].
    destruct (take_digits s) as [d' r'] eqn:E. injection H as <- <-. simpl. rewrite <- (IH _ _ eq_refl). lia.
Qed.

Ltac pair_eqs :=
  repeat match goal with
  | H : (_, _) = (_, _) |- _ => injection H; clear H; intros; subst
  end.

Lemma parse_number_length s v r : parse_number s = PDone v r -> String.length r < String.length s.
Proof.
  unfold parse_number. intros H.
  destruct s as [|c s1]; [discriminate|].
  repeat (case_any; try discriminate); subst; pair_eqs;
  repeat match goal with E : take_digits _ = _ |- _ => apply take_digits_length in E end;
  injection H as _ <-; cbn [String.length] in *; lia.
Qed.

Lemma pdone_inj {A : Type} (a b : A) r r' : PDone a r = PDone b r' -> a = b /\ r = r'.
Proof. now injection 1. Qed.

Ltac len_facts IH1 :=
  repeat match goal with
  | H : scan_str _ _ _ = PDone _ _ |- _ => apply scan_str_length in H
  | H : parse_number _ = PDone _ _ |- _ => apply parse_number_length in H
  | H : String.prefix ?p ?s = true |- _ => apply prefix_drop_length in H; cbn [String.length] in H
  | H : skip_ws ?a = ?b |- _ =>
      let L := fresh "L" in pose proof (skip_ws_length a) as L; rewrite H in L; clear H
  | H : parse_value _ _ = PDone _ _ |- _ => apply IH1 in H
  | H : context [skip_ws ?a] |- _ =>
      let L := fresh "L" in let SW := fresh "SW" in
      pose proof (skip_ws_length a) as L; set (SW := skip_ws a) in *; clearbody SW
  end; cbn [String.length] in *.

Lemma parse_length f :
  (forall s v r, parse_value f s = PDone v r -> String.length r < String.length s) /\
  (forall s acc v r, parse_members f s acc = PDone v r -> String.length r < String.length s) /\
  (forall s acc v r, parse_elems f s acc = PDone v r -> String.length r < String.length s).
Proof.
  induction f as [|f [IHv [IHm IHe]]]; [repeat split; discriminate|].
  repeat split.
  - intros s v r H. destruct s as [|c s1]; [discriminate|]. cbn [parse_value] in H.
    repeat (case_in H; try discriminate); subst;
    try match type of H with parse_members _ _ _ = _ => apply IHm in H
                        | parse_elems _ _ _ = _ => apply IHe in H
                        | pres_str _ = _ => destruct (scan_str _ _ _) eqn:E; cbn in H; try discriminate; apply pdone_inj in H as [_ <-] end;
    try (apply pdone_inj in H as [_ <-]); len_facts IHv; lia.
  - intros s acc v r H. destruct s as [|c s1]; [discriminate|]. cbn [parse_members] in H.
    repeat (case_in H; try discriminate); subst;
    try match type of H with parse_members _ _ _ = _ => apply IHm in H end;
    try (apply pdone_inj in H as [_ <-]); len_facts IHv; lia.
  - intros s acc v r H. cbn [parse_elems] in H.
    repeat (case_in H; try discriminate); subst;
    try match type of H with parse_elems _ _ _ = _ => apply IHe in H end;
    try (apply pdone_inj in H as [_ <-]); len_facts IHv; lia.
Qed.

Ltac case_goal_nonrec :=
  match goal with
  | |- context [match ?x with _ => _ end] =>
      lazymatch x with
      | parse_value _ _ => fail
      | _ => destruct x eqn:?
      end
  end.

Lemma parse_fuel_mono f :
  (forall g s, f <= g -> parse_value f s <> PFuel -> parse_value g s = parse_value f s) /\
  (forall g s acc, f <= g -> parse_members f s acc <> PFuel -> parse_members g s acc = parse_members f s acc) /\
  (forall g s acc, f <= g -> parse_elems f s acc <> PFuel -> parse_elems g s acc = parse_elems f s acc).
Proof.
  induction f as [|f [IHv [IHm IHe]]]; [repeat split; intros; exfalso; auto|].
  repeat split; intros [|g] s; try (intros; lia); [|intros acc..]; intros Hle H;
  cbn [parse_value parse_members parse_elems] in *;
  repeat (case_goal_nonrec; try reflexivity);
  repeat match goal with
  | |- parse_members g ?t ?a = parse_members f ?t ?a => apply IHm; [lia | exact H]
  | |- parse_elems g ?t ?a = parse_elems f ?t ?a => apply IHe; [lia | exact H]
  | |- context [match parse_value f ?x with _ => _ end] =>
      let E := fresh "E" in
      destruct (parse_value f x) eqn:E; try (exfalso; apply H; reflexivity);
      rewrite (IHv g x) by (lia || (rewrite E; discriminate)); rewrite E; cbn iota beta
  | |- _ => progress (repeat (case_goal_nonrec; try reflexivity))
  end; try reflexivity.
Qed.

Lemma scan_str_not_fuel s acc b : scan_str s acc b <> PFuel.
Proof.
  revert acc. induction s as [s IH] using string_len_ind. intros acc.
  destruct s as [|c s1]; [discriminate|]. cbn [scan_str].
  repeat (case_goal_nonrec; try discriminate); apply IH; cbn [String.length]; lia.
Qed.

Lemma parse_number_not_fuel s : parse_number s <> PFuel.
Proof. unfold parse_number. repeat (case_goal_nonrec; try discriminate). Qed.

Lemma pres_str_not_fuel s acc b : pres_str (scan_str s acc b) <> PFuel.
Proof. pose proof (scan_str_not_fuel s acc b). destruct (scan_str s acc b); simpl; congruence. Qed.

Lemma parse_fuel_enough f :
  (forall s, 2 * String.length s < f -> parse_value f s <> PFuel) /\
  (forall s acc, 2 * String.length s < f -> parse_members f s acc <> PFuel) /\
  (forall s acc, S (2 * String.length s) < f -> parse_elems f s acc <> PFuel).
Proof.
  induction f as [|f [IHv [IHm IHe]]]; [repeat split; intros; lia|].
  pose proof (proj1 (parse_length f)) as Hlen.
  repeat split; intros s; [|intros acc..]; intros Hf;
  cbn [parse_value parse_members parse_elems] in *;
  repeat (case_goal_nonrec; try discriminate);
  repeat match goal with
  | |- context [match parse_value f ?x with _ => _ end] =>
      let E := fresh "E" in
      destruct (parse_value f x) eqn:E; try discriminate;
      try (exfalso; revert E; apply IHv);
      repeat (case_goal_nonrec; try discriminate)
  end;
  subst; try (exfalso; eapply scan_str_not_fuel; eassumption);
  try (apply pres_str_not_fuel || apply parse_number_not_fuel
              || apply IHm || apply IHe || apply IHv);
  len_facts Hlen;
  repeat match goal with
  | |- context [skip_ws ?a] =>
      let L := fresh "L" in let SW := fresh "SW" in
      pose proof (skip_ws_length a) as L; set (SW := skip_ws a) in *; clearbody SW
  end; cbn [String.length] in *; lia.
Qed.

Lemma skip_ws_spaces n t : skip_ws (spaces n ++ t) = skip_ws t.
Proof. induction n; simpl; auto. Qed.

Lemma skip_ws_newline t : skip_ws (newline ++ t) = skip_ws t.
Proof. reflexivity. Qed.

Lemma skip_ws_stop c t : is_ws c = false -> skip_ws (String c t) = String c t.
Proof. intros H. simpl. now rewrite H. Qed.

Lemma is_digit_cases c : is_digit c = true ->
  In c ["0"; "1"; "2"; "3"; "4"; "5"; "6"; "7"; "8"; "9"]%char.
Proof. destruct c as [[] [] [] [] [] [] [] []]; try discriminate; intros _; simpl; tauto. Qed.

Lemma string_of_uint_digits u : all_chars is_digit (NilEmpty.string_of_uint u) = true.
Proof. induction u; simpl; auto. Qed.

Lemma to_uint_D0 n u : N.to_uint n = Decimal.D0 u -> u = Decimal.Nil.
Proof.
  intros E.
  assert (Hn : Decimal.unorm (N.to_uint n) = N.to_uint n).
  { rewrite <- DecimalN.Unsigned.to_of, DecimalN.Unsigned.of_to. reflexivity. }
  rewrite E in Hn. pose proof (DecimalFacts.nb_digits_nzhead u) as L. unfold Decimal.unorm in Hn. simpl in Hn.
  destruct (Decimal.nzhead u) eqn:Z; try discriminate;
  inversion Hn; subst; simpl in *; try lia; auto.
Qed.

Lemma to_uint_head n : exists c t, NilEmpty.string_of_uint (N.to_uint n) = String c t /\
  is_digit c = true /\ (c = "0"%char -> t = "").
Proof.
  destruct (N.to_uint n) eqn:E;
  try (exfalso; destruct n as [|p]; [discriminate|]; now apply (DecimalPos.Unsigned.to_uint_nonnil p));
  try (apply to_uint_D0 in E; subst; exists "0"%char, ""; now auto);
  (eexists _, _; split; [reflexivity|]; split; [reflexivity|]; discriminate).
Qed.

Lemma code_is_eq n c : code_is n c = true -> c = ascii_of_nat n.
Proof. unfold code_is. intros H. apply Nat.eqb_eq in H. rewrite <- H. symmetry. apply ascii_nat_embedding. Qed.

Lemma safe_rest_cases r : safe_rest r = true ->
  r = "" \/ exists t, r = String "," t \/ r = newline ++ t.
Proof.
  destruct r as [|c t]; [now left|]. simpl. intros H. right. exists t.
  apply orb_true_iff in H as [H|H]; apply code_is_eq in H; subst; [left|right]; reflexivity.
Qed.

Lemma take_digits_app ds rest : all_chars is_digit ds = true -> safe_rest rest = true ->
  take_digits (ds ++ rest) = (ds, rest).
Proof.
  intros Hd Hr. induction ds as [|c ds IH]; simpl in *.
  - now destruct (safe_rest_cases _ Hr) as [-> | [t [-> | ->]]].
  - apply andb_true_iff in Hd as [Hc Hd]. rewrite Hc, IH; auto.
Qed.

Lemma float_tail_safe rest : safe_rest rest = true -> float_tail rest = false.
Proof. intros Hr. destruct (safe_rest_cases _ Hr) as [-> | [[|c t] [-> | ->]]]; reflexivity. Qed.

Lemma digits_N_to_uint n : digits_N (NilEmpty.string_of_uint (N.to_uint n)) = n.
Proof. unfold digits_N. rewrite NilEmpty.usu. apply DecimalN.Unsigned.of_to. Qed.

Lemma code_minus : code_is 45 "-" = true.
Proof. reflexivity. Qed.

Lemma parse_number_digits (neg : bool) n rest :
  safe_rest rest = true ->
  Nat.leb (String.length (NilEmpty.string_of_uint (N.to_uint n))) 4300 = true ->
  parse_number ((if neg then "-" else "") ++ NilEmpty.string_of_uint (N.to_uint n) ++ rest)
  = PDone (JInt (if neg then (- Z.of_N n)%Z else Z.of_N n)) rest.
Proof.
  intros Hr Hlen. destruct (to_uint_head n) as (c & t & E & Hc & H0).
  pose proof (string_of_uint_digits (N.to_uint n)) as Hall. rewrite E in Hall.
  simpl in Hall. rewrite Hc in Hall. simpl in Hall.
  replace (Z.of_N n) with (Z.of_N (digits_N (String c t))) by (rewrite <- E, digits_N_to_uint; reflexivity).
  rewrite E in Hlen |- *.
  assert (H45 : code_is 45 c = false)
    by (apply is_digit_cases in Hc; simpl in Hc; repeat (destruct Hc as [<-|Hc]; [reflexivity|]); contradiction).
  unfold parse_number.
  destruct neg; cbn [append]; cbn iota beta; rewrite ?H45, ?code_minus; cbn iota beta zeta;
  (destruct (code_is 48 c) eqn:C;
   [ assert (c = "0"%char) as -> by (apply is_digit_cases in Hc; simpl in Hc;
       repeat (destruct Hc as [<-|Hc]; try discriminate); [reflexivity | contradiction]);
     rewrite (H0 eq_refl) in *
   | rewrite take_digits_app by assumption ]);
  cbn iota beta zeta; rewrite Hc, float_tail_safe, Nat.ltb_antisym, Hlen by exact Hr; reflexivity.
Qed.

Lemma fold_escape s a :
  str_fold_left (fun acc c => acc ++ json_escape_char c) s a = a ++ escape_all s.
Proof.
  revert a. induction s as [|c s IH]; intros a; simpl; [now rewrite append_nil_r|].
  now rewrite IH, append_assoc.
Qed.

Lemma json_quote_escape s : json_quote s = dquote ++ escape_all s ++ dquote.
Proof. unfold json_quote. now rewrite fold_escape. Qed.

Lemma scan_escape_char c x t acc b :
  scan_str (json_escape_char c ++ String x t) acc b = scan_str (String x t) (acc ++ String c "") b.
Proof. destruct c as [[] [] [] [] [] [] [] []]; reflexivity. Qed.

Lemma scan_escaped s rest acc b : scan_str (escape_all s ++ dquote ++ rest) acc b = PDone (acc ++ s) rest.
Proof.
  revert acc. induction s as [|c s IH]; intros acc; cbn [escape_all append].
  - cbn. now rewrite append_nil_r.
  - rewrite append_assoc.
    destruct (escape_all s ++ dquote ++ rest) as [|x t] eqn:E;
      [destruct (escape_all s); discriminate|].
    rewrite scan_escape_char, IH, append_assoc. reflexivity.
Qed.

Lemma parse_value_quote f s rest : parse_value (S f) (json_quote s ++ rest) = PDone (JStr s) rest.
Proof.
  rewrite json_quote_escape. cbn [parse_value append dquote]. cbn iota beta.
  change (code_is 34 (ascii_of_nat 34)) with true. cbn iota.
  rewrite append_assoc, scan_escaped. reflexivity.
Qed.

Lemma parse_value_digit f c t : is_digit c = true -> parse_value (S f) (String c t) = parse_number (String c t).
Proof.
  intros Hc. apply is_digit_cases in Hc. simpl in Hc.
  repeat (destruct Hc as [<-|Hc]; [reflexivity|]). contradiction.
Qed.

Lemma parse_value_minus f d t : is_digit d = true ->
  parse_value (S f) (String "-" (String d t)) = parse_number (String "-" (String d t)).
Proof.
  intros Hc. apply is_digit_cases in Hc. simpl in Hc.
  repeat (destruct Hc as [<-|Hc]; [reflexivity|]). contradiction.
Qed.

Lemma str_of_Z_sign z :
  str_of_Z z = (if (z <? 0)%Z then "-" else "") ++ NilEmpty.string_of_uint (N.to_uint (Z.abs_N z)).
Proof. destruct z; reflexivity. Qed.

Lemma parse_value_int f z rest : int_digits_ok z = true -> safe_rest rest = true ->
  parse_value (S f) (str_of_Z z ++ rest) = PDone (JInt z) rest.
Proof.
  intros Hz Hr.
  assert (Hs : str_of_Z z ++ rest = (if (z <? 0)%Z then "-" else "")
                 ++ NilEmpty.string_of_uint (N.to_uint (Z.abs_N z)) ++ rest)
    by (rewrite str_of_Z_sign, append_assoc; reflexivity).
  assert (Hv : z = if (z <? 0)%Z then (- Z.of_N (Z.abs_N z))%Z else Z.of_N (Z.abs_N z))
    by (destruct z; reflexivity).
  rewrite Hs. rewrite Hv at 3. rewrite <- parse_number_digits by assumption.
  destruct (to_uint_head (Z.abs_N z)) as (c & t & E & Hc & _). rewrite E.
  destruct (z <? 0)%Z; cbn [append].
  - now apply parse_value_minus.
  - now apply parse_value_digit.
Qed.

Lemma value_start_cases c : value_start c = true ->
  In c ["0"; "1"; "2"; "3"; "4"; "5"; "6"; "7"; "8"; "9"; "-"; ascii_of_nat 34; "["; "{"; "n"; "t"; "f"]%char.
Proof.
  unfold value_start. intros H.
  repeat (apply orb_true_iff in H as [H|H]);
  try (apply is_digit_cases in H; simpl in H |- *; tauto);
  apply code_is_eq in H; subst; simpl; tauto.
Qed.

Lemma json_dump_head lv v : exists c t, json_dump_at lv v = String c t /\ value_start c = true.
Proof.
  destruct v as [| [] | z | s | [|x l] | [|kv kvs]]; try (eexists _, _; split; reflexivity).
  - destruct (to_uint_head (Z.abs_N z)) as (c & t & E & Hc & _).
    cbn [json_dump_at]. rewrite str_of_Z_sign, E.
    destruct (z <? 0)%Z; eexists _, _; (split; [reflexivity|]); [reflexivity|]. unfold value_start. now rewrite Hc.
Qed.

Lemma value_start_skip c t : value_start c = true -> skip_ws (String c t) = String c t.
Proof. intros H. apply value_start_cases in H. simpl in H. repeat (destruct H as [<-|H]; [reflexivity|]). contradiction. Qed.

Lemma skip_ws_dump lv v t : skip_ws (json_dump_at lv v ++ t) = json_dump_at lv v ++ t.
Proof.
  destruct (json_dump_head lv v) as (c & u & E & H). rewrite E. simpl append. now apply value_start_skip.
Qed.

Lemma parse_elems_dump lv xs acc g rest :
  xs <> [] ->
  (forall x, In x xs -> forall g rest, json_size x <= g -> safe_rest rest = true ->
       parse_value g (json_dump_at (S lv) x ++ rest) = PDone x rest) ->
  list_sum (map (fun x => S (json_size x)) xs) <= g ->
  parse_elems g (skip_ws (join_items lv (map (json_dump_at (S lv)) xs)
                          ++ newline ++ spaces (2 * lv) ++ "]" ++ rest)) acc
  = PDone (JList (acc ++ xs)) rest.
Proof.
  revert acc g. induction xs as [|x xs IHxs]; intros acc g Hne IH Hsz; [congruence|].
  destruct g as [|g]; [simpl in Hsz; lia|].
  destruct xs as [|y r]; cbn [map join_items]; rewrite !append_assoc, skip_ws_newline, skip_ws_spaces, skip_ws_dump;
    cbn [parse_elems]; rewrite (IH x (or_introl eq_refl) g) by (simpl in Hsz; lia || reflexivity).
  - rewrite skip_ws_newline, skip_ws_spaces. reflexivity.
  - cbn [append]. change (skip_ws (String "," ?t)) with (String "," t). cbn iota.
    change (code_is 93 ",") with false. change (code_is 44 ",") with true. cbn iota.
    replace (acc ++ x :: y :: r)%list with ((acc ++ [x]) ++ y :: r)%list by (rewrite <- app_assoc; reflexivity).
    change (json_dump_at (S lv) y :: map (json_dump_at (S lv)) r) with (map (json_dump_at (S lv)) (y :: r)).
    apply IHxs; [discriminate | intros z Hz; apply IH; now right | simpl in Hsz |- *; lia].
Qed.

Lemma assoc_set_fresh k v acc :
  existsb (fun kv => String.eqb (fst kv) k) acc = false -> assoc_set k v acc = (acc ++ [(k, v)])%list.
Proof.
  induction acc as [|[k' x] acc IH]; simpl; [reflexivity|].
  intros H. apply orb_false_iff in H as [H1 H2]. now rewrite H1, IH.
Qed.

Lemma nodup_keys_fresh acc k x r :
  nodup_keys (acc ++ (k, x) :: r) = true -> existsb (fun kv => String.eqb (fst kv) k) acc = false.
Proof.
  induction acc as [|[k' x'] acc IH]; simpl; [reflexivity|].
  intros H. apply andb_true_iff in H as [H1 H2]. rewrite (IH H2), orb_false_r.
  apply negb_true_iff in H1. rewrite existsb_app in H1. apply orb_false_iff in H1 as [_ H1].
  simpl in H1. apply orb_false_iff in H1 as [H1 _]. now rewrite String.eqb_sym.
Qed.

Lemma json_quote_cons k t :
  json_quote k ++ t = String (ascii_of_nat 34) (escape_all k ++ dquote ++ t).
Proof. rewrite json_quote_escape, !append_assoc. reflexivity. Qed.

Lemma skip_ws_quote k t : skip_ws (json_quote k ++ t) = json_quote k ++ t.
Proof. rewrite json_quote_escape. reflexivity. Qed.

(** One [key: value] member: the key is scanned back, then the value. *)
Lemma parse_member_step g k x lv t acc :
  (forall rest, safe_rest rest = true -> parse_value g (json_dump_at (S lv) x ++ rest) = PDone x rest) ->
  safe_rest t = true ->
  existsb (fun kv => String.eqb (fst kv) k) acc = false ->
  parse_members (S g) (json_quote k ++ ": " ++ json_dump_at (S lv) x ++ t) acc =
  match skip_ws t with
  | String e r6 as t' =>
      if code_is 125 e then PDone (JObj (acc ++ [(k, x)])) r6
      else if code_is 44 e then parse_members g (skip_ws r6) (acc ++ [(k, x)])
      else PFail "Expecting ',' delimiter" t'
  | EmptyString => PFail "Expecting ',' delimiter" EmptyString
  end.
Proof.
  intros IH Ht Hk. rewrite json_quote_cons. cbn [parse_members].
  change (code_is 34 (ascii_of_nat 34)) with true. cbn iota.
  rewrite scan_escaped. cbn [append]. cbn iota.
  change (skip_ws (String ":" ?u)) with (String ":" u). change (code_is 58 ":") with true. cbn iota.
  change (skip_ws (String " " ?u)) with (skip_ws u). rewrite skip_ws_dump, IH by exact Ht.
  now rewrite assoc_set_fresh by exact Hk.
Qed.

Lemma parse_members_dump lv kvs acc g rest :
  kvs <> [] ->
  (forall kv, In kv kvs -> forall g rest, json_size (snd kv) <= g -> safe_rest rest = true ->
       parse_value g (json_dump_at (S lv) (snd kv) ++ rest) = PDone (snd kv) rest) ->
  nodup_keys (acc ++ kvs) = true ->
  list_sum (map (fun kv => S (json_size (snd kv))) kvs) <= g ->
  parse_members g (skip_ws (join_items lv (map (member_text lv) kvs)
                            ++ newline ++ spaces (2 * lv) ++ "}" ++ rest)) acc
  = PDone (JObj (acc ++ kvs)) rest.
Proof.
  revert acc g. induction kvs as [|[k x] kvs IHk]; intros acc g Hne IH Hnd Hsz; [congruence|].
  destruct g as [|g]; [simpl in Hsz; lia|].
  pose proof (nodup_keys_fresh _ _ _ _ Hnd) as Hk.
  assert (Hx : forall rest, safe_rest rest = true ->
            parse_value g (json_dump_at (S lv) x ++ rest) = PDone x rest)
    by (intros t Ht; apply (IH (k, x) (or_introl eq_refl)); [simpl in Hsz |- *; lia | exact Ht]).
  destruct kvs as [|kv2 r]; cbn [map join_items member_text];
    rewrite !append_assoc, skip_ws_newline, skip_ws_spaces, skip_ws_quote, parse_member_step
      by (exact Hx || exact Hk || reflexivity).
  - rewrite skip_ws_newline, skip_ws_spaces. reflexivity.
  - cbn [append]. change (skip_ws (String "," ?t)) with (String "," t). cbn iota.
    change (code_is 125 ",") with false. change (code_is 44 ",") with true. cbn iota.
    replace (acc ++ (k, x) :: kv2 :: r)%list with ((acc ++ [(k, x)]) ++ kv2 :: r)%list
      by (rewrite <- app_assoc; reflexivity).
    change (member_text lv kv2 :: map (member_text lv) r) with (map (member_text lv) (kv2 :: r)).
    apply IHk; [discriminate | intros z Hz; apply IH; now right | now rewrite <- app_assoc | simpl in Hsz |- *; lia].
Qed.

Lemma json_dump_list lv x xs : json_dump_at lv (JList (x :: xs)) =
  "[" ++ join_items lv (map (json_dump_at (S lv)) (x :: xs)) ++ newline ++ spaces (2 * lv) ++ "]".
Proof. reflexivity. Qed.

Lemma json_dump_obj lv kv kvs : json_dump_at lv (JObj (kv :: kvs)) =
  "{" ++ join_items lv (map (member_text lv) (kv :: kvs)) ++ newline ++ spaces (2 * lv) ++ "}".
Proof. reflexivity. Qed.

Lemma join_items_cons lv s ss t : exists u,
  join_items lv (s :: ss) ++ t = newline ++ spaces (2 * S lv) ++ s ++ u.
Proof.
  destruct ss; cbn [join_items]; rewrite !append_assoc; eexists; reflexivity.
Qed.

Lemma value_start_not_close c : value_start c = true -> code_is 93 c = false.
Proof. intros H. apply value_start_cases in H. simpl in H. repeat (destruct H as [<-|H]; [reflexivity|]). contradiction. Qed.

Ltac forall_in H Hwf :=
  let y := fresh "y" in let Hy := fresh "Hy" in
  intros y Hy; rewrite Forall_forall in H; apply (H y Hy);
  rewrite forallb_forall in Hwf; apply (Hwf y Hy).

Lemma parse_dump v : json_wf v = true -> forall lv g rest, json_size v <= g -> safe_rest rest = true ->
  parse_value g (json_dump_at lv v ++ rest) = PDone v rest.
Proof.
  induction v as [| b | z | s | l H | kvs H] using json_nested_ind;
    intros Hwf lv g rest Hg Hr; (destruct g as [|g]; [simpl in Hg; lia|]).
  - destruct rest; reflexivity.
  - destruct b, rest; reflexivity.
  - now apply parse_value_int.
  - apply parse_value_quote.
  - destruct l as [|x xs]; [destruct rest; reflexivity|].
    change (forallb json_wf (x :: xs) = true) in Hwf.
    rewrite json_dump_list, !append_assoc. cbn [append parse_value]. cbn iota.
    change (code_is 34 "[") with false. change (code_is 123 "[") with false. change (code_is 91 "[") with true.
    cbn iota.
    pose proof (parse_elems_dump lv (x :: xs) [] g rest ltac:(discriminate)
                  ltac:(forall_in H Hwf) ltac:(simpl in Hg |- *; lia)) as HE.
    destruct (join_items_cons lv (json_dump_at (S lv) x) (map (json_dump_at (S lv)) xs)
                (newline ++ spaces (2 * lv) ++ String "]" rest)) as [u Hu].
    destruct (json_dump_head (S lv) x) as (c & t & Ex & Hc).
    cbn [map append] in *. rewrite Hu in HE |- *.
    rewrite skip_ws_newline, skip_ws_spaces, Ex in HE |- *. cbn [append] in HE |- *.
    rewrite value_start_skip in HE |- * by exact Hc. rewrite value_start_not_close by exact Hc.
    exact HE.
  - destruct kvs as [|[k x] kvs]; [destruct rest; reflexivity|].
    change (nodup_keys ((k, x) :: kvs) && forallb (fun kv => json_wf (snd kv)) ((k, x) :: kvs) = true) in Hwf.
    apply andb_true_iff in Hwf as [Hnd Hwf].
    rewrite json_dump_obj, !append_assoc. cbn [append parse_value]. cbn iota.
    change (code_is 34 "{") with false. change (code_is 123 "{") with true. cbn iota.
    pose proof (parse_members_dump lv ((k, x) :: kvs) [] g rest ltac:(discriminate)
                  ltac:(forall_in H Hwf) Hnd ltac:(simpl in Hg |- *; lia)) as HE.
    destruct (join_items_cons lv (member_text lv (k, x)) (map (member_text lv) kvs)
                (newline ++ spaces (2 * lv) ++ String "}" rest)) as [u Hu].
    cbn [map append] in *. rewrite Hu in HE |- *.
    rewrite skip_ws_newline, skip_ws_spaces in HE |- *. cbn [member_text] in HE |- *.
    rewrite !append_assoc, json_quote_cons in HE |- *.
    change (skip_ws (String (ascii_of_nat 34) ?w)) with (String (ascii_of_nat 34) w) in HE |- *.
    change (code_is 125 (ascii_of_nat 34)) with false. exact HE.
Qed.

Lemma all_chars_app p a b : all_chars p (a ++ b) = all_chars p a && all_chars p b.
Proof. induction a as [|c a IH]; simpl; [reflexivity|]. now rewrite IH, andb_assoc. Qed.

Lemma utf8_valid_app a b : utf8_valid a = true -> utf8_valid (a ++ b) = utf8_valid b.
Proof.
  induction a as [a IH] using string_len_ind. intros H.
  destruct a as [|c r]; [reflexivity|]. cbn [utf8_valid append] in *.
  repeat (case_in H; try discriminate); subst; cbn [append];
  repeat match goal with E : _ = _ |- _ => rewrite E end; cbn iota;
  repeat match goal with E : _ && _ = true |- _ => apply andb_true_iff in E as [? ?] end;
  repeat match goal with E : in_range _ _ _ = true |- _ => rewrite E; clear E end; cbn [andb];
  apply IH; auto; cbn [String.length]; lia.
Qed.

Lemma escape_char_ascii c : is_ascii c = true -> all_chars is_ascii (json_escape_char c) = true.
Proof. destruct c as [[] [] [] [] [] [] [] []]; try discriminate; reflexivity. Qed.

Lemma escape_char_high c : is_ascii c = false -> json_escape_char c = String c "".
Proof. destruct c as [[] [] [] [] [] [] [] []]; try discriminate; reflexivity. Qed.

Lemma ascii_utf8_valid s : all_chars is_ascii s = true -> utf8_valid s = true.
Proof.
  induction s as [|c s IH]; simpl; [reflexivity|]. intros H. apply andb_true_iff in H as [Hc H].
  unfold is_ascii in Hc. rewrite Hc. now apply IH.
Qed.

Lemma in_range_high lo hi c : 128 <= lo -> in_range lo hi c = true -> is_ascii c = false.
Proof.
  unfold in_range, is_ascii. intros Hlo H. apply andb_true_iff in H as [H _].
  apply Nat.leb_le in H. apply Nat.ltb_ge. lia.
Qed.

Lemma escape_all_utf8 s : utf8_valid s = true -> utf8_valid (escape_all s) = true.
Proof.
  induction s as [s IH] using string_len_ind. intros H.
  destruct s as [|c r]; [reflexivity|]. cbn [escape_all].
  destruct (is_ascii c) eqn:Hc.
  - rewrite utf8_valid_app by (apply ascii_utf8_valid, escape_char_ascii, Hc).
    apply IH; [simpl; lia|]. cbn [utf8_valid] in H. unfold is_ascii in Hc. now rewrite Hc in H.
  - rewrite escape_char_high by exact Hc. cbn [append].
    cbn [utf8_valid] in *.
    repeat (case_in H; try discriminate); subst; cbn [escape_all append];
    repeat match goal with E : _ && _ = true |- _ => apply andb_true_iff in E as [? ?] end;
    repeat match goal with E : in_range ?lo _ ?d = true |- _ =>
             rewrite (escape_char_high d) by (eapply (in_range_high lo _ d); [lia | exact E])
           end;
    cbn [append utf8_valid];
    repeat match goal with E : _ = _ |- _ => rewrite E end; cbn iota; cbn [andb];
    apply IH; auto; cbn [String.length]; lia.
Qed.

Lemma all_chars_impl (p q : ascii -> bool) s :
  (forall c, p c = true -> q c = true) -> all_chars p s = true -> all_chars q s = true.
Proof.
  intros Hpq. induction s as [|c s IH]; simpl; [reflexivity|].
  intros H. apply andb_true_iff in H as [H1 H2]. now rewrite (Hpq c H1), IH.
Qed.

Lemma crlf_app a b : crlf_newlines (a ++ b) = crlf_newlines a ++ crlf_newlines b.
Proof. induction a as [|c a IH]; simpl; [reflexivity|]. destruct (code_is 10 c); now rewrite IH. Qed.

Lemma crlf_no_lf s : all_chars no_cr_lf s = true -> crlf_newlines s = s.
Proof.
  induction s as [|c s IH]; simpl; [reflexivity|]. intros H. apply andb_true_iff in H as [Hc H].
  unfold no_cr_lf in Hc. apply andb_true_iff in Hc as [_ Hc]. apply negb_true_iff in Hc.
  now rewrite Hc, IH.
Qed.

Lemma translate_crlf s : all_chars (fun c => negb (code_is 13 c)) s = true ->
  translate_newlines (crlf_newlines s) = s.
Proof.
  induction s as [|c s IH]; simpl; [reflexivity|]. intros H. apply andb_true_iff in H as [Hc H].
  apply negb_true_iff in Hc. destruct (code_is 10 c) eqn:E.
  - cbn [translate_newlines]. change (code_is 13 (ascii_of_nat 13)) with true. cbn iota.
    rewrite E, IH by exact H. apply code_is_eq in E. now subst.
  - cbn [translate_newlines]. now rewrite Hc, IH.
Qed.

Lemma crlf_ascii s : all_chars is_ascii s = true -> all_chars is_ascii (crlf_newlines s) = true.
Proof.
  induction s as [|c s IH]; simpl; [reflexivity|]. intros H. apply andb_true_iff in H as [Hc H].
  destruct (code_is 10 c); simpl; rewrite Hc, IH; auto.
Qed.

Lemma escape_char_no_cr_lf c : all_chars no_cr_lf (json_escape_char c) = true.
Proof. destruct c as [[] [] [] [] [] [] [] []]; reflexivity. Qed.

Lemma escape_all_no_cr_lf s : all_chars no_cr_lf (escape_all s) = true.
Proof.
  induction s as [|c s IH]; simpl; [reflexivity|]. now rewrite all_chars_app, escape_char_no_cr_lf, IH.
Qed.

Lemma json_quote_no_cr_lf s : all_chars no_cr_lf (json_quote s) = true.
Proof. rewrite json_quote_escape, !all_chars_app, escape_all_no_cr_lf. reflexivity. Qed.

Lemma json_quote_utf8 s : utf8_valid s = true -> utf8_valid (json_quote s) = true.
Proof.
  intros H. rewrite json_quote_escape, utf8_valid_app by reflexivity.
  rewrite utf8_valid_app by (now apply escape_all_utf8). reflexivity.
Qed.

Lemma spaces_plain n : all_chars plain_char (spaces n) = true.
Proof. induction n; simpl; auto. Qed.

Lemma str_of_Z_plain z : all_chars plain_char (str_of_Z z) = true.
Proof.
  rewrite str_of_Z_sign, all_chars_app.
  apply andb_true_iff; split; [destruct (z <? 0)%Z; reflexivity|].
  eapply all_chars_impl; [|apply string_of_uint_digits].
  intros c Hc. apply is_digit_cases in Hc. simpl in Hc. repeat (destruct Hc as [<-|Hc]; [reflexivity|]). contradiction.
Qed.

Section DumpText.
(** A property of text that the pieces of a dump have and that
    concatenation keeps. *)
Variable P : string -> Prop.
Hypothesis P_app : forall a b, P a -> P b -> P (a ++ b).
Hypothesis P_plain : forall s, all_chars plain_char s = true -> P s.
Hypothesis P_quote : forall s, utf8_valid s = true -> P (json_quote s).

Lemma join_items_P lv items : Forall P items -> P (join_items lv items).
Proof.
  induction 1 as [|x items Hx Hs IH]; [now apply P_plain|].
  destruct items; cbn [join_items]; repeat apply P_app; auto; apply P_plain; auto using spaces_plain.
Qed.

Lemma json_dump_P lv v : json_text_ok v = true -> P (json_dump_at lv v).
Proof.
  revert lv. induction v as [| b | z | s | l H | kvs H] using json_nested_ind; intros lv Hok;
    try (destruct b); try (now apply P_plain, str_of_Z_plain); try (now apply P_plain);
    [now apply P_quote | destruct l as [|x xs] | destruct kvs as [|[k x] kvs]]; try (now apply P_plain).
  - rewrite json_dump_list. repeat apply P_app; auto using spaces_plain.
    apply join_items_P. apply Forall_map. rewrite Forall_forall in H |- *. intros y Hy.
    apply H; [exact Hy|]. change (forallb json_text_ok (x :: xs) = true) in Hok.
    rewrite forallb_forall in Hok. now apply Hok.
  - rewrite json_dump_obj. repeat apply P_app; auto using spaces_plain.
    apply join_items_P. apply Forall_map. rewrite Forall_forall in H |- *. intros [k' y] Hin.
    change (forallb (fun kv => utf8_valid (fst kv) && json_text_ok (snd kv)) ((k, x) :: kvs) = true) in Hok.
    rewrite forallb_forall in Hok. pose proof (Hok _ Hin) as Hky. apply andb_true_iff in Hky as [Hk Hy].
    cbn [member_text]. apply P_app; [now apply P_quote|]. apply P_app; [now apply P_plain|].
    now apply (H (k', y) Hin).
Qed.
End DumpText.

Lemma json_dump_no_cr lv v : json_text_ok v = true ->
  all_chars (fun c => negb (code_is 13 c)) (json_dump_at lv v) = true.
Proof.
  apply (json_dump_P (fun s => all_chars (fun c => negb (code_is 13 c)) s = true)).
  - intros a b Ha Hb. now rewrite all_chars_app, Ha, Hb.
  - intros s. apply all_chars_impl. intros c H. unfold plain_char in H. now apply andb_true_iff in H.
  - intros s _. eapply all_chars_impl; [|apply json_quote_no_cr_lf].
    intros c H. unfold no_cr_lf in H. now apply andb_true_iff in H.
Qed.

Lemma json_dump_file_utf8 lv v : json_text_ok v = true -> utf8_valid (crlf_newlines (json_dump_at lv v)) = true.
Proof.
  apply (json_dump_P (fun s => utf8_valid (crlf_newlines s) = true)).
  - intros a b Ha Hb. now rewrite crlf_app, utf8_valid_app.
  - intros s H. apply ascii_utf8_valid, crlf_ascii. revert H. apply all_chars_impl.
    intros c H. unfold plain_char in H. now apply andb_true_iff in H.
  - intros s H. rewrite crlf_no_lf by apply json_quote_no_cr_lf. now apply json_quote_utf8.
Qed.

Lemma value_start_not_bom c t : value_start c = true -> String.prefix bom (String c t) = false.
Proof. intros H. apply value_start_cases in H. simpl in H. repeat (destruct H as [<-|H]; [reflexivity|]). contradiction. Qed.

(** The fuel [json_decode] gives is enough, whatever the text. *)
Lemma json_decode_fuel s : parse_value (S (2 * String.length s)) (skip_ws s) <> PFuel.
Proof. apply (proj1 (parse_fuel_enough _)). pose proof (skip_ws_length s). lia. Qed.


(** C27: [json.loads(json.dumps(v, ensure_ascii=False, indent=2))]
    gives back [v] for every value with unique dict keys and [int]s of at
    most 4300 digits. *)
Theorem json_loads_dump (v : json) : json_wf v = true -> json_loads (json_dump v) = Some (inr v).
Proof.
  intros Hwf. unfold json_loads, json_decode, json_dump.
  destruct (json_dump_head 0 v) as (c & t & E & Hc).
  rewrite E, value_start_not_bom by exact Hc. rewrite <- E.
  rewrite <- (append_nil_r (json_dump_at 0 v)), skip_ws_dump.
  set (s := json_dump_at 0 v ++ "").
  set (F := S (2 * String.length s)).
  assert (HF : parse_value F s <> PFuel)
    by (pose proof (json_decode_fuel s) as H; unfold s in *; rewrite skip_ws_dump in H; exact H).
  assert (HD : parse_value (F + json_size v) s = PDone v "") by (apply parse_dump; [exact Hwf | lia | reflexivity]).
  rewrite (proj1 (parse_fuel_mono F) (F + json_size v) s) in HD by (lia || exact HF).
  now rewrite HD.
Qed.

(** A text starting with a byte order mark is refused at position 0. *)
Lemma json_loads_bom t :
  json_loads (bom ++ t) = Some (inl (DecodeError "Unexpected UTF-8 BOM (decode using utf-8-sig): line 1 column 1 (char 0)")).
Proof. unfold json_loads. rewrite prefix_append. unfold decode_error. rewrite Nat.sub_diag. reflexivity. Qed.

Lemma translate_bom t : translate_newlines (bom ++ t) = bom ++ translate_newlines t.
Proof. reflexivity. Qed.

Lemma json_loads_dump_witness : json_wf json_sample = true /\ json_loads (json_dump json_sample) = Some (inr json_sample).
Proof. split; [reflexivity | apply json_loads_dump; vm_compute; reflexivity]. Defined.
