(* ===== verification/NtPath.v ===== *)
(** * [os.path] on Windows ([ntpath])

    The program runs on Windows (it looks for [ncmdump.exe]), so [os.path]
    is [ntpath]: both [\] and [/] separate, and [X:] is a drive.  UNC
    drives ([\\server\share]) are not modelled: a path starting with two
    separators is treated as having no drive.  The file also holds
    [str.split] for the separators the source splits on ([" - "] and a
    single character) and [str.join], with their round trips. *)

From Stdlib Require Import String Ascii List Bool Arith Lia.
From S2P Require Import Prelude.
Import ListNotations.
Open Scope string_scope.

Definition is_sep (c : ascii) : bool :=
  Nat.eqb (nat_of_ascii c) 92 || Nat.eqb (nat_of_ascii c) 47.

Definition backslash : string := String (ascii_of_nat 92) EmptyString.

(** ASCII [str.lower] of one character *)
Definition lower_char (c : ascii) : ascii :=
  let n := nat_of_ascii c in
  if Nat.leb 65 n && Nat.leb n 90 then ascii_of_nat (n + 32) else c.

Fixpoint str_lower (s : string) : string :=
  match s with
  | EmptyString => EmptyString
  | String c s' => String (lower_char c) (str_lower s')
  end.

(** [ntpath.splitdrive] for drive letters *)
Definition splitdrive (p : string) : string * string :=
  match p with
  | String a (String b rest) =>
      if Nat.eqb (nat_of_ascii b) 58 then (String a (String b EmptyString), rest) else ("", p)
  | _ => ("", p)
  end.

Fixpoint last_char (s : string) : option ascii :=
  match s with
  | EmptyString => None
  | String c EmptyString => Some c
  | String _ s' => last_char s'
  end.

(** [ntpath.join(a, b)] *)
Definition nt_join (a b : string) : string :=
  let '(rd, rp) := splitdrive a in
  let '(pd, pp) := splitdrive b in
  match pp with
  | String c _ =>
      if is_sep c then (if negb (String.eqb pd "") || String.eqb rd "" then pd else rd) ++ pp
      else if negb (String.eqb pd "") && negb (String.eqb pd rd)
              && negb (String.eqb (str_lower pd) (str_lower rd)) then pd ++ pp
      else let rd' := if negb (String.eqb pd "") then pd else rd in
           let rp' := match last_char rp with
                      | Some l => if is_sep l then rp else rp ++ backslash
                      | None => rp
                      end in
           rd' ++ rp' ++ pp
  | EmptyString =>
      if negb (String.eqb pd "") && negb (String.eqb pd rd)
         && negb (String.eqb (str_lower pd) (str_lower rd)) then pd
      else let rd' := if negb (String.eqb pd "") then pd else rd in
           let rp' := match last_char rp with
                      | Some l => if is_sep l then rp else rp ++ backslash
                      | None => rp
                      end in
           rd' ++ rp'
  end.

(** The last position of a character satisfying [p], if any. *)
Fixpoint rfind_from (p : ascii -> bool) (s : string) (i : nat) (acc : option nat) : option nat :=
  match s with
  | EmptyString => acc
  | String c s' => rfind_from p s' (S i) (if p c then Some i else acc)
  end.

Definition rfind (p : ascii -> bool) (s : string) : option nat := rfind_from p s 0 None.

Definition is_dot (c : ascii) : bool := Nat.eqb (nat_of_ascii c) 46.

Fixpoint strip_leading (p : ascii -> bool) (s : string) : string :=
  match s with
  | String c s' => if p c then strip_leading p s' else s
  | EmptyString => EmptyString
  end.

(** [s.rstrip(seps)] *)
Definition rstrip_seps (s : string) : string := str_rev (strip_leading is_sep (str_rev s)).

(** [ntpath.split(p)]: everything up to the last separator (trailing
    separators removed unless the head is only separators), and the rest. *)
Definition nt_split (p : string) : string * string :=
  let '(d, q) := splitdrive p in
  let i := match rfind is_sep q with Some k => S k | None => 0 end in
  let head := substring 0 i q in
  let tail := str_drop i q in
  let head' := if String.eqb (rstrip_seps head) "" then head else rstrip_seps head in
  (d ++ head', tail).

Definition nt_basename (p : string) : string := snd (nt_split p).
Definition nt_dirname (p : string) : string := fst (nt_split p).

(** [os.path.splitext(p)]: the last dot after the last separator, unless
    the name is only dots up to it. *)
Definition splitext (p : string) : string * string :=
  let sep_end := match rfind is_sep p with Some k => S k | None => 0 end in
  match rfind is_dot p with
  | Some doti =>
      if Nat.leb sep_end doti
         && negb (all_chars is_dot (substring sep_end (doti - sep_end) p))
      then (substring 0 doti p, str_drop doti p)
      else (p, "")
  | None => (p, "")
  end.

(** [ntpath.isabs] for drive-letter paths *)
Definition nt_isabs (p : string) : bool :=
  match snd (splitdrive p) with
  | String c _ => is_sep c
  | EmptyString => false
  end.

(** [os.path.abspath(p)] without the [normpath] step. *)
Definition nt_abspath (cwd p : string) : string := if nt_isabs p then p else nt_join cwd p.

(** [str.split(" - ")] for the three-character separator the source uses. *)
Fixpoint split_dash (s cur : string) : list string :=
  match s with
  | EmptyString => [cur]
  | String a s1 =>
      match s1 with
      | String b (String c rest) =>
          if Nat.eqb (nat_of_ascii a) 32 && Nat.eqb (nat_of_ascii b) 45 && Nat.eqb (nat_of_ascii c) 32
          then cur :: split_dash rest ""
          else split_dash s1 (cur ++ String a EmptyString)
      | _ => split_dash s1 (cur ++ String a EmptyString)
      end
  end.

(** [sep.join(parts)] *)
Fixpoint join_with (sep : string) (parts : list string) : string :=
  match parts with
  | [] => ""
  | [x] => x
  | x :: r => x ++ sep ++ join_with sep r
  end.

(** ** [str.split(" - ")] and [" - ".join] *)

Lemma join_with_cons_app (sep cur h : string) (t : list string) :
  join_with sep ((cur ++ h) :: t) = cur ++ join_with sep (h :: t).
Proof. destruct t; simpl; [reflexivity | apply append_assoc]. Qed.

(** Splitting with a non-empty current piece only prefixes the first piece. *)
Lemma split_dash_shape (n : nat) : forall (s cur : string), String.length s <= n ->
  exists h t, split_dash s cur = (cur ++ h) :: t /\ split_dash s "" = h :: t.
Proof.
  induction n as [|n IH]; intros s cur Hl; destruct s as [|a s1];
    try (exists "", []; simpl; rewrite append_nil_r; auto; fail); [simpl in Hl; lia |].
  simpl in Hl.
  assert (Hstep : exists h t, split_dash s1 (cur ++ String a "") = (cur ++ String a h) :: t /\
                         split_dash s1 (String a "") = String a h :: t).
  { destruct (IH s1 (cur ++ String a "")) as (h & t & E1 & E2); [lia |].
    destruct (IH s1 (String a "")) as (h' & t' & E3 & E4); [lia |].
    rewrite E2 in E4. injection E4 as <- <-.
    exists h, t. rewrite E1, E3, append_assoc. auto. }
  destruct Hstep as (h & t & E1 & E2).
  simpl. destruct s1 as [|b [|c rest]];
    try (exists (String a h), t; auto; fail).
  destruct (_ && _ && _); [| exists (String a h), t; auto].
  exists "", (split_dash rest ""). rewrite append_nil_r. auto.
Qed.

Lemma split_dash_not_nil (s : string) : exists h t, split_dash s "" = h :: t.
Proof. destruct (split_dash_shape (String.length s) s "") as (h & t & _ & E); eauto. Qed.

Lemma ascii_of_code (a : ascii) (n : nat) : Nat.eqb (nat_of_ascii a) n = true -> a = ascii_of_nat n.
Proof. intros H. apply Nat.eqb_eq in H. rewrite <- H. symmetry. apply ascii_nat_embedding. Qed.

(** [" - ".join(s.split(" - ")) == s] *)
Lemma join_split_dash (s : string) : join_with " - " (split_dash s "") = s.
Proof.
  remember (String.length s) as n eqn:Hn. assert (Hl : String.length s <= n) by lia. clear Hn.
  revert s Hl. induction n as [|n IH]; intros s Hl; destruct s as [|a s1]; try reflexivity;
    [simpl in Hl; lia |]. simpl in Hl.
  assert (Hna : join_with " - " (split_dash s1 (String a "")) = String a s1).
  { destruct (split_dash_shape (String.length s1) s1 (String a "")) as (h & t & E1 & E2); [lia |].
    rewrite E1, join_with_cons_app, <- E2, IH by lia. reflexivity. }
  simpl. destruct s1 as [|b [|c rest]]; try exact Hna.
  destruct (Nat.eqb (nat_of_ascii a) 32) eqn:Ea; [| exact Hna].
  destruct (Nat.eqb (nat_of_ascii b) 45) eqn:Eb; [| exact Hna].
  destruct (Nat.eqb (nat_of_ascii c) 32) eqn:Ec; [| exact Hna]. simpl.
  destruct (split_dash_not_nil rest) as (h & t & E). rewrite E, <- E, IH by (simpl in Hl; lia).
  apply ascii_of_code in Ea, Eb, Ec. rewrite Ea, Eb, Ec. reflexivity.
Qed.

(** A first part without ['-'] is cut at the separator that follows it. *)
Lemma split_dash_first (a b cur : string) :
  char_in "-"%char a = false ->
  split_dash (a ++ " - " ++ b) cur = (cur ++ a) :: split_dash b "".
Proof.
  revert cur. induction a as [|x a IH]; intros cur Ha.
  - simpl. rewrite append_nil_r. reflexivity.
  - simpl in Ha. apply orb_false_iff in Ha as [Hx Ha].
    replace (cur ++ String x a) with ((cur ++ String x "") ++ a) by (rewrite append_assoc; reflexivity).
    rewrite <- IH by exact Ha.
    assert (Hnot : forall y s, Ascii.eqb y "-"%char = false -> split_dash (String x (String y s)) cur =
                               split_dash (String y s) (cur ++ String x "")).
    { intros y s Hy. simpl. destruct s as [|z s]; [reflexivity |].
      replace (Nat.eqb (nat_of_ascii y) 45) with false; [now rewrite andb_false_r |].
      symmetry. apply Nat.eqb_neq. intros E. apply Ascii.eqb_neq in Hy. apply Hy.
      rewrite <- (ascii_nat_embedding y), E. reflexivity. }
    destruct a as [|y a].
    + apply Hnot. reflexivity.
    + simpl in Ha. apply orb_false_iff in Ha as [Hy _]. apply Hnot, Hy.
Qed.

(** ** [str.split(c)] for a one-character separator *)

Fixpoint split_char (c : ascii) (s cur : string) : list string :=
  match s with
  | EmptyString => [cur]
  | String a s' => if Ascii.eqb a c then cur :: split_char c s' "" else split_char c s' (cur ++ String a "")
  end.

(** A piece without the separator is carried into the current piece. *)
Lemma split_char_piece (c : ascii) (k rest cur : string) :
  char_in c k = false -> split_char c (k ++ rest) cur = split_char c rest (cur ++ k).
Proof.
  revert cur. induction k as [|a k IH]; intros cur Hk; simpl.
  - now rewrite append_nil_r.
  - simpl in Hk. apply orb_false_iff in Hk as [Ha Hk]. rewrite Ha, IH by exact Hk.
    now rewrite append_assoc.
Qed.

(** [sep.join(parts).split(sep) == parts] when no part holds [sep]. *)
Lemma split_join_char (c : ascii) (ks : list string) :
  Forall (fun k => char_in c k = false) ks -> ks <> [] ->
  split_char c (join_with (String c "") ks) "" = ks.
Proof.
  induction ks as [|k ks IH]; intros Hf Hne; [contradiction |].
  apply Forall_cons_iff in Hf as [Hk Hf]. destruct ks as [|k' ks'].
  - simpl. rewrite <- (append_nil_r k) at 1. rewrite split_char_piece by exact Hk. reflexivity.
  - change (join_with (String c "") (k :: k' :: ks')) with (k ++ String c "" ++ join_with (String c "") (k' :: ks')).
    rewrite split_char_piece by exact Hk. cbn [append split_char]. rewrite Ascii.eqb_refl, IH by (auto || discriminate).
    reflexivity.
Qed.
