(* ===== verification/World.v ===== *)
(** * The world the program runs in, and the Python effects as a monad

    A computation of the program is a function [world -> outcome A * world]:
    it reads and changes the clock ([time.time], [time.sleep]), consumes the
    network's scripted answers ([requests.get]), reads and writes files
    ([os.path.exists], [open(..., 'wb')], [os.makedirs], [os.rename]),
    prints, and raises or catches Python exceptions ([outcome]).

    The world also holds the two Python objects whose fields the source
    mutates and shares by reference: the [APIHandler]'s [config] dict (the
    same object is read by [SongDownloader] through [self.api_handler]) and
    the [SongDownloader]'s [request_interval] / [last_request_time].  Keeping
    them in the store, not in values copied between functions, models the
    aliasing of src/utils/ui.py, which builds one handler and one downloader
    and passes the handler to both. *)

From Stdlib Require Import String Ascii List ZArith QArith Lqa Lia Bool.
From stdpp Require Import gmap.
From S2P Require Import Prelude Json.
Import ListNotations.
Open Scope string_scope.

(** ** The network, as seen by [requests.get] *)

(** Durations reported by the environment, in microseconds (never negative). *)
Definition us (n : N) : Q := (Z.of_N n # 1000000)%Q.

Record http_response := mk_response {
  status : Z;                          (** [response.status_code] *)
  text : string;                       (** [response.text] *)
  body_json : option json;             (** [response.json()], [None] if the body is not JSON *)
  content_length : option string;      (** the [content-length] header *)
  chunks : list (N * string);          (** [iter_content(1024)]: delay before each chunk, bytes *)
  stream_error : option string         (** the stream breaks after the chunks with this message *)
}.

(** One answer of the network to one [requests.get]: a response after a
    delay, or a transport failure (connection refused, timeout, DNS) after
    a delay. *)
Inductive net_event :=
| NetOk (delay : N) (r : http_response)
| NetErr (delay : N) (k : req_kind) (msg : string).

(** What the worker threads of ui.py send to the window (their signals). *)
Inductive ui_event :=
| Log (line : string)                               (** [log_signal] *)
| Progress (percent : Z) (label : string)            (** [progress_signal] *)
| DownloadComplete (success fail : Z)                (** [download_complete_signal] *)
| DownloadError (msg : string)                       (** [download_error_signal] *)
| ButtonState (start_enabled stop_enabled : bool)    (** [button_state_signal] *)
| NcmProgress (percent : Z) (label : string)         (** [ncm_progress_signal] *)
| NcmComplete (success fail : Z)                     (** [ncm_complete_signal] *)
| NcmError (msg : string)                            (** [ncm_error_signal] *)
| NcmButtonState (start_enabled stop_enabled : bool) (** [ncm_button_state_signal] *)
| ApiTest (title content : string) (kind : Z)        (** [api_test_signal] *)
| Version (version : string).                        (** [version_signal] *)

(** One run of an external program ([subprocess.run]): its exit code, its
    standard error, and the files it writes. *)
Record proc_answer := mk_proc {
  p_delay : N;                                    (** how long the process runs *)
  p_returncode : Z;
  p_stderr : string;
  p_writes : list string -> list (string * string) (** the files it writes, given its argv *)
}.

(** The process environment, fixed for a run. *)
Record py_env := mk_env {
  e_meipass : option string;   (** [sys._MEIPASS] in the packaged app *)
  e_cwd : string;              (** the working directory *)
  e_module_dir : string;       (** [os.path.dirname(os.path.abspath(__file__))] of ncm_converter.py *)
  e_path : list string         (** [os.environ['PATH'].split(os.pathsep)] *)
}.

Record world := mk_world {
  w_clock : Q;                         (** [time.time()] *)
  w_net : list net_event;              (** the answers still to come, in order *)
  w_log : list (Q * string);           (** requests issued: (time, url), newest first *)
  w_files : gmap string string;        (** regular files: path -> contents *)
  w_dirs : gset string;                (** existing directories *)
  w_out : list string;                 (** printed lines, newest first *)
  w_config : json;                     (** APIHandler.config *)
  w_dl_interval : Q;                   (** SongDownloader.request_interval (seconds) *)
  w_dl_last : Q;                       (** SongDownloader.last_request_time *)
  w_events : list ui_event;            (** signals emitted by the workers, newest first *)
  w_stop_download : option Q;          (** when the window set [self.stop_download] *)
  w_stop_convert : option Q;           (** when the window set [self.stop_convert] *)
  w_procs : list proc_answer;          (** the answers of the next [subprocess.run] calls *)
  w_env : py_env
}.

Definition set_clock (x : Q) (w : world) : world :=
  mk_world x (w_net w) (w_log w) (w_files w) (w_dirs w) (w_out w) (w_config w) (w_dl_interval w) (w_dl_last w) (w_events w) (w_stop_download w) (w_stop_convert w) (w_procs w) (w_env w).
Definition set_net (x : list net_event) (w : world) : world :=
  mk_world (w_clock w) x (w_log w) (w_files w) (w_dirs w) (w_out w) (w_config w) (w_dl_interval w) (w_dl_last w) (w_events w) (w_stop_download w) (w_stop_convert w) (w_procs w) (w_env w).
Definition set_log (x : list (Q * string)) (w : world) : world :=
  mk_world (w_clock w) (w_net w) x (w_files w) (w_dirs w) (w_out w) (w_config w) (w_dl_interval w) (w_dl_last w) (w_events w) (w_stop_download w) (w_stop_convert w) (w_procs w) (w_env w).
Definition set_files (x : gmap string string) (w : world) : world :=
  mk_world (w_clock w) (w_net w) (w_log w) x (w_dirs w) (w_out w) (w_config w) (w_dl_interval w) (w_dl_last w) (w_events w) (w_stop_download w) (w_stop_convert w) (w_procs w) (w_env w).
Definition set_dirs (x : gset string) (w : world) : world :=
  mk_world (w_clock w) (w_net w) (w_log w) (w_files w) x (w_out w) (w_config w) (w_dl_interval w) (w_dl_last w) (w_events w) (w_stop_download w) (w_stop_convert w) (w_procs w) (w_env w).
Definition set_out (x : list string) (w : world) : world :=
  mk_world (w_clock w) (w_net w) (w_log w) (w_files w) (w_dirs w) x (w_config w) (w_dl_interval w) (w_dl_last w) (w_events w) (w_stop_download w) (w_stop_convert w) (w_procs w) (w_env w).
Definition set_config (x : json) (w : world) : world :=
  mk_world (w_clock w) (w_net w) (w_log w) (w_files w) (w_dirs w) (w_out w) x (w_dl_interval w) (w_dl_last w) (w_events w) (w_stop_download w) (w_stop_convert w) (w_procs w) (w_env w).
Definition set_dl_interval (x : Q) (w : world) : world :=
  mk_world (w_clock w) (w_net w) (w_log w) (w_files w) (w_dirs w) (w_out w) (w_config w) x (w_dl_last w) (w_events w) (w_stop_download w) (w_stop_convert w) (w_procs w) (w_env w).
Definition set_dl_last (x : Q) (w : world) : world :=
  mk_world (w_clock w) (w_net w) (w_log w) (w_files w) (w_dirs w) (w_out w) (w_config w) (w_dl_interval w) x (w_events w) (w_stop_download w) (w_stop_convert w) (w_procs w) (w_env w).
Definition set_events (x : list ui_event) (w : world) : world :=
  mk_world (w_clock w) (w_net w) (w_log w) (w_files w) (w_dirs w) (w_out w) (w_config w) (w_dl_interval w) (w_dl_last w) x (w_stop_download w) (w_stop_convert w) (w_procs w) (w_env w).
Definition set_stop_download (x : option Q) (w : world) : world :=
  mk_world (w_clock w) (w_net w) (w_log w) (w_files w) (w_dirs w) (w_out w) (w_config w) (w_dl_interval w) (w_dl_last w) (w_events w) x (w_stop_convert w) (w_procs w) (w_env w).
Definition set_stop_convert (x : option Q) (w : world) : world :=
  mk_world (w_clock w) (w_net w) (w_log w) (w_files w) (w_dirs w) (w_out w) (w_config w) (w_dl_interval w) (w_dl_last w) (w_events w) (w_stop_download w) x (w_procs w) (w_env w).
Definition set_procs (x : list proc_answer) (w : world) : world :=
  mk_world (w_clock w) (w_net w) (w_log w) (w_files w) (w_dirs w) (w_out w) (w_config w) (w_dl_interval w) (w_dl_last w) (w_events w) (w_stop_download w) (w_stop_convert w) x (w_env w).
Definition set_env (x : py_env) (w : world) : world :=
  mk_world (w_clock w) (w_net w) (w_log w) (w_files w) (w_dirs w) (w_out w) (w_config w) (w_dl_interval w) (w_dl_last w) (w_events w) (w_stop_download w) (w_stop_convert w) (w_procs w) x.

(** A world with nothing on disk, no prints and no signals, the given
    clock, network answers and config, and a fresh downloader. *)
Definition base_world (clock : Q) (net : list net_event) (cfg : json) : world :=
  mk_world clock net [] ∅ ∅ [] cfg 0 0 [] None None [] (mk_env None "C:" "C:" []).

(** ** The monad *)

Inductive outcome (A : Type) := Ok (a : A) | Raise (e : exn).
Arguments Ok {A} a.
Arguments Raise {A} e.

Definition M (A : Type) : Type := world -> outcome A * world.

Definition ret {A} (a : A) : M A := fun w => (Ok a, w).
Definition raise {A} (e : exn) : M A := fun w => (Raise e, w).
Definition bind {A B} (c : M A) (k : A -> M B) : M B :=
  fun w => match c w with
           | (Ok a, w') => k a w'
           | (Raise e, w') => (Raise e, w')
           end.

(** [try: c except <class> as e: h(e)]; [catches] decides the class. *)
Definition try_except {A} (catches : exn -> bool) (c : M A) (h : exn -> M A) : M A :=
  fun w => match c w with
           | (Raise e, w') => if catches e then h e w' else (Raise e, w')
           | r => r
           end.

(** [except Exception] catches every exception the source can raise. *)
Definition any_exn (_ : exn) : bool := true.

(** A pure Python operation that may raise. *)
Definition lift {A} (r : sum exn A) : M A :=
  match r with inl e => raise e | inr a => ret a end.

Notation "x <- c ;; k" := (bind c (fun x => k))
  (at level 100, c at next level, right associativity) : py_scope.
Notation "c ;; k" := (bind c (fun _ => k))
  (at level 100, right associativity) : py_scope.
Open Scope py_scope.

Definition gets {A} (f : world -> A) : M A := fun w => (Ok (f w), w).
Definition modify (f : world -> world) : M unit := fun w => (Ok tt, f w).

(** ** Primitives *)

Definition time_time : M Q := gets w_clock.

Definition time_sleep (d : Q) : M unit :=
  if Qle_bool 0 d then modify (fun w => set_clock (w_clock w + d)%Q w)
  else raise (ValueError "sleep length must be non-negative").

Definition print (line : string) : M unit := modify (fun w => set_out (line :: w_out w) w).

(** The network's next answer; once the script is exhausted the network
    is unreachable. *)
Definition unreachable : net_event := NetErr 0 ConnectionError "network unreachable".

Definition next_answer (n : list net_event) : net_event * list net_event :=
  match n with
  | [] => (unreachable, [])
  | ev :: rest => (ev, rest)
  end.

Definition event_delay (ev : net_event) : Q :=
  match ev with NetOk d _ | NetErr d _ _ => us d end.

Definition answer_of (ev : net_event) : outcome http_response :=
  match ev with
  | NetOk _ r => Ok r
  | NetErr _ k m => Raise (RequestException k m)
  end.

(** The world after one request to [url]: logged at the current time, the
    answer consumed, the clock advanced by the answer's delay. *)
Definition after_request (url : string) (w : world) : world :=
  let '(ev, rest) := next_answer (w_net w) in
  set_clock (w_clock w + event_delay ev)%Q
    (set_net rest (set_log ((w_clock w, url) :: w_log w) w)).

(** [requests.get(url, timeout=30)] *)
Definition requests_get (url : string) : M http_response :=
  fun w => (answer_of (fst (next_answer (w_net w))), after_request url w).

(** The network delivers the next chunk of a streamed body after [d]. *)
Definition net_wait (d : N) : M unit := modify (fun w => set_clock (w_clock w + us d)%Q w).

(** [response.raise_for_status()] *)
Definition raise_for_status (r : http_response) : M unit :=
  if ((400 <=? status r) && (status r <? 600))%Z
  then raise (RequestException HTTPError (str_of_Z (status r) ++ " Error"))
  else ret tt.

(** [response.json()] *)
Definition response_json (r : http_response) : M json :=
  match body_json r with
  | Some j => ret j
  | None => raise (RequestException JSONDecodeError "Expecting value: line 1 column 1 (char 0)")
  end.

(** [os.path.exists(p)] *)
Definition os_path_exists (p : string) : M bool :=
  gets (fun w => match w_files w !! p with
                 | Some _ => true
                 | None => bool_decide (p ∈ w_dirs w)
                 end).

(** [os.makedirs(p, exist_ok=True)]; the intermediate directories are not
    tracked. *)
Definition os_makedirs (p : string) : M unit :=
  fun w =>
    if String.eqb p "" then (Raise (OSError FileNotFoundError "[WinError 3] "), w)
    else match w_files w !! p with
         | Some _ => (Raise (OSError FileExistsError "[WinError 183] "), w)
         | None => (Ok tt, set_dirs ({[p]} ∪ w_dirs w) w)
         end.

(** [open(p, 'wb')] (or [open(p, 'w')]): creates or truncates the file; on
    Windows a directory cannot be opened. *)
Definition open_wb (p : string) : M unit :=
  fun w =>
    if bool_decide (p ∈ w_dirs w)
    then (Raise (OSError PermissionError ("[Errno 13] Permission denied: " ++ repr_str p)), w)
    else (Ok tt, set_files (<[p := ""]> (w_files w)) w).

(** [open(p, 'r', encoding='utf-8').read()] on Windows: a directory cannot
    be opened; universal newlines are applied by [translate_newlines]. *)
Definition read_text (p : string) : M string :=
  fun w =>
    match w_files w !! p with
    | Some data => (Ok data, w)
    | None =>
        if bool_decide (p ∈ w_dirs w)
        then (Raise (OSError PermissionError ("[Errno 13] Permission denied: " ++ repr_str p)), w)
        else (Raise (OSError FileNotFoundError ("[Errno 2] No such file or directory: " ++ repr_str p)), w)
    end.

(** [file.write(data)] on a file opened by [open_wb]. *)
Definition file_append (p : string) (data : string) : M unit :=
  modify (fun w => set_files (<[p := default "" (w_files w !! p) ++ data]> (w_files w)) w).

(** [subprocess.run(argv, capture_output=True, text=True, check=True)]:
    the next scripted process runs for its delay and writes its files; a
    non-zero exit raises [CalledProcessError]; with no process left to run
    the executable cannot be started. *)
Definition proc_world (p : proc_answer) (ps : list proc_answer) (argv : list string) (w : world) : world :=
  let files := fold_left (fun m '(k, v) => <[k := v]> m) (p_writes p argv) (w_files w) in
  set_clock (w_clock w + us (p_delay p))%Q (set_files files (set_procs ps w)).

Definition subprocess_run (argv : list string) : M proc_answer :=
  fun w =>
    match w_procs w with
    | [] => (Raise (OSError FileNotFoundError "[WinError 2] The system cannot find the file specified"), w)
    | p :: ps =>
        if Z.eqb (p_returncode p) 0 then (Ok p, proc_world p ps argv w)
        else (Raise (CalledProcessError (p_returncode p) (p_stderr p)), proc_world p ps argv w)
    end.

(** [os.rename(src, dst)] on Windows: the target must not exist. *)
Definition os_rename (src dst : string) : M unit :=
  fun w =>
    match w_files w !! src with
    | None => (Raise (OSError FileNotFoundError "[WinError 2] The system cannot find the file specified"), w)
    | Some data =>
        if bool_decide (is_Some (w_files w !! dst)) || bool_decide (dst ∈ w_dirs w)
        then (Raise (OSError FileExistsError "[WinError 183] Cannot create a file when that file already exists"), w)
        else (Ok tt, set_files (<[dst := data]> (delete src (w_files w))) w)
    end.

(** [signal.emit(...)] from a worker thread. *)
Definition emit (ev : ui_event) : M unit := modify (fun w => set_events (ev :: w_events w) w).

(** [try: c finally: f] *)
Definition try_finally {A} (c : M A) (f : M unit) : M A :=
  fun w => let '(r, w1) := c w in
           match f w1 with
           | (Ok _, w2) => (r, w2)
           | (Raise e, w2) => (Raise e, w2)
           end.

(** ** The stop flags

    [self.stop_download] and [self.stop_convert] are written by the window
    thread and read by a worker thread.  A flag holds the time at which the
    stop button was clicked: the worker sees [True] once its clock has
    reached that time.  A click scheduled in the future models the window
    thread acting while the worker runs. *)
Definition stop_seen (flag : option Q) (now : Q) : bool :=
  match flag with Some t => Qle_bool t now | None => false end.

(** [self.stop_* = False] at time [now]: clicks already made are erased. *)
Definition reset_stop (flag : option Q) (now : Q) : option Q :=
  if stop_seen flag now then None else flag.

(** ** Monad lemmas *)

Lemma bind_ok {A B} (c : M A) (k : A -> M B) w a w' :
  c w = (Ok a, w') -> bind c k w = k a w'.
Proof. intros H. unfold bind. now rewrite H. Qed.

Lemma bind_raise {A B} (c : M A) (k : A -> M B) w e w' :
  c w = (Raise e, w') -> bind c k w = (Raise e, w').
Proof. intros H. unfold bind. now rewrite H. Qed.

Lemma bind_ret {A B} (a : A) (k : A -> M B) w : bind (ret a) k w = k a w.
Proof. reflexivity. Qed.

Create Rewrite HintDb py_monad.
#[export] Hint Rewrite @bind_ret : py_monad.

(** ** Effects of one request on the world *)

Section AfterRequest.
Variables (url : string) (w : world).

Lemma after_request_net : w_net (after_request url w) = snd (next_answer (w_net w)).
  Proof. unfold after_request. now destruct (next_answer (w_net w)). Qed.

Lemma after_request_log : w_log (after_request url w) = (w_clock w, url) :: w_log w.
  Proof. unfold after_request. now destruct (next_answer (w_net w)). Qed.

Lemma after_request_clock :
    w_clock (after_request url w) = (w_clock w + event_delay (fst (next_answer (w_net w))))%Q.
  Proof. unfold after_request. now destruct (next_answer (w_net w)). Qed.

Lemma after_request_config : w_config (after_request url w) = w_config w.
  Proof. unfold after_request. now destruct (next_answer (w_net w)). Qed.

Lemma after_request_dl_last : w_dl_last (after_request url w) = w_dl_last w.
  Proof. unfold after_request. now destruct (next_answer (w_net w)). Qed.

Lemma after_request_dl_interval : w_dl_interval (after_request url w) = w_dl_interval w.
  Proof. unfold after_request. now destruct (next_answer (w_net w)). Qed.

Lemma after_request_files : w_files (after_request url w) = w_files w.
  Proof. unfold after_request. now destruct (next_answer (w_net w)). Qed.

Lemma after_request_dirs : w_dirs (after_request url w) = w_dirs w.
  Proof. unfold after_request. now destruct (next_answer (w_net w)). Qed.
End AfterRequest.

Lemma event_delay_nonneg (ev : net_event) : (0 <= event_delay ev)%Q.
Proof.
  destruct ev as [d r | d k m]; simpl; unfold us, Qle; simpl; lia.
Qed.

Create Rewrite HintDb py_world.
#[export] Hint Rewrite after_request_net after_request_log after_request_config
  after_request_dl_last after_request_dl_interval after_request_files after_request_dirs : py_world.

Open Scope list_scope.

(** ** Time only moves forward

    [mono c]: running [c] never moves the clock back, and every request it
    issues is stamped no earlier than the clock at its start.  Every
    primitive has the property and every composition keeps it. *)

Definition mono {A} (c : M A) : Prop :=
  forall w o w', c w = (o, w') ->
    (w_clock w <= w_clock w')%Q /\
    exists L, w_log w' = L ++ w_log w /\ Forall (fun p => (w_clock w <= fst p)%Q) L.

(** A step that changes neither the clock nor the log. *)
Definition quiet {A} (c : M A) : Prop :=
  forall w o w', c w = (o, w') -> w_clock w' = w_clock w /\ w_log w' = w_log w.

Lemma quiet_mono {A} (c : M A) : quiet c -> mono c.
Proof.
  intros Hq w o w' H. destruct (Hq _ _ _ H) as [-> ->]. split; [apply Qle_refl |].
  exists []. auto.
Qed.

Lemma quiet_ret {A} (a : A) : quiet (ret a).
Proof. intros w o w' H. injection H as _ <-. auto. Qed.

Lemma quiet_raise {A} (e : exn) : quiet (@raise A e).
Proof. intros w o w' H. injection H as _ <-. auto. Qed.

Lemma quiet_lift {A} (r : sum exn A) : quiet (lift r).
Proof. destruct r; [apply quiet_raise | apply quiet_ret]. Qed.

Lemma quiet_gets {A} (f : world -> A) : quiet (gets f).
Proof. intros w o w' H. injection H as _ <-. auto. Qed.

Lemma quiet_modify (f : world -> world) :
  (forall w, w_clock (f w) = w_clock w /\ w_log (f w) = w_log w) -> quiet (modify f).
Proof. intros Hf w o w' H. injection H as _ <-. apply Hf. Qed.

Lemma quiet_bind {A B} (c : M A) (k : A -> M B) :
  quiet c -> (forall a, quiet (k a)) -> quiet (bind c k).
Proof.
  intros Hc Hk w o w' H. unfold bind in H.
  destruct (c w) as [[a|e] w1] eqn:E; destruct (Hc _ _ _ E) as [C1 L1].
  - destruct (Hk a _ _ _ H) as [C2 L2]. split; congruence.
  - injection H as _ <-. auto.
Qed.

Lemma mono_bind {A B} (c : M A) (k : A -> M B) :
  mono c -> (forall a, mono (k a)) -> mono (bind c k).
Proof.
  intros Hc Hk w o w' H. unfold bind in H.
  destruct (c w) as [[a|e] w1] eqn:E; destruct (Hc _ _ _ E) as [C1 (L1 & HL1 & F1)].
  - destruct (Hk a _ _ _ H) as [C2 (L2 & HL2 & F2)]. split; [eapply Qle_trans; eauto |].
    exists (L2 ++ L1). rewrite HL2, HL1, app_assoc. split; [reflexivity |].
    apply Forall_app. split; [| exact F1].
    eapply Forall_impl; [exact F2 |]. intros p Hp. eapply Qle_trans; eauto.
  - injection H as _ <-. eauto.
Qed.

Lemma mono_try_except {A} (catches : exn -> bool) (c : M A) (h : exn -> M A) :
  mono c -> (forall e, mono (h e)) -> mono (try_except catches c h).
Proof.
  intros Hc Hh w o w' H. unfold try_except in H.
  destruct (c w) as [[a|e] w1] eqn:E; destruct (Hc _ _ _ E) as [C1 (L1 & HL1 & F1)].
  - injection H as _ <-. eauto.
  - destruct (catches e); [| injection H as _ <-; eauto].
    destruct (Hh e _ _ _ H) as [C2 (L2 & HL2 & F2)]. split; [eapply Qle_trans; eauto |].
    exists (L2 ++ L1). rewrite HL2, HL1, app_assoc. split; [reflexivity |].
    apply Forall_app. split; [| exact F1].
    eapply Forall_impl; [exact F2 |]. intros p Hp. eapply Qle_trans; eauto.
Qed.

Lemma mono_time_sleep (d : Q) : mono (time_sleep d).
Proof.
  unfold time_sleep. destruct (Qle_bool 0 d) eqn:Hd; [| apply quiet_mono, quiet_raise].
  apply Qle_bool_iff in Hd. intros w o w' H. injection H as _ <-. simpl.
  split; [lra |]. exists []. auto.
Qed.

Lemma mono_net_wait (d : N) : mono (net_wait d).
Proof.
  intros w o w' H. injection H as _ <-. simpl.
  pose proof (event_delay_nonneg (NetOk d (mk_response 0 "" None None [] None))) as Hd. simpl in Hd.
  split; [lra |]. exists []. auto.
Qed.

Lemma mono_requests_get (url : string) : mono (requests_get url).
Proof.
  intros w o w' H. injection H as _ <-.
  rewrite after_request_clock, after_request_log.
  pose proof (event_delay_nonneg (fst (next_answer (w_net w)))).
  split; [lra |]. exists [(w_clock w, url)]. split; [reflexivity |]. constructor; [simpl; lra | constructor].
Qed.

Lemma quiet_time_time : quiet time_time.
Proof. apply quiet_gets. Qed.

Lemma quiet_print (s : string) : quiet (print s).
Proof. apply quiet_modify. intros w. auto. Qed.

Lemma quiet_raise_for_status (r : http_response) : quiet (raise_for_status r).
Proof. unfold raise_for_status. destruct (_ && _)%Z; [apply quiet_raise | apply quiet_ret]. Qed.

Lemma quiet_response_json (r : http_response) : quiet (response_json r).
Proof. unfold response_json. destruct (body_json r); [apply quiet_ret | apply quiet_raise]. Qed.

Lemma quiet_os_path_exists (p : string) : quiet (os_path_exists p).
Proof. apply quiet_gets. Qed.

Lemma quiet_os_makedirs (p : string) : quiet (os_makedirs p).
Proof.
  intros w o w' H. unfold os_makedirs in H.
  destruct (String.eqb p ""); [injection H as _ <-; auto |].
  destruct (w_files w !! p); injection H as _ <-; auto.
Qed.

Lemma quiet_open_wb (p : string) : quiet (open_wb p).
Proof. intros w o w' H. unfold open_wb in H. destruct (bool_decide _); injection H as _ <-; auto. Qed.

Lemma quiet_file_append (p d : string) : quiet (file_append p d).
Proof. apply quiet_modify. intros w. auto. Qed.

Lemma quiet_set_dl_last (t : Q) : quiet (modify (set_dl_last t)).
Proof. apply quiet_modify. intros w. auto. Qed.

Lemma quiet_set_dl_interval (t : Q) : quiet (modify (set_dl_interval t)).
Proof. apply quiet_modify. intros w. auto. Qed.

Create HintDb mono.
#[export] Hint Resolve quiet_mono quiet_ret quiet_raise quiet_lift quiet_gets quiet_bind
  quiet_time_time quiet_print quiet_raise_for_status quiet_response_json quiet_os_path_exists
  quiet_os_makedirs quiet_open_wb quiet_file_append quiet_set_dl_last quiet_set_dl_interval
  mono_time_sleep mono_net_wait mono_requests_get : mono.

(** Split a composite computation into its steps and close each with the
    lemmas of [mono]. *)
Ltac solve_mono :=
  repeat match goal with
  | |- forall _, _ => intro
  | |- mono (bind _ _) => apply mono_bind
  | |- quiet (bind _ _) => apply quiet_bind
  | |- mono (try_except _ _ _) => apply mono_try_except
  | |- mono (if ?b then _ else _) => destruct b
  | |- quiet (if ?b then _ else _) => destruct b
  | |- mono (match ?x with _ => _ end) => destruct x
  | |- quiet (match ?x with _ => _ end) => destruct x
  | |- _ => solve [eauto with mono]
  end.

Lemma mono_subprocess_run (argv : list string) : mono (subprocess_run argv).
Proof.
  intros w o w' H. unfold subprocess_run in H.
  destruct (w_procs w) as [|p ps]; [injection H as _ <-; split; [apply Qle_refl | exists []; auto] |].
  assert (Hd : (0 <= us (p_delay p))%Q) by (unfold us, Qle; simpl; lia).
  destruct (Z.eqb _ _); injection H as _ <-; unfold proc_world; simpl; (split; [lra | exists []; auto]).
Qed.

Lemma quiet_os_rename (src dst : string) : quiet (os_rename src dst).
Proof.
  intros w o w' H. unfold os_rename in H.
  destruct (w_files w !! src); [destruct (_ || _) |]; injection H as _ <-; auto.
Qed.

Lemma quiet_emit (ev : ui_event) : quiet (emit ev).
Proof. apply quiet_modify. intros w. auto. Qed.

Lemma quiet_try_except {A} (catches : exn -> bool) (c : M A) (h : exn -> M A) :
  quiet c -> (forall e, quiet (h e)) -> quiet (try_except catches c h).
Proof.
  intros Hc Hh w o w' H. unfold try_except in H.
  destruct (c w) as [[a|e] w1] eqn:E; destruct (Hc _ _ _ E) as [C1 L1].
  - injection H as _ <-. auto.
  - destruct (catches e); [destruct (Hh e _ _ _ H); split; congruence | injection H as _ <-; auto].
Qed.

Lemma mono_try_finally {A} (c : M A) (f : M unit) :
  mono c -> mono f -> mono (try_finally c f).
Proof.
  intros Hc Hf w o w' H. unfold try_finally in H.
  destruct (c w) as [r w1] eqn:E; destruct (Hc _ _ _ E) as [C1 (L1 & HL1 & F1)].
  destruct (f w1) as [[u|e] w2] eqn:E2; injection H as _ <-;
  destruct (Hf _ _ _ E2) as [C2 (L2 & HL2 & F2)]; (split; [eapply Qle_trans; eauto |]);
  exists (L2 ++ L1); rewrite HL2, HL1, app_assoc; (split; [reflexivity |]);
  apply Forall_app; (split; [| exact F1]);
  eapply Forall_impl; try exact F2; intros q Hq; eapply Qle_trans; eauto.
Qed.

#[export] Hint Resolve mono_subprocess_run quiet_os_rename quiet_emit quiet_try_except
  mono_try_finally : mono.

(** [emit] and [try_finally] as the workers use them. *)
Lemma emit_events (ev : ui_event) (w : world) :
  emit ev w = (Ok tt, set_events (ev :: w_events w) w).
Proof. reflexivity. Qed.

Lemma try_finally_emit {A} (c : M A) (ev : ui_event) (w : world) :
  try_finally c (emit ev) w =
  (fst (c w), set_events (ev :: w_events (snd (c w))) (snd (c w))).
Proof. unfold try_finally. destruct (c w). reflexivity. Qed.

Lemma stop_seen_later (flag : option Q) (t t' : Q) :
  stop_seen flag t = true -> (t <= t')%Q -> stop_seen flag t' = true.
Proof.
  destruct flag as [s|]; simpl; [| discriminate].
  intros H1 H2. apply Qle_bool_iff in H1. apply Qle_bool_iff. lra.
Qed.

Lemma reset_stop_unseen (flag : option Q) (t : Q) : stop_seen (reset_stop flag t) t = false.
Proof. unfold reset_stop. destruct (stop_seen flag t) eqn:E; [reflexivity | exact E]. Qed.

(** ** Computations that do not read a stop flag

    [stop_frame fl c] says that [c] neither reads nor writes the stop flag
    [fl]: running it after the flag changed is running it and changing the
    flag afterwards. *)
Inductive stop_flag := ConvertFlag | DownloadFlag.

Definition get_flag (fl : stop_flag) (w : world) : option Q :=
  match fl with ConvertFlag => w_stop_convert w | DownloadFlag => w_stop_download w end.

Definition set_flag (fl : stop_flag) (f : option Q) (w : world) : world :=
  match fl with ConvertFlag => set_stop_convert f w | DownloadFlag => set_stop_download f w end.

Definition stop_frame (fl : stop_flag) {A} (c : M A) : Prop :=
  forall f w, c (set_flag fl f w) = (fst (c w), set_flag fl f (snd (c w))).

Lemma set_flag_same (fl : stop_flag) (w : world) : set_flag fl (get_flag fl w) w = w.
Proof. destruct fl, w; reflexivity. Qed.

Lemma frame_keeps_flag (fl : stop_flag) {A} (c : M A) (w : world) :
  stop_frame fl c -> get_flag fl (snd (c w)) = get_flag fl w.
Proof.
  intros Hc. rewrite <- (set_flag_same fl w) at 1. rewrite Hc. destruct fl; reflexivity.
Qed.

Section Frame.
Variable fl : stop_flag.

Lemma frame_ret {A} (a : A) : stop_frame fl (ret a).
Proof. intros f w. reflexivity. Qed.

Lemma frame_raise {A} (e : exn) : stop_frame fl (@raise A e).
Proof. intros f w. reflexivity. Qed.

Lemma frame_lift {A} (r : sum exn A) : stop_frame fl (lift r).
Proof. destruct r; intros f w; reflexivity. Qed.

Lemma frame_bind {A B} (c : M A) (k : A -> M B) :
  stop_frame fl c -> (forall a, stop_frame fl (k a)) -> stop_frame fl (bind c k).
Proof.
  intros Hc Hk f w. unfold bind. rewrite Hc.
  destruct (c w) as [[a|e] w1]; simpl; [apply Hk | reflexivity].
Qed.

Lemma frame_try_except {A} (catches : exn -> bool) (c : M A) (h : exn -> M A) :
  stop_frame fl c -> (forall e, stop_frame fl (h e)) -> stop_frame fl (try_except catches c h).
Proof.
  intros Hc Hh f w. unfold try_except. rewrite Hc.
  destruct (c w) as [[a|e] w1]; simpl; [reflexivity |].
  destruct (catches e); [apply Hh | reflexivity].
Qed.

Lemma frame_gets {A} (g : world -> A) :
  (forall f w, g (set_flag fl f w) = g w) -> stop_frame fl (gets g).
Proof. intros Hg f w. unfold gets. now rewrite Hg. Qed.

Lemma frame_modify (h : world -> world) :
  (forall f w, h (set_flag fl f w) = set_flag fl f (h w)) -> stop_frame fl (modify h).
Proof. intros Hh f w. unfold modify. now rewrite Hh. Qed.

End Frame.

(** A primitive that does not touch the flags: case on the flag, on the
    primitive's own tests, and compute. *)
Ltac frame_prim :=
  intros ?f ?w; repeat match goal with fl : stop_flag |- _ => destruct fl end; cbn;
  repeat match goal with |- context [match ?x with _ => _ end] =>
           lazymatch x with
           | context [set_stop_convert] => fail
           | context [set_stop_download] => fail
           | _ => destruct x
           end
         end; reflexivity.

Lemma frame_os_path_exists fl (p : string) : stop_frame fl (os_path_exists p).
Proof. unfold os_path_exists, gets. frame_prim. Qed.

Lemma frame_os_makedirs fl (p : string) : stop_frame fl (os_makedirs p).
Proof. unfold os_makedirs. frame_prim. Qed.

Lemma frame_subprocess_run fl (argv : list string) : stop_frame fl (subprocess_run argv).
Proof. unfold subprocess_run. frame_prim. Qed.

Lemma frame_os_rename fl (src dst : string) : stop_frame fl (os_rename src dst).
Proof. unfold os_rename. frame_prim. Qed.

Lemma frame_emit fl (ev : ui_event) : stop_frame fl (emit ev).
Proof. unfold emit, modify. frame_prim. Qed.

Lemma frame_time_time fl : stop_frame fl time_time.
Proof. unfold time_time, gets. frame_prim. Qed.

Lemma frame_time_sleep fl (d : Q) : stop_frame fl (time_sleep d).
Proof. unfold time_sleep, modify, raise. destruct (Qle_bool 0 d); frame_prim. Qed.

Lemma frame_print fl (s : string) : stop_frame fl (print s).
Proof. unfold print, modify. frame_prim. Qed.

Lemma frame_requests_get fl (url : string) : stop_frame fl (requests_get url).
Proof. unfold requests_get, after_request. frame_prim. Qed.

Lemma frame_net_wait fl (d : N) : stop_frame fl (net_wait d).
Proof. unfold net_wait, modify. frame_prim. Qed.

Lemma frame_raise_for_status fl (r : http_response) : stop_frame fl (raise_for_status r).
Proof. unfold raise_for_status. frame_prim. Qed.

Lemma frame_response_json fl (r : http_response) : stop_frame fl (response_json r).
Proof. unfold response_json. frame_prim. Qed.

Lemma frame_open_wb fl (p : string) : stop_frame fl (open_wb p).
Proof. unfold open_wb. frame_prim. Qed.

Lemma frame_file_append fl (p d : string) : stop_frame fl (file_append p d).
Proof. unfold file_append, modify. frame_prim. Qed.

Create HintDb frame.
#[export] Hint Resolve frame_ret frame_raise frame_lift frame_os_path_exists frame_os_makedirs
  frame_subprocess_run frame_os_rename frame_emit frame_time_time frame_time_sleep frame_print
  frame_requests_get frame_net_wait frame_raise_for_status frame_response_json frame_open_wb
  frame_file_append : frame.

(** A read or an update of other fields commutes with the flag by
    computation. *)
Ltac flag_conv :=
  let f := fresh "f" in let w := fresh "w" in intros f w;
  lazymatch goal with
  | |- context [set_flag ?fl] => first [is_var fl; destruct fl | idtac]
  end; reflexivity.

Ltac solve_frame :=
  repeat match goal with
  | |- forall _, _ => intro
  | |- stop_frame _ (bind _ _) => apply frame_bind
  | |- stop_frame _ (try_except _ _ _) => apply frame_try_except
  | |- stop_frame _ (gets _) => apply frame_gets; flag_conv
  | |- stop_frame _ (modify _) => apply frame_modify; flag_conv
  | |- stop_frame _ (if ?b then _ else _) => destruct b
  | |- stop_frame _ (match ?x with _ => _ end) => destruct x
  | |- _ => solve [eauto with frame]
  end.

Lemma bind_lift_inr {A B} (a : A) (k : A -> M B) (w : world) : bind (lift (inr a)) k w = k a w.
Proof. reflexivity. Qed.

(** ** Computations that emit no signal

    [silent c]: running [c] leaves the signals the window has received
    unchanged; the transfer of a song and everything below it is silent,
    only the workers' own [log] and [emit] calls signal the window. *)
Definition silent {A} (c : M A) : Prop := forall w, w_events (snd (c w)) = w_events w.

Lemma silent_ret {A} (a : A) : silent (ret a).
Proof. intros w. reflexivity. Qed.

Lemma silent_raise {A} (e : exn) : silent (@raise A e).
Proof. intros w. reflexivity. Qed.

Lemma silent_lift {A} (r : sum exn A) : silent (lift r).
Proof. destruct r; intros w; reflexivity. Qed.

Lemma silent_bind {A B} (c : M A) (k : A -> M B) :
  silent c -> (forall a, silent (k a)) -> silent (bind c k).
Proof.
  intros Hc Hk w. unfold bind. specialize (Hc w).
  destruct (c w) as [[a|e] w1]; simpl in *; [rewrite Hk | ]; exact Hc.
Qed.

Lemma silent_try_except {A} (catches : exn -> bool) (c : M A) (h : exn -> M A) :
  silent c -> (forall e, silent (h e)) -> silent (try_except catches c h).
Proof.
  intros Hc Hh w. unfold try_except. specialize (Hc w).
  destruct (c w) as [[a|e] w1]; simpl in *; [exact Hc |].
  destruct (catches e); [rewrite Hh |]; exact Hc.
Qed.

Lemma silent_gets {A} (g : world -> A) : silent (gets g).
Proof. intros w. reflexivity. Qed.

Lemma silent_modify (h : world -> world) : (forall w, w_events (h w) = w_events w) -> silent (modify h).
Proof. intros Hh w. apply Hh. Qed.

(** A primitive other than [emit]: compute, casing on its own tests. *)
Ltac silent_prim :=
  intros ?w; cbn;
  repeat match goal with |- context [match ?x with _ => _ end] => destruct x end; reflexivity.

Lemma silent_os_path_exists (p : string) : silent (os_path_exists p).
Proof. unfold os_path_exists, gets. silent_prim. Qed.

Lemma silent_os_makedirs (p : string) : silent (os_makedirs p).
Proof. unfold os_makedirs. silent_prim. Qed.

Lemma silent_subprocess_run (argv : list string) : silent (subprocess_run argv).
Proof. unfold subprocess_run. silent_prim. Qed.

Lemma silent_os_rename (src dst : string) : silent (os_rename src dst).
Proof. unfold os_rename. silent_prim. Qed.

Lemma silent_time_time : silent time_time.
Proof. unfold time_time, gets. silent_prim. Qed.

Lemma silent_time_sleep (d : Q) : silent (time_sleep d).
Proof. unfold time_sleep, modify, raise. silent_prim. Qed.

Lemma silent_print (s : string) : silent (print s).
Proof. unfold print, modify. silent_prim. Qed.

Lemma silent_requests_get (url : string) : silent (requests_get url).
Proof. unfold requests_get, after_request. silent_prim. Qed.

Lemma silent_net_wait (d : N) : silent (net_wait d).
Proof. unfold net_wait, modify. silent_prim. Qed.

Lemma silent_raise_for_status (r : http_response) : silent (raise_for_status r).
Proof. unfold raise_for_status. silent_prim. Qed.

Lemma silent_response_json (r : http_response) : silent (response_json r).
Proof. unfold response_json. silent_prim. Qed.

Lemma silent_open_wb (p : string) : silent (open_wb p).
Proof. unfold open_wb. silent_prim. Qed.

Lemma silent_file_append (p d : string) : silent (file_append p d).
Proof. unfold file_append, modify. silent_prim. Qed.

Create HintDb silent.
#[export] Hint Resolve silent_ret silent_raise silent_lift silent_gets silent_os_path_exists
  silent_os_makedirs silent_subprocess_run silent_os_rename silent_time_time silent_time_sleep silent_print silent_requests_get
  silent_net_wait silent_raise_for_status silent_response_json silent_open_wb silent_file_append : silent.

Ltac solve_silent :=
  repeat match goal with
  | |- forall _, _ => intro
  | |- silent (bind _ _) => apply silent_bind
  | |- silent (try_except _ _ _) => apply silent_try_except
  | |- silent (modify _) => apply silent_modify; intros ?w; reflexivity
  | |- silent (if ?b then _ else _) => destruct b
  | |- silent (match ?x with _ => _ end) => destruct x
  | |- _ => solve [eauto with silent]
  end.

(** ** Total correctness: [c] always returns normally, with a value in [P] *)
Definition returns {A} (P : A -> Prop) (c : M A) : Prop :=
  forall w, exists a w', c w = (Ok a, w') /\ P a.

Lemma returns_ret {A} (P : A -> Prop) (a : A) : P a -> returns P (ret a).
Proof. intros H w. eauto. Qed.

Lemma returns_bind {A B} (P1 : A -> Prop) (P : B -> Prop) (c : M A) (k : A -> M B) :
  returns P1 c -> (forall a, P1 a -> returns P (k a)) -> returns P (bind c k).
Proof.
  intros Hc Hk w. destruct (Hc w) as (a & w1 & E & H1).
  rewrite (bind_ok _ _ _ _ _ E). exact (Hk a H1 w1).
Qed.

Lemma returns_weaken {A} (P Q : A -> Prop) (c : M A) :
  returns P c -> (forall a, P a -> Q a) -> returns Q c.
Proof. intros Hc HPQ w. destruct (Hc w) as (a & w' & E & H). eauto. Qed.

(** [try: c except Exception: h(e)] returns whenever the handler does. *)
Lemma returns_try_any {A} (c : M A) (h : exn -> M A) :
  (forall e, returns (fun _ => True) (h e)) -> returns (fun _ => True) (try_except any_exn c h).
Proof.
  intros Hh w. unfold try_except. destruct (c w) as [[a|e] w1]; [eauto |]. apply Hh.
Qed.

Lemma returns_gets {A} (f : world -> A) : returns (fun _ => True) (gets f).
Proof. intros w. eauto. Qed.

Lemma returns_modify (f : world -> world) : returns (fun _ => True) (modify f).
Proof. intros w. eauto. Qed.

Lemma returns_emit (ev : ui_event) : returns (fun _ => True) (emit ev).
Proof. apply returns_modify. Qed.

Lemma returns_os_path_exists (p : string) : returns (fun _ => True) (os_path_exists p).
Proof. apply returns_gets. Qed.

Ltac solve_returns :=
  repeat match goal with
  | |- forall _, _ => intro
  | |- returns _ (bind _ _) => apply (returns_bind (fun _ => True)); [| intros ? _]
  | |- returns _ (try_except any_exn _ _) => apply returns_try_any
  | |- returns _ (if ?b then _ else _) => destruct b
  | |- returns _ (match ?x with _ => _ end) => destruct x
  | |- returns _ (ret _) => apply returns_ret
  | |- returns _ (emit _) => apply returns_emit
  | |- returns _ (os_path_exists _) => apply returns_os_path_exists
  | |- returns _ (gets _) => apply returns_gets
  | |- returns _ (modify _) => apply returns_modify
  end.

(** ** The last signal of a computation *)
Definition ends_with_event (P : ui_event -> Prop) (c : M unit) : Prop :=
  forall w w', c w = (Ok tt, w') -> exists ev rest, w_events w' = ev :: rest /\ P ev.

Lemma ends_emit (P : ui_event -> Prop) (ev : ui_event) : P ev -> ends_with_event P (emit ev).
Proof. intros H w w' E. injection E as <-. simpl. eauto. Qed.

Lemma ends_bind {A} (P : ui_event -> Prop) (c : M A) (k : A -> M unit) :
  (forall a, ends_with_event P (k a)) -> ends_with_event P (bind c k).
Proof.
  intros Hk w w' E. unfold bind in E.
  destruct (c w) as [[a|e] w1]; [exact (Hk a _ _ E) | discriminate].
Qed.

Ltac solve_ends :=
  repeat match goal with
  | |- forall _, _ => intro
  | |- ends_with_event _ (bind _ _) => apply ends_bind
  | |- ends_with_event _ (if ?b then _ else _) => destruct b
  | |- ends_with_event _ (match ?x with _ => _ end) => destruct x
  | |- ends_with_event _ (emit _) => apply ends_emit; eauto
  end.

(** The shape of a worker thread of ui.py:
    [try: body except Exception as e: handler finally: emit(fin)].  It
    always returns; its last signal is [fin], and the one before is the
    last signal of the body or of the handler. *)
Lemma worker_shape (body : M unit) (h : exn -> M unit) (fin : ui_event)
    (P Q : ui_event -> Prop) (w : world) :
  ends_with_event P body -> (forall e, ends_with_event Q (h e)) ->
  (forall e, returns (fun _ => True) (h e)) ->
  exists w' ev rest, try_finally (try_except any_exn body h) (emit fin) w = (Ok tt, w') /\
    w_events w' = fin :: ev :: rest /\ (P ev \/ Q ev).
Proof.
  intros Hb Hh Hr. unfold try_finally, try_except.
  destruct (body w) as [[[]|e] w1] eqn:E.
  - destruct (Hb _ _ E) as (ev & rest & Hev & HP). simpl.
    eexists _, ev, rest. rewrite Hev. auto.
  - destruct (Hr e w1) as ([] & w2 & E2 & _). destruct (Hh e _ _ E2) as (ev & rest & Hev & HQ).
    unfold any_exn. rewrite E2. simpl. eexists _, ev, rest. rewrite Hev. auto.
Qed.
