(* ===== verification/PyFloat.v ===== *)
(** * Python floats, for the progress percentage of the workers

    Python's [float] is an IEEE-754 binary64 value; [/] and [*] round to
    nearest, ties to even.  The Standard Library's [SpecFloat] gives these
    operations as functions on [spec_float], so the workers' progress value
    [int((i + 1) / total * 100)] of src/utils/ui.py is computed here bit
    for bit.  [int()] truncates towards zero. *)

From Stdlib Require Import ZArith List Lia Bool.
From Stdlib Require Import Floats.SpecFloat.
Import ListNotations.
Local Open Scope Z_scope.

Definition prec : Z := 53.
Definition emax : Z := 1024.

(** [float(z)] *)
Definition py_float (z : Z) : spec_float := binary_normalize prec emax z 0 false.

Definition py_fdiv (x y : spec_float) : spec_float := SFdiv prec emax x y.
Definition py_fmul (x y : spec_float) : spec_float := SFmul prec emax x y.

(** [int(x)] of a finite float; [None] where Python raises (infinity, nan). *)
Definition py_int_of_float (x : spec_float) : option Z :=
  match x with
  | S754_zero _ => Some 0
  | S754_finite s m e =>
      let a := if Z.leb 0 e then Z.pos m * 2 ^ e else Z.pos m / 2 ^ (- e) in
      Some (if s then - a else a)
  | _ => None
  end.

(** [int((i + 1) / total * 100)] of ui.py's two workers *)
Definition progress_percent (i total : nat) : option Z :=
  py_int_of_float (py_fmul (py_fdiv (py_float (Z.of_nat (S i))) (py_float (Z.of_nat total)))
                           (py_float 100)).

(** The floor of the exact percentage, [(i + 1) * 100 // total]. *)
Definition exact_percent (i total : nat) : Z := Z.of_nat (S i) * 100 / Z.of_nat total.

(** The float percentage is finite, at most one below the exact floor, at
    least 1, and 100 at the last item. *)
Definition progress_ok (i total : nat) : bool :=
  match progress_percent i total with
  | Some p => Z.leb (exact_percent i total - 1) p && Z.leb p (exact_percent i total)
              && Z.leb 1 p && implb (Nat.eqb (S i) total) (Z.eqb p 100)
  | None => false
  end.

Definition progress_ok_upto (n : nat) : bool :=
  forallb (fun total => forallb (fun i => progress_ok i total) (seq 0 total)) (seq 1 n).

Lemma progress_ok_upto_spec (n total i : nat) :
  progress_ok_upto n = true -> (1 <= total <= n)%nat -> (i < total)%nat -> progress_ok i total = true.
Proof.
  intros H Ht Hi. unfold progress_ok_upto in H. rewrite forallb_forall in H.
  specialize (H total). rewrite forallb_forall in H. apply H; apply in_seq; lia.
Qed.

Lemma progress_ok_upto_100 : progress_ok_upto 100 = true.
Proof. vm_compute. reflexivity. Qed.

(** C23: For a run of at most 100 items, the percentage [int((i + 1) / total * 100)]
    that a worker sends for item [i + 1] is a number (no exception), at least
    1, at most the exact floor [(i + 1) * 100 // total] and at least one below
    it, and 100 for the last item. *)
Theorem progress_percent_bounds (i total : nat) :
  (1 <= total <= 100)%nat -> (i < total)%nat ->
  exists p, progress_percent i total = Some p /\
    exact_percent i total - 1 <= p <= exact_percent i total /\ 1 <= p /\
    (S i = total -> p = 100).
Proof.
  intros Ht Hi. pose proof (progress_ok_upto_spec 100 total i progress_ok_upto_100 Ht Hi) as H.
  unfold progress_ok in H. destruct (progress_percent i total) as [p|]; [| discriminate].
  exists p. rewrite !andb_true_iff, !Z.leb_le in H. destruct H as [[[H1 H2] H3] H4].
  repeat split; try lia. intros Hl. apply Nat.eqb_eq in Hl. rewrite Hl in H4.
  now apply Z.eqb_eq in H4.
Qed.

Lemma progress_percent_bounds_witness :
  (1 <= 100 <= 100)%nat /\ (28 < 100)%nat /\
  exists p, progress_percent 28 100 = Some p /\
    exact_percent 28 100 - 1 <= p <= exact_percent 28 100 /\ 1 <= p /\ (29%nat = 100%nat -> p = 100).
Proof.
  split; [lia | split; [lia |]]. apply (progress_percent_bounds 28 100); lia.
Defined.

(** Item 29 of 100 shows 28 percent: [29 / 100 * 100] is [28.999999999999996]. *)
Lemma progress_percent_lags : progress_percent 28 100 = Some 28 /\ exact_percent 28 100 = 29.
Proof. vm_compute. split; reflexivity. Qed.
