(* ===== verification/Transport.v ===== *)
(** * Retrying transport: [APIHandler.request_with_retry] (src/utils/api.py)

    One [requests.get] per attempt, [max_retries] attempts, a constant
    sleep of [request_interval / 1000] seconds between attempts, and the
    last attempt's [RequestException] re-raised.  The interval is read from
    the shared config at each call. *)

From Stdlib Require Import String Ascii List ZArith QArith Lqa Lia Bool.
From stdpp Require Import gmap.
From S2P Require Import Prelude Json World.
Import ListNotations.
Open Scope string_scope.
Open Scope py_scope.

(** ** Config reads *)

(** [v[k1][k2]] *)
Definition sub2 (v : json) (k1 k2 : string) : M json := lift (py_path v [k1; k2]).


(** [self.config['apis']['song_download']] *)
Definition song_download_api : M json :=
  cfg <- gets w_config ;; sub2 cfg "apis" "song_download".

(** [v / 1000] on a Python int (a bool is an int). *)
Definition div_1000 (v : json) : sum exn Q :=
  match py_as_int v with
  | Some z => inr (z # 1000)%Q
  | None => inl (TypeError ("unsupported operand type(s) for /: '" ++ py_type_name v ++ "' and 'int'"))
  end.

(** [self.config['apis']['song_download'].get('request_interval', 1000) / 1000] *)
Definition request_interval_seconds : M Q :=
  api <- song_download_api ;;
  v <- lift (py_dict_get api "request_interval" (JInt 1000)) ;;
  lift (div_1000 v).

(** [response.json()] on what [request_with_retry] returned. *)
Definition response_json_opt (r : option http_response) : M json :=
  match r with
  | Some r => response_json r
  | None => raise (AttributeError "'NoneType' object has no attribute 'json'")
  end.

(** ** The retry loop *)

(** The body of one iteration: [Some r] is [return response], [None]
    continues with the next [retry]. *)
Definition attempt (url : string) (interval : Q) (max_retries retry : nat) : M (option http_response) :=
  try_except is_request_exception
    (response <- requests_get url ;;
     raise_for_status response ;;
     ret (Some response))
    (fun e => if Nat.ltb retry (max_retries - 1)
              then time_sleep interval ;; ret None
              else raise e).

(** [for retry in rs: ...] *)
Fixpoint retry_loop (url : string) (interval : Q) (max_retries : nat) (rs : list nat)
  : M (option http_response) :=
  match rs with
  | [] => ret None
  | retry :: rest =>
      step <- attempt url interval max_retries retry ;;
      match step with
      | Some r => ret (Some r)
      | None => retry_loop url interval max_retries rest
      end
  end.

(** [request_with_retry(url, max_retries)]; [None] is the Python [None]
    returned when the loop runs zero times. *)
Definition request_with_retry (url : string) (max_retries : nat) : M (option http_response) :=
  interval <- request_interval_seconds ;;
  retry_loop url interval max_retries (seq 0 max_retries).

(** ** What one network answer does to an attempt *)

Definition ok_status (r : http_response) : bool :=
  negb ((400 <=? status r) && (status r <? 600))%Z.

(** The exception an answer makes [requests.get] + [raise_for_status] raise. *)
Definition event_exn (ev : net_event) : option exn :=
  match ev with
  | NetErr _ k m => Some (RequestException k m)
  | NetOk _ r => if ok_status r then None
                 else Some (RequestException HTTPError (str_of_Z (status r) ++ " Error"))
  end.

Definition failing (ev : net_event) : bool :=
  match event_exn ev with Some _ => true | None => false end.


Open Scope list_scope.

(** ** One attempt *)

Section Attempt.
Variables (url : string) (interval : Q) (max_retries retry : nat) (w : world).

Lemma attempt_success d r :
    fst (next_answer (w_net w)) = NetOk d r -> ok_status r = true ->
    attempt url interval max_retries retry w = (Ok (Some r), after_request url w).
  Proof.
    intros Hev Hok. unfold ok_status in Hok.
    cbv [attempt try_except bind requests_get raise_for_status ret raise].
    rewrite Hev. simpl. apply negb_true_iff in Hok. now rewrite Hok.
  Qed.

Lemma attempt_retry e :
    event_exn (fst (next_answer (w_net w))) = Some e ->
    (retry < max_retries - 1)%nat -> (0 <= interval)%Q ->
    attempt url interval max_retries retry w =
      (Ok None, set_clock (w_clock (after_request url w) + interval)%Q (after_request url w)).
  Proof.
    intros Hev Hlt Hpos.
    apply Nat.ltb_lt in Hlt. apply Qle_bool_iff in Hpos.
    cbv [attempt try_except bind requests_get raise_for_status ret raise time_sleep modify].
    rewrite Hlt, Hpos.
    destruct (fst (next_answer (w_net w))) as [d r | d k m]; simpl in Hev |- *.
    - unfold ok_status in Hev. destruct (_ && _)%Z; simpl in *; [reflexivity | discriminate].
    - reflexivity.
  Qed.

Lemma attempt_give_up e :
    event_exn (fst (next_answer (w_net w))) = Some e ->
    (max_retries - 1 <= retry)%nat ->
    attempt url interval max_retries retry w = (Raise e, after_request url w).
  Proof.
    intros Hev Hge.
    assert (Hlt : Nat.ltb retry (max_retries - 1) = false) by (apply Nat.ltb_ge; lia).
    cbv [attempt try_except bind requests_get raise_for_status ret raise].
    rewrite Hlt.
    destruct (fst (next_answer (w_net w))) as [d r | d k m]; simpl in Hev |- *.
    - unfold ok_status in Hev. destruct (_ && _)%Z; simpl in *; congruence.
    - congruence.
  Qed.

(** Whatever the answer, an attempt issues exactly one request, to [url]. *)
Lemma attempt_logs_one o w' :
    attempt url interval max_retries retry w = (o, w') ->
    w_log w' = (w_clock w, url) :: w_log w.
  Proof.
    cbv [attempt try_except bind requests_get raise_for_status ret raise time_sleep modify].
    unfold after_request. destruct (next_answer (w_net w)) as [ev rest].
    destruct ev as [d r | d k m]; simpl;
      repeat (match goal with |- context [if ?b then _ else _] => destruct b end; simpl);
      intros H; injection H as <- <-; reflexivity.
  Qed.
End Attempt.

Lemma failing_exn (ev : net_event) : failing ev = true -> exists e, event_exn ev = Some e.
Proof. unfold failing. destruct (event_exn ev) as [e|]; [eauto | discriminate]. Qed.

(** The config read does not touch the world. *)
Lemma request_interval_seconds_world (w : world) :
  exists o, request_interval_seconds w = (o, w).
Proof.
  cbv [request_interval_seconds song_download_api sub2 bind gets lift ret raise].
  repeat (match goal with |- context [match ?x with inl _ => _ | inr _ => _ end] => destruct x end);
    eauto.
Qed.

(** The interval read from a config whose [request_interval] is the int [z]. *)
Lemma request_interval_seconds_of w ckvs akvs skvs z :
  w_config w = JObj ckvs -> assoc "apis" ckvs = Some (JObj akvs) ->
  assoc "song_download" akvs = Some (JObj skvs) -> assoc "request_interval" skvs = Some (JInt z) ->
  request_interval_seconds w = (Ok (z # 1000)%Q, w).
Proof.
  intros Hc Ha Hs Hi.
  cbv [request_interval_seconds song_download_api sub2 bind gets lift ret]. rewrite Hc.
  simpl. rewrite Ha. simpl. rewrite Hs. simpl. rewrite Hi. reflexivity.
Qed.

(** ** The loop *)

Section Loop.
Variables (url : string) (interval : Q) (max_retries : nat).

(** Every run of the loop over [rs] issues at most [length rs] requests,
    all of them to [url]. *)
Lemma retry_loop_requests rs : forall w o w',
    retry_loop url interval max_retries rs w = (o, w') ->
    exists L, w_log w' = L ++ w_log w /\ (length L <= length rs)%nat /\
              Forall (fun p => snd p = url) L.
  Proof.
    induction rs as [|k rs IH]; intros w o w' H; simpl in H.
    - injection H as <- <-. exists []. simpl. auto.
    - unfold bind in H.
      destruct (attempt url interval max_retries k w) as [[s|e] w1] eqn:Ha;
        pose proof (attempt_logs_one _ _ _ _ _ _ _ Ha) as Hlog.
      + destruct s as [r|].
        * injection H as <- <-. exists [(w_clock w, url)]. simpl. rewrite Hlog. auto with arith.
        * destruct (IH _ _ _ H) as (L & HL & Hlen & Hall).
          exists (L ++ [(w_clock w, url)]). rewrite HL, Hlog, <- app_assoc. simpl.
          rewrite length_app. simpl. split; [reflexivity | split; [lia |]].
          apply Forall_app. auto.
      + injection H as <- <-. exists [(w_clock w, url)]. simpl. rewrite Hlog. auto with arith.
  Qed.

Hypothesis interval_nonneg : (0 <= interval)%Q.

Lemma retry_loop_recovers d r rest (Hok : ok_status r = true) : forall bad k m w,
    Forall (fun ev => failing ev = true) bad ->
    (length bad < m)%nat -> (k + m = max_retries)%nat ->
    w_net w = bad ++ NetOk d r :: rest ->
    exists w', retry_loop url interval max_retries (seq k m) w = (Ok (Some r), w') /\
      w_net w' = rest /\
      exists L, w_log w' = L ++ w_log w /\ map snd L = repeat url (S (length bad)).
  Proof.
    induction bad as [|ev bad IH]; intros k m w Hfail Hlen Hkm Hnet.
    - destruct m as [|m]; [simpl in Hlen; lia |]. simpl.
      erewrite bind_ok by (apply (attempt_success _ _ _ _ _ d r); [now rewrite Hnet | exact Hok]).
      eexists. split; [reflexivity |]. autorewrite with py_world. rewrite Hnet.
      split; [reflexivity |]. exists [(w_clock w, url)]. auto.
    - apply Forall_cons_iff in Hfail as [Hev Hbad].
      destruct (failing_exn _ Hev) as [e He].
      destruct m as [|m]; [simpl in Hlen; lia |]. simpl.
      erewrite bind_ok by (apply (attempt_retry _ _ _ _ _ e); [now rewrite Hnet | simpl in Hlen; lia | exact interval_nonneg]).
      destruct (IH (S k) m (set_clock (w_clock (after_request url w) + interval)%Q (after_request url w)))
        as (w' & Hrun & Hnet' & L & HL & Hmap); [assumption | simpl in Hlen; lia | lia | |].
      { simpl. rewrite after_request_net, Hnet. reflexivity. }
      exists w'. split; [exact Hrun |]. split; [exact Hnet' |].
      exists (L ++ [(w_clock w, url)]). simpl in HL. rewrite after_request_log in HL.
      rewrite HL, <- app_assoc. split; [reflexivity |].
      rewrite map_app, Hmap. simpl. rewrite repeat_cons. reflexivity.
  Qed.

Lemma retry_loop_exhausted last_ev e rest (He : event_exn last_ev = Some e) : forall bad k m w,
    Forall (fun ev => failing ev = true) bad ->
    S (length bad) = m -> (k + m = max_retries)%nat ->
    w_net w = bad ++ last_ev :: rest ->
    exists w', retry_loop url interval max_retries (seq k m) w = (Raise e, w') /\
      w_net w' = rest /\
      exists L, w_log w' = L ++ w_log w /\ map snd L = repeat url m.
  Proof.
    induction bad as [|ev bad IH]; intros k m w Hfail Hlen Hkm Hnet; subst m.
    - simpl.
      erewrite bind_raise by (apply (attempt_give_up _ _ _ _ _ e); [now rewrite Hnet | simpl in Hkm; lia]).
      eexists. split; [reflexivity |]. autorewrite with py_world. rewrite Hnet.
      split; [reflexivity |]. exists [(w_clock w, url)]. auto.
    - apply Forall_cons_iff in Hfail as [Hev Hbad].
      destruct (failing_exn _ Hev) as [e' He'].
      simpl.
      erewrite bind_ok by (apply (attempt_retry _ _ _ _ _ e'); [now rewrite Hnet | simpl in Hkm; lia | exact interval_nonneg]).
      destruct (IH (S k) (S (length bad)) (set_clock (w_clock (after_request url w) + interval)%Q (after_request url w)))
        as (w' & Hrun & Hnet' & L & HL & Hmap); [assumption | reflexivity | simpl in Hkm; lia | |].
      { simpl. rewrite after_request_net, Hnet. reflexivity. }
      exists w'. split; [exact Hrun |]. split; [exact Hnet' |].
      exists (L ++ [(w_clock w, url)]). simpl in HL. rewrite after_request_log in HL.
      rewrite HL, <- app_assoc. split; [reflexivity |].
      rewrite map_app, Hmap. simpl. rewrite repeat_cons. reflexivity.
  Qed.
End Loop.

(** ** Clock monotonicity *)

Lemma quiet_sub2 v k1 k2 : quiet (sub2 v k1 k2).
Proof. apply quiet_lift. Qed.

Lemma quiet_song_download_api : quiet song_download_api.
Proof. unfold song_download_api. solve_mono. Qed.

Lemma quiet_request_interval_seconds : quiet request_interval_seconds.
Proof. unfold request_interval_seconds. pose proof quiet_song_download_api. solve_mono. Qed.

Lemma quiet_response_json_opt r : quiet (response_json_opt r).
Proof. unfold response_json_opt. solve_mono. Qed.

#[export] Hint Resolve quiet_sub2 quiet_song_download_api quiet_request_interval_seconds
  quiet_response_json_opt : mono.

Lemma mono_attempt url interval n k : mono (attempt url interval n k).
Proof. unfold attempt. solve_mono. Qed.

Lemma mono_retry_loop url interval n rs : mono (retry_loop url interval n rs).
Proof. induction rs; simpl; pose proof mono_attempt; solve_mono. Qed.

Lemma mono_request_with_retry url n : mono (request_with_retry url n).
Proof. unfold request_with_retry. pose proof mono_retry_loop. solve_mono. Qed.

#[export] Hint Resolve mono_attempt mono_retry_loop mono_request_with_retry : mono.

(** ** The transport's contract *)

Lemma request_with_retry_loop url max_retries w interval :
  fst (request_interval_seconds w) = Ok interval ->
  request_with_retry url max_retries w = retry_loop url interval max_retries (seq 0 max_retries) w.
Proof.
  intros Hi. destruct (request_interval_seconds_world w) as [o Ho].
  rewrite Ho in Hi. simpl in Hi. subst o.
  unfold request_with_retry. now rewrite (bind_ok _ _ _ _ _ Ho).
Qed.

(** C2: Recovery: when the first [k < max_retries] answers fail (transport
    error or HTTP 4xx/5xx) and the next one is a good response, that
    response is returned, after exactly [k + 1] requests, all to [url], and
    no answer beyond it is consumed. *)
Theorem request_with_retry_recovers url max_retries w interval bad d r rest :
  fst (request_interval_seconds w) = Ok interval -> (0 <= interval)%Q ->
  Forall (fun ev => failing ev = true) bad -> (length bad < max_retries)%nat ->
  ok_status r = true -> w_net w = bad ++ NetOk d r :: rest ->
  exists w', request_with_retry url max_retries w = (Ok (Some r), w') /\ w_net w' = rest /\
    exists L, w_log w' = L ++ w_log w /\ map snd L = repeat url (S (length bad)).
Proof.
  intros Hi Hpos Hbad Hlen Hok Hnet. rewrite (request_with_retry_loop _ _ _ _ Hi).
  eapply retry_loop_recovers; eauto.
Qed.

(** C3: Exhaustion: when all [max_retries] answers fail, the exception of
    the last attempt is raised as it is, after exactly [max_retries]
    requests. *)
Theorem request_with_retry_reraises_last url max_retries w interval bad last_ev e rest :
  fst (request_interval_seconds w) = Ok interval -> (0 <= interval)%Q ->
  Forall (fun ev => failing ev = true) bad -> S (length bad) = max_retries ->
  event_exn last_ev = Some e -> w_net w = bad ++ last_ev :: rest ->
  exists w', request_with_retry url max_retries w = (Raise e, w') /\ w_net w' = rest /\
    exists L, w_log w' = L ++ w_log w /\ map snd L = repeat url max_retries.
Proof.
  intros Hi Hpos Hbad Hlen He Hnet. rewrite (request_with_retry_loop _ _ _ _ Hi).
  eapply retry_loop_exhausted; eauto.
Qed.

(** C34: Bound: whatever the network and the config, one call issues at
    most [max_retries] requests, all of them to [url]. *)
Theorem request_with_retry_bounded url max_retries w o w' :
  request_with_retry url max_retries w = (o, w') ->
  exists L, w_log w' = L ++ w_log w /\ (length L <= max_retries)%nat /\
            Forall (fun p => snd p = url) L.
Proof.
  unfold request_with_retry, bind.
  destruct (request_interval_seconds_world w) as [[i|e] Ho]; rewrite Ho; intros H.
  - destruct (retry_loop_requests _ _ _ _ _ _ _ H) as (L & HL & Hlen & Hall).
    rewrite length_seq in Hlen. eauto.
  - injection H as <- <-. exists []. simpl. auto with arith.
Qed.

(** ** Witnesses *)

Definition transport_config : json :=
  JObj [("apis", JObj [("song_download", JObj [("request_interval", JInt 200)])])].

Definition ok_response : http_response := mk_response 200 "ok" None None [] None.

Definition transport_world (net : list net_event) : world :=
  base_world 0 net transport_config.

Lemma request_with_retry_recovers_witness :
  exists w', request_with_retry "http://x" 3
               (transport_world [NetErr 10 Timeout "read timed out";
                                 NetOk 10 (mk_response 503 "" None None [] None);
                                 NetOk 10 ok_response]) = (Ok (Some ok_response), w') /\
    w_net w' = [] /\
    exists L, w_log w' = L ++ [] /\ map snd L = repeat "http://x" 3.
Proof.
  apply (request_with_retry_recovers "http://x" 3
           (transport_world [NetErr 10 Timeout "read timed out";
                             NetOk 10 (mk_response 503 "" None None [] None);
                             NetOk 10 ok_response]) (200 # 1000)
           [NetErr 10 Timeout "read timed out"; NetOk 10 (mk_response 503 "" None None [] None)]
           10 ok_response []);
    [vm_compute; reflexivity | apply Qle_bool_iff; reflexivity | repeat constructor
    | simpl; lia | reflexivity | reflexivity].
Defined.

Lemma request_with_retry_reraises_last_witness :
  exists w', request_with_retry "http://x" 3
               (transport_world [NetErr 10 Timeout "t1"; NetErr 10 Timeout "t2";
                                 NetErr 10 ConnectionError "reset"])
             = (Raise (RequestException ConnectionError "reset"), w') /\
    w_net w' = [] /\
    exists L, w_log w' = L ++ [] /\ map snd L = repeat "http://x" 3.
Proof.
  apply (request_with_retry_reraises_last "http://x" 3
           (transport_world [NetErr 10 Timeout "t1"; NetErr 10 Timeout "t2";
                             NetErr 10 ConnectionError "reset"]) (200 # 1000)
           [NetErr 10 Timeout "t1"; NetErr 10 Timeout "t2"] (NetErr 10 ConnectionError "reset") _ []);
    [vm_compute; reflexivity | apply Qle_bool_iff; reflexivity | repeat constructor
    | reflexivity | reflexivity | reflexivity].
Defined.

Lemma request_with_retry_bounded_witness :
  exists L, w_log (snd (request_with_retry "http://x" 3 (transport_world []))) = L ++ [] /\
            (length L <= 3)%nat /\ Forall (fun p => snd p = "http://x") L.
Proof.
  apply (request_with_retry_bounded "http://x" 3 (transport_world [])
           (fst (request_with_retry "http://x" 3 (transport_world [])))).
  vm_compute. reflexivity.
Defined.
