(* ===== verification/Resolver.v ===== *)
(** * Resolver: [APIHandler.extract_song_id_from_url] and
      [APIHandler.get_playlist_songs] (src/utils/api.py)

    The providers of [config['apis']['playlists']] are tried in order; each
    is one [request_with_retry]; the response shape is chosen by the
    provider's [name] (the provider named [Injahow歌单API] answers a flat
    list, the others an object with [result.tracks] or [tracks]); every
    song is normalised on its own, a failing song being skipped; the first
    provider with at least one song wins, and when none has any, an
    aggregate [Exception] is raised. *)

From Stdlib Require Import String Ascii List ZArith QArith Bool.
From stdpp Require Import gmap.
From S2P Require Import Prelude Json World Transport.
Import ListNotations.
Open Scope string_scope.
Open Scope py_scope.

(** ** Song ids *)

(** [re.search(r'id=([0-9]+)', url).group(1)]: the leftmost ["id="]
    followed by a digit, and the greedy run of digits after it. *)
Fixpoint search_id_param (s : string) : option string :=
  let here := if String.prefix "id=" s then digits_prefix (str_drop 3 s) else "" in
  if negb (String.eqb here "") then Some here
  else match s with
       | EmptyString => None
       | String _ s' => search_id_param s'
       end.

(** Python's [$] without MULTILINE: the end, or just before a final newline. *)
Definition dollar (rest : string) : bool :=
  String.eqb rest "" || String.eqb rest (String (ascii_of_nat 10) EmptyString).

(** [re.search(r'([0-9]+)$', url).group(1)]: the leftmost digit run that
    reaches [$] (a shorter run never does, since a digit follows it). *)
Fixpoint search_trailing_digits (s : string) : option string :=
  let d := digits_prefix s in
  if negb (String.eqb d "") && dollar (str_drop (String.length d) s) then Some d
  else match s with
       | EmptyString => None
       | String _ s' => search_trailing_digits s'
       end.

Definition extract_song_id_from_url (url : string) : string :=
  match search_id_param url with
  | Some g => g
  | None => match search_trailing_digits url with
            | Some g => g
            | None => ""
            end
  end.

(** ** Normalising one provider's answer *)

Record song_info := mk_song {
  si_name : json;     (** [song_info['name']]: whatever the provider's field holds *)
  si_artist : json;   (** [song_info['artist']] *)
  si_id : string      (** [song_info['id']] *)
}.

Definition injahow_name : string := "Injahow歌单API".

(** The body of the per-song [try] (lines 100-117). *)
Definition normalize_song (api song : json) : M song_info :=
  kname <- sub2 api "data_paths" "song_name" ;;
  song_name <- lift (py_subscript song kname) ;;
  kartist <- sub2 api "data_paths" "artist" ;;
  artist <- lift (py_subscript song kartist) ;;
  kid <- sub2 api "data_paths" "song_id" ;;
  song_id_data <- lift (py_subscript song kid) ;;
  let song_id :=
    match song_id_data with
    | JStr s => if str_in "http" s then extract_song_id_from_url s else s
    | v => py_str v
    end in
  ret (mk_song song_name artist song_id).

(** [for i, song in enumerate(songs): try ... except Exception as e: print(...); continue] *)
Fixpoint collect_songs (api : json) (i : nat) (songs : list json) : M (list song_info) :=
  match songs with
  | [] => ret []
  | song :: rest =>
      item <- try_except any_exn
                (s <- normalize_song api song ;; ret (Some s))
                (fun e => name <- lift (py_subscript api (JStr "name")) ;;
                          print (py_str name ++ "处理第" ++ str_of_nat (S i) ++ "首歌曲失败: " ++ exn_str e) ;;
                          ret None) ;;
      tail <- collect_songs api (S i) rest ;;
      ret (match item with Some s => s :: tail | None => tail end)
  end.

(** The shape dispatch (lines 65-89): [Some songs], or [None] for [continue]. *)
Definition select_songs (api data : json) : M (option json) :=
  name <- lift (py_subscript api (JStr "name")) ;;
  if py_eq_str name injahow_name then
    match data with
    | JList _ => ret (Some data)
    | _ => print (py_str name ++ "响应不是预期的列表格式: " ++ py_type_name data) ;; ret None
    end
  else
    match data with
    | JObj _ =>
        has_result <- lift (py_contains data "result") ;;
        nested <- (if has_result
                   then r <- lift (py_subscript data (JStr "result")) ;; lift (py_contains r "tracks")
                   else ret false) ;;
        if nested then s <- sub2 data "result" "tracks" ;; ret (Some s)
        else
          has_tracks <- lift (py_contains data "tracks") ;;
          if has_tracks then s <- lift (py_subscript data (JStr "tracks")) ;; ret (Some s)
          else print (py_str name ++ "响应缺少预期的'result.tracks'或'tracks'字段") ;; ret None
    | _ => print (py_str name ++ "响应不是预期的JSON对象格式") ;; ret None
    end.

(** The body of the per-provider [try] (lines 59-128): [Some songs] is
    [return result], [None] goes on with the next provider. *)
Definition playlist_api_body (list_id : string) (api : json) : M (option (list song_info)) :=
  fmt <- lift (py_subscript api (JStr "request_format")) ;;
  url <- lift (py_format fmt [("list_id", list_id)]) ;;
  response <- request_with_retry url 3 ;;
  rt <- lift (py_subscript api (JStr "response_type")) ;;
  if py_eq_str rt "json" then
    data <- response_json_opt response ;;
    sel <- select_songs api data ;;
    match sel with
    | None => ret None
    | Some (JList songs) =>
        result <- collect_songs api 0 songs ;;
        name <- lift (py_subscript api (JStr "name")) ;;
        match result with
        | [] => print (py_str name ++ "未获取到有效歌曲列表") ;; ret None
        | _ => print ("使用" ++ py_str name ++ "成功获取到" ++ str_of_nat (length result) ++ "首歌曲") ;;
               ret (Some result)
        end
    | Some _ =>
        name <- lift (py_subscript api (JStr "name")) ;;
        print (py_str name ++ "获取的歌曲列表不是预期的列表格式") ;; ret None
    end
  else ret None.

Definition all_failed_message : string := "所有歌单API都请求失败，请检查网络连接或稍后重试".

(** [for api in playlist_apis: try ... except Exception as e: print(...); continue]
    and the final [raise] (lines 57-135). *)
Fixpoint try_playlist_apis (list_id : string) (apis : list json) : M (list song_info) :=
  match apis with
  | [] => raise (Exception all_failed_message)
  | api :: rest =>
      r <- try_except any_exn (playlist_api_body list_id api)
             (fun e => name <- lift (py_subscript api (JStr "name")) ;;
                       print (py_str name ++ "请求失败: " ++ exn_str e) ;;
                       ret None) ;;
      match r with
      | Some songs => ret songs
      | None => try_playlist_apis list_id rest
      end
  end.

Definition get_playlist_songs (list_id : string) : M (list song_info) :=
  playlist_apis <- (cfg <- gets w_config ;; sub2 cfg "apis" "playlists") ;;
  apis <- lift (py_iter playlist_apis) ;;
  try_playlist_apis list_id apis.

(** ** Theorems: song ids *)

Lemma search_id_param_digits (s g : string) :
  search_id_param s = Some g -> all_chars is_digit g = true.
Proof.
  induction s as [|c s IH]; intros H.
  - discriminate.
  - cbn [search_id_param] in H.
    set (here := if String.prefix "id=" (String c s) then digits_prefix (str_drop 3 (String c s)) else "") in H.
    assert (Hd : all_chars is_digit here = true).
    { subst here. destruct (String.prefix _ _); [apply digits_prefix_digits | reflexivity]. }
    destruct (negb (String.eqb here "")); [injection H as <-; exact Hd | auto].
Qed.

Lemma search_trailing_digits_digits (s g : string) :
  search_trailing_digits s = Some g -> all_chars is_digit g = true.
Proof.
  induction s as [|c s IH]; simpl; intros H; [discriminate |].
  destruct (_ && _) eqn:E; [injection H as <- | auto].
  destruct (is_digit c) eqn:Hc; simpl; [now rewrite Hc, digits_prefix_digits | reflexivity].
Qed.

(** A digit string has no ["id="]: the ['i'] is not a digit. *)
Lemma search_id_param_on_digits (s : string) :
  all_chars is_digit s = true -> search_id_param s = None.
Proof.
  induction s as [|c s IH]; intros H; [reflexivity |].
  cbn [search_id_param]. simpl in H. apply andb_true_iff in H as [Hc Hs].
  destruct (String.prefix "id=" (String c s)) eqn:Hp.
  - exfalso. destruct c as [[] [] [] [] [] [] [] []]; vm_compute in Hc, Hp; discriminate.
  - cbn -[search_id_param]. exact (IH Hs).
Qed.

Lemma extract_on_digits (s : string) :
  all_chars is_digit s = true -> extract_song_id_from_url s = s.
Proof.
  intros H. unfold extract_song_id_from_url. rewrite search_id_param_on_digits by exact H.
  destruct s as [|c s']; [reflexivity |].
  cbn [search_trailing_digits]. rewrite (digits_prefix_all _ H), str_drop_length.
  reflexivity.
Qed.

(** The id [extract_song_id_from_url] returns is made of ASCII digits
    only (possibly none). *)
Theorem extract_song_id_digits (url : string) :
  all_chars is_digit (extract_song_id_from_url url) = true.
Proof.
  unfold extract_song_id_from_url.
  destruct (search_id_param url) as [g|] eqn:H1; [eauto using search_id_param_digits |].
  destruct (search_trailing_digits url) as [g|] eqn:H2; [eauto using search_trailing_digits_digits |].
  reflexivity.
Qed.

(** Extracting an id from an extracted id gives it back. *)
Theorem extract_song_id_idempotent (url : string) :
  extract_song_id_from_url (extract_song_id_from_url url) = extract_song_id_from_url url.
Proof. apply extract_on_digits, extract_song_id_digits. Qed.

(** The three examples of the spec: an [id=] parameter, a trailing
    number, and no number at all. *)
Theorem extract_song_id_spec_examples :
  extract_song_id_from_url "https://x/y?id=12345" = "12345" /\
  extract_song_id_from_url "...song/67890" = "67890" /\
  extract_song_id_from_url "abc" = "".
Proof. repeat split; reflexivity. Qed.

(** ** Theorems: the provider loop *)

Open Scope list_scope.

Lemma try_playlist_apis_hit list_id api rest w w1 songs :
  playlist_api_body list_id api w = (Ok (Some songs), w1) ->
  try_playlist_apis list_id (api :: rest) w = (Ok songs, w1).
Proof. intros H. cbn [try_playlist_apis]. unfold bind, try_except. now rewrite H. Qed.

Lemma get_playlist_songs_apis list_id w apis :
  sub2 (w_config w) "apis" "playlists" w = (Ok (JList apis), w) ->
  get_playlist_songs list_id w = try_playlist_apis list_id apis w.
Proof. intros H. unfold get_playlist_songs, bind, gets. now rewrite H. Qed.

Definition has_name (api : json) : Prop := exists n, py_subscript api (JStr "name") = inr n.

(** Under named providers the provider loop raises nothing but the
    aggregate exception. *)
Lemma try_playlist_apis_raises list_id apis :
  Forall has_name apis ->
  forall w e w', try_playlist_apis list_id apis w = (Raise e, w') -> e = Exception all_failed_message.
Proof.
  induction 1 as [|api rest [n Hn] Hrest IH]; intros w e w' H.
  - injection H as <- <-. reflexivity.
  - cbn [try_playlist_apis] in H. unfold bind, try_except in H.
    destruct (playlist_api_body list_id api w) as [[[songs|]|e0] w1];
      [discriminate | eauto |].
    unfold any_exn, lift in H. rewrite Hn in H. cbn in H. eauto.
Qed.

(** C4: Short circuit: when the first configured provider yields songs,
    [get_playlist_songs] returns them in the world that provider left:
    no other provider is asked. *)
Theorem get_playlist_songs_first_success list_id w api rest w1 songs :
  sub2 (w_config w) "apis" "playlists" w = (Ok (JList (api :: rest)), w) ->
  playlist_api_body list_id api w = (Ok (Some songs), w1) ->
  get_playlist_songs list_id w = (Ok songs, w1).
Proof. intros Hcfg Hbody. rewrite (get_playlist_songs_apis _ _ _ Hcfg). now apply try_playlist_apis_hit. Qed.

(** C5: Aggregate error: with a list of named providers, the only exception
    [get_playlist_songs] can raise is the aggregate "all playlist APIs
    failed" one, never a provider's own. *)
Theorem get_playlist_songs_aggregate_error list_id w apis e w' :
  sub2 (w_config w) "apis" "playlists" w = (Ok (JList apis), w) ->
  Forall has_name apis ->
  get_playlist_songs list_id w = (Raise e, w') ->
  e = Exception all_failed_message.
Proof.
  intros Hcfg Hnamed H. rewrite (get_playlist_songs_apis _ _ _ Hcfg) in H.
  exact (try_playlist_apis_raises _ _ Hnamed _ _ _ H).
Qed.

(** C33: The two object shapes of a non-Injahow provider give the same
    song list: [{"result": {"tracks": T, ...}, ...}] and
    [{"tracks": T, ...}] (without a [result] key) both select [T], with no
    effect on the world. *)
Theorem select_songs_nested_shapes_agree api n kvs1 inner kvs2 tracks w :
  py_subscript api (JStr "name") = inr n -> py_eq_str n injahow_name = false ->
  assoc "result" kvs1 = Some (JObj inner) -> assoc "tracks" inner = Some tracks ->
  assoc "result" kvs2 = None -> assoc "tracks" kvs2 = Some tracks ->
  select_songs api (JObj kvs1) w = (Ok (Some tracks), w) /\
  select_songs api (JObj kvs2) w = (Ok (Some tracks), w).
Proof.
  intros Hn Hinj Hr Ht Hr2 Ht2.
  unfold select_songs, sub2, bind, lift. rewrite Hn. simpl. rewrite Hinj. simpl.
  rewrite Hr, Hr2. simpl. rewrite Ht, Ht2. split; reflexivity.
Qed.

(** C39: Finding: the shape is chosen by the provider's name, not by a
    shape tag: a provider not named [Injahow歌单API] that answers a flat
    list is skipped as a shape mismatch. *)
Theorem select_songs_flat_list_needs_injahow_name api n l w :
  py_subscript api (JStr "name") = inr n -> py_eq_str n injahow_name = false ->
  select_songs api (JList l) w =
    (Ok None, set_out ((py_str n ++ "响应不是预期的JSON对象格式")%string :: w_out w) w).
Proof. intros Hn Hinj. unfold select_songs, bind, lift. rewrite Hn. simpl. now rewrite Hinj. Qed.

(** ** Concrete runs *)

Definition ok_json (j : json) : http_response := mk_response 200 "" (Some j) None [] None.

Definition data_paths_with (id_field : string) : json :=
  JObj [("song_name", JStr "name"); ("artist", JStr "artist"); ("song_id", JStr id_field)].

Definition provider_nested : json :=
  JObj [("name", JStr "A"); ("request_format", JStr "http://a/playlist?id={list_id}");
        ("response_type", JStr "json"); ("data_paths", data_paths_with "id")].

Definition provider_flat : json :=
  JObj [("name", JStr injahow_name); ("request_format", JStr "http://b/?type=playlist&id={list_id}");
        ("response_type", JStr "json"); ("data_paths", data_paths_with "url")].

Definition config_with (providers : list json) : json :=
  JObj [("apis", JObj [("playlists", JList providers);
                       ("song_download", JObj [("request_interval", JInt 200)])])].

Definition world_with (cfg : json) (net : list net_event) : world :=
  base_world 0 net cfg.

Definition flat_song (url : string) : json :=
  JObj [("name", JStr "Song"); ("artist", JStr "Artist"); ("url", JStr url)].

(** The scenario of the spec: A answers [{"result":{"tracks":[]}}], B a flat list. *)
Definition scenario_world : world :=
  world_with (config_with [provider_nested; provider_flat])
    [NetOk 1000 (ok_json (JObj [("result", JObj [("tracks", JList [])])]));
     NetOk 1000 (ok_json (JList [flat_song "http://x?id=42"]))].

(** The end-to-end scenario of the spec: the empty nested answer of
    provider A is passed over, provider B's flat list gives the one song
    with id 42, after exactly two requests. *)
Theorem resolve_spec_scenario :
  fst (get_playlist_songs "3778678" scenario_world) = Ok [mk_song (JStr "Song") (JStr "Artist") "42"] /\
  map snd (w_log (snd (get_playlist_songs "3778678" scenario_world))) =
    ["http://b/?type=playlist&id=3778678"; "http://a/playlist?id=3778678"].
Proof. split; vm_compute; reflexivity. Qed.



(** ** Witnesses *)

Definition first_world : world :=
  world_with (config_with [provider_flat]) [NetOk 0 (ok_json (JList [flat_song "http://x?id=42"]))].

Lemma get_playlist_songs_first_success_witness :
  get_playlist_songs "1" first_world =
    (Ok [mk_song (JStr "Song") (JStr "Artist") "42"], snd (playlist_api_body "1" provider_flat first_world)).
Proof.
  apply (get_playlist_songs_first_success "1" first_world provider_flat [] _ _);
    vm_compute; reflexivity.
Defined.

Definition unreachable_world : world := world_with (config_with [provider_flat]) [].

Lemma get_playlist_songs_aggregate_error_witness :
  Forall has_name [provider_flat] /\
  exists e w', get_playlist_songs "1" unreachable_world = (Raise e, w') /\
               e = Exception all_failed_message.
Proof.
  split; [repeat constructor; eexists; reflexivity |].
  exists (Exception all_failed_message), (snd (get_playlist_songs "1" unreachable_world)).
  split; [vm_compute; reflexivity |].
  apply (get_playlist_songs_aggregate_error "1" unreachable_world [provider_flat] _
           (snd (get_playlist_songs "1" unreachable_world)));
    [vm_compute; reflexivity | repeat constructor; eexists; reflexivity | vm_compute; reflexivity].
Defined.

Lemma select_songs_nested_shapes_agree_witness :
  select_songs provider_nested (JObj [("result", JObj [("tracks", JList [])])]) scenario_world
    = (Ok (Some (JList [])), scenario_world) /\
  select_songs provider_nested (JObj [("tracks", JList [])]) scenario_world
    = (Ok (Some (JList [])), scenario_world).
Proof.
  apply (select_songs_nested_shapes_agree provider_nested (JStr "A") _ [("tracks", JList [])] _ (JList []));
    reflexivity.
Defined.

Lemma select_songs_flat_list_needs_injahow_name_witness :
  select_songs provider_nested (JList []) scenario_world =
    (Ok None, set_out (("A" ++ "响应不是预期的JSON对象格式")%string :: w_out scenario_world) scenario_world).
Proof. apply (select_songs_flat_list_needs_injahow_name provider_nested (JStr "A")); reflexivity. Defined.
