(* ===== verification/Location.v ===== *)
(** * Location fetcher and config getters of [APIHandler] (src/utils/api.py)

    [get_song_download_url] builds one URL from the [song_download]
    template, fetches it through [request_with_retry], and reads the
    location either as the stripped body ([response_type = "text"]) or as
    the [url] field of the JSON body ([response_type = "json"], [""] when
    absent).  The getters read the same [song_download] object.
    [extract_data] walks a dotted path with [name[index]] keys and turns a
    lookup failure into a [KeyError] carrying a report; on plain keys it
    agrees with [Json.py_path]. *)

From Stdlib Require Import String Ascii List ZArith QArith Bool.
From stdpp Require Import gmap.
From S2P Require Import Prelude Json NtPath World Transport.
Import ListNotations.
Open Scope string_scope.
Open Scope py_scope.

(** [response.text] on what [request_with_retry] returned. *)
Definition response_text_opt (r : option http_response) : M string :=
  match r with
  | Some r => ret (text r)
  | None => raise (AttributeError "'NoneType' object has no attribute 'text'")
  end.

(** Lines 148-155: the location read from the response. *)
Definition read_location (download_api : json) (response : option http_response) : M json :=
  rt <- lift (py_subscript download_api (JStr "response_type")) ;;
  if py_eq_str rt "text" then
    t <- response_text_opt response ;; ret (JStr (py_strip t))
  else if py_eq_str rt "json" then
    data <- response_json_opt response ;;
    lift (py_dict_get data "url" (JStr ""))
  else raise (ValueError ("Unsupported response type: " ++ py_str rt)).

(** [get_song_download_url(song_id, quality=None)]; the result is the
    Python value returned (a str, or whatever [data.get('url', '')] holds). *)
Definition get_song_download_url (song_id : string) (quality : option string) : M json :=
  download_api <- song_download_api ;;
  q <- (match quality with
        | None => lift (py_subscript download_api (JStr "default_quality"))
        | Some q => ret (JStr q)
        end) ;;
  fmt <- lift (py_subscript download_api (JStr "request_format")) ;;
  url <- lift (py_format fmt [("song_id", song_id); ("quality", py_str q)]) ;;
  response <- request_with_retry url 3 ;;
  read_location download_api response.

(** [set_request_interval(interval)]: the nested item assignment mutates
    the shared config in place, then the whole config is written to
    [config.json] in the working directory, in text mode (each line feed
    of the dump is written as [\r\n] on Windows). *)
Definition set_request_interval (interval : Z) : M unit :=
  cfg <- gets w_config ;;
  apis <- lift (py_subscript cfg (JStr "apis")) ;;
  sd <- lift (py_subscript apis (JStr "song_download")) ;;
  sd' <- lift (py_setitem sd "request_interval" (JInt interval)) ;;
  apis' <- lift (py_setitem apis "song_download" sd') ;;
  cfg' <- lift (py_setitem cfg "apis" apis') ;;
  modify (set_config cfg') ;;
  open_wb "config.json" ;;
  file_append "config.json" (crlf_newlines (json_dump cfg')).

(** [get_request_interval()] *)
Definition get_request_interval : M json :=
  api <- song_download_api ;; lift (py_dict_get api "request_interval" (JInt 1000)).

(** [get_quality_options()] *)
Definition get_quality_options : M json :=
  api <- song_download_api ;; lift (py_subscript api (JStr "quality_options")).

(** [get_default_quality()] *)
Definition get_default_quality : M json :=
  api <- song_download_api ;; lift (py_subscript api (JStr "default_quality")).

(** ** [APIHandler.extract_data(data, path)] *)

(** [index[:-1]] *)
Definition drop_last (s : string) : string := substring 0 (String.length s - 1) s.

(** The body of the [try] for one key: [result[list_key][index]] for a key
    like [artists[0]], [result[key]] otherwise. *)
Definition extract_step (result : json) (key : string) : sum exn json :=
  if char_in "[" key && char_in "]" key then
    match split_char "[" key "" with
    | [list_key; index] =>
        match py_int_of_str (drop_last index) with
        | inl e => inl e
        | inr n => match py_subscript result (JStr list_key) with
                   | inl e => inl e
                   | inr x => py_subscript x (JInt n)
                   end
        end
    | _ => inl (ValueError "too many values to unpack (expected 2)")
    end
  else py_subscript result (JStr key).

(** [except (KeyError, IndexError, TypeError)] *)
Definition is_lookup_error (e : exn) : bool :=
  match e with KeyError _ | IndexError _ | TypeError _ => true | _ => false end.

(** The message of the [KeyError] raised for the [i]-th key. *)
Definition extract_error_message (keys : list string) (i : nat) (result : json) (path : string)
    (e : exn) : string :=
  "无法从路径 '" ++ join_with "." (firstn (S i) keys) ++ "' 提取数据。" ++ newline
  ++ "当前数据结构: " ++ py_str result ++ newline
  ++ "完整路径: " ++ path ++ newline
  ++ "错误类型: " ++ exn_class_name e ++ newline
  ++ "错误信息: " ++ exn_str e.

(** [for i, key in enumerate(keys): ...] from the [i]-th key. *)
Fixpoint extract_loop (keys : list string) (path : string) (ks : list string) (i : nat)
    (result : json) : sum exn json :=
  match ks with
  | [] => inr result
  | k :: ks' =>
      match extract_step result k with
      | inr r => extract_loop keys path ks' (S i) r
      | inl e => if is_lookup_error e
                 then inl (KeyError (repr_str (extract_error_message keys i result path e)))
                 else inl e
      end
  end.

Definition extract_data (data : json) (path : string) : sum exn json :=
  let keys := split_char "." path "" in
  extract_loop keys path keys 0 data.

(** ** Theorems *)

Section Fetch.
Variables (song_id q : string) (w : world) (api fmt : json) (url : string).
Hypothesis Hapi : py_path (w_config w) ["apis"; "song_download"] = inr api.
Hypothesis Hfmt : py_subscript api (JStr "request_format") = inr fmt.
Hypothesis Hurl : py_format fmt [("song_id", song_id); ("quality", q)] = inr url.

(** With a quality given, the fetch is one [request_with_retry] on the
    templated URL followed by [read_location]. *)
Lemma get_song_download_url_steps :
    get_song_download_url song_id (Some q) w =
      bind (request_with_retry url 3) (read_location api) w.
  Proof.
    cbv [get_song_download_url song_download_api sub2 bind gets lift ret].
    rewrite Hapi, Hfmt. cbn [py_str]. rewrite Hurl. reflexivity.
  Qed.

(** Text mode: the location is the fetched body with surrounding
    whitespace removed, in the world the transport left. *)
Theorem get_song_download_url_text r w1 :
    py_subscript api (JStr "response_type") = inr (JStr "text") ->
    request_with_retry url 3 w = (Ok (Some r), w1) ->
    get_song_download_url song_id (Some q) w = (Ok (JStr (py_strip (text r))), w1).
  Proof.
    intros Hrt Hreq. rewrite get_song_download_url_steps. unfold bind at 1. rewrite Hreq.
    unfold read_location, bind, lift. rewrite Hrt. reflexivity.
  Qed.

(** JSON mode: the location is the body's [url] field, and the empty
    string when the field is absent; a missing field is not an error. *)
Theorem get_song_download_url_json r kvs w1 :
    py_subscript api (JStr "response_type") = inr (JStr "json") ->
    request_with_retry url 3 w = (Ok (Some r), w1) ->
    body_json r = Some (JObj kvs) ->
    get_song_download_url song_id (Some q) w =
      (Ok (match assoc "url" kvs with Some v => v | None => JStr "" end), w1).
  Proof.
    intros Hrt Hreq Hbody. rewrite get_song_download_url_steps. unfold bind at 1. rewrite Hreq.
    unfold read_location, bind, lift. rewrite Hrt. cbn. unfold response_json. rewrite Hbody. reflexivity.
  Qed.

(** A transport failure surfaces unchanged. *)
Theorem get_song_download_url_transport_error e w1 :
    request_with_retry url 3 w = (Raise e, w1) ->
    get_song_download_url song_id (Some q) w = (Raise e, w1).
  Proof. intros Hreq. rewrite get_song_download_url_steps. unfold bind at 1. now rewrite Hreq. Qed.
End Fetch.

(** ** Concrete runs and witnesses *)

Definition loc_api (rt : string) : json :=
  JObj [("request_format", JStr "http://api/?id={song_id}&br={quality}"); ("response_type", JStr rt);
        ("default_quality", JStr "320k"); ("request_interval", JInt 200)].

Definition loc_world (rt : string) (net : list net_event) : world :=
  base_world 0 net (JObj [("apis", JObj [("song_download", loc_api rt)])]).

Definition text_response : http_response := mk_response 200 "  http://cdn/x.mp3
" None None [] None.

Definition json_response : http_response :=
  mk_response 200 "" (Some (JObj [("code", JInt 200)])) None [] None.

Lemma get_song_download_url_text_witness :
  get_song_download_url "42" (Some "320k") (loc_world "text" [NetOk 5 text_response]) =
    (Ok (JStr (py_strip (text text_response))),
     snd (request_with_retry "http://api/?id=42&br=320k" 3 (loc_world "text" [NetOk 5 text_response]))).
Proof.
  apply (get_song_download_url_text "42" "320k" _ (loc_api "text") (JStr "http://api/?id={song_id}&br={quality}") "http://api/?id=42&br=320k");
    vm_compute; reflexivity.
Defined.

Lemma get_song_download_url_json_witness :
  get_song_download_url "42" (Some "320k") (loc_world "json" [NetOk 5 json_response]) =
    (Ok (JStr ""),
     snd (request_with_retry "http://api/?id=42&br=320k" 3 (loc_world "json" [NetOk 5 json_response]))).
Proof.
  refine (get_song_download_url_json "42" "320k" _ (loc_api "json") (JStr "http://api/?id={song_id}&br={quality}")
            "http://api/?id=42&br=320k" _ _ _ json_response [("code", JInt 200)] _ _ _ _);
    vm_compute; reflexivity.
Defined.

Lemma get_song_download_url_transport_error_witness :
  get_song_download_url "42" (Some "320k") (loc_world "text" []) =
    (Raise (RequestException ConnectionError "network unreachable"),
     snd (request_with_retry "http://api/?id=42&br=320k" 3 (loc_world "text" []))).
Proof.
  apply (get_song_download_url_transport_error "42" "320k" _ (loc_api "text") (JStr "http://api/?id={song_id}&br={quality}") "http://api/?id=42&br=320k");
    vm_compute; reflexivity.
Defined.


(** ** Updating the interval *)

(** The config [set_request_interval n] leaves: the three nested dicts
    updated in place. *)
Definition interval_config (n : Z) ckvs akvs skvs : json :=
  JObj (assoc_set "apis" (JObj (assoc_set "song_download"
          (JObj (assoc_set "request_interval" (JInt n) skvs)) akvs)) ckvs).

(** What one run of [set_request_interval n] does when the nested dicts
    exist: the config is updated and [config.json] holds its dump in text
    mode; nothing else of the world that the config store reads changes. *)
Lemma set_request_interval_run (n : Z) (w : world) ckvs akvs skvs :
  w_config w = JObj ckvs -> assoc "apis" ckvs = Some (JObj akvs) ->
  assoc "song_download" akvs = Some (JObj skvs) ->
  bool_decide ("config.json" ∈ w_dirs w) = false ->
  exists w', set_request_interval n w = (Ok tt, w') /\
    w_config w' = interval_config n ckvs akvs skvs /\
    w_files w' = <["config.json" := crlf_newlines (json_dump (interval_config n ckvs akvs skvs))]>
                   (<["config.json" := ""]> (w_files w)) /\
    w_dirs w' = w_dirs w /\ w_env w' = w_env w.
Proof.
  intros Hc Ha Hs Hd.
  unfold set_request_interval, bind, gets, lift. rewrite Hc. simpl. rewrite Ha. simpl. rewrite Hs.
  cbv [ret modify open_wb file_append]. simpl. rewrite Hd.
  eexists. split; [reflexivity |]. simpl. rewrite lookup_insert_eq. repeat split.
Qed.

(** After [set_request_interval n] the transport's sleep between
    retries is [n / 1000] seconds, and [config.json] holds the dump of the
    whole updated config, in text mode. *)
Theorem set_request_interval_effect (n : Z) (w : world) ckvs akvs skvs :
  w_config w = JObj ckvs -> assoc "apis" ckvs = Some (JObj akvs) ->
  assoc "song_download" akvs = Some (JObj skvs) ->
  bool_decide ("config.json" ∈ w_dirs w) = false ->
  exists w', set_request_interval n w = (Ok tt, w') /\
    fst (request_interval_seconds w') = Ok (n # 1000)%Q /\
    w_files w' !! "config.json" = Some (crlf_newlines (json_dump (w_config w'))).
Proof.
  intros Hc Ha Hs Hd.
  destruct (set_request_interval_run n w ckvs akvs skvs Hc Ha Hs Hd) as (w' & Hrun & Hcfg & Hf & _).
  exists w'. split; [exact Hrun|]. split.
  - erewrite request_interval_seconds_of; [reflexivity | exact Hcfg | apply assoc_assoc_set
                                           | apply assoc_assoc_set | apply assoc_assoc_set].
  - rewrite Hf, Hcfg, lookup_insert_eq. reflexivity.
Qed.

(** ** Clock monotonicity *)

Lemma quiet_response_text_opt r : quiet (response_text_opt r).
Proof. unfold response_text_opt. solve_mono. Qed.

#[export] Hint Resolve quiet_response_text_opt : mono.

Lemma mono_read_location api r : mono (read_location api r).
Proof. unfold read_location. solve_mono. Qed.

Lemma mono_get_song_download_url song_id q : mono (get_song_download_url song_id q).
Proof. unfold get_song_download_url. pose proof mono_read_location. solve_mono. Qed.

#[export] Hint Resolve mono_read_location mono_get_song_download_url : mono.

Lemma set_request_interval_effect_witness :
  exists w', set_request_interval 500 (loc_world "text" []) = (Ok tt, w') /\
    fst (request_interval_seconds w') = Ok (500 # 1000)%Q /\
    w_files w' !! "config.json" = Some (crlf_newlines (json_dump (w_config w'))).
Proof.
  apply (set_request_interval_effect 500 (loc_world "text" [])
           [("apis", JObj [("song_download", loc_api "text")])] [("song_download", loc_api "text")]
           [("request_format", JStr "http://api/?id={song_id}&br={quality}"); ("response_type", JStr "text");
            ("default_quality", JStr "320k"); ("request_interval", JInt 200)]);
    reflexivity.
Defined.

(** ** [extract_data] and [py_path] *)

Lemma py_subscript_str_lookup_error (v : json) (k : string) (e : exn) :
  py_subscript v (JStr k) = inl e -> is_lookup_error e = true.
Proof.
  destruct v; simpl; try (intros H; injection H as <-; reflexivity).
  destruct (assoc k kvs); [discriminate | intros H; injection H as <-; reflexivity].
Qed.

(** On keys without brackets the loop walks the path as [py_path] does and
    turns its failure into a [KeyError]. *)
Lemma extract_loop_plain (keys : list string) (path : string) (ks : list string) :
  Forall (fun k => char_in "[" k = false) ks -> forall i r,
  match py_path r ks with
  | inr x => extract_loop keys path ks i r = inr x
  | inl _ => exists m, extract_loop keys path ks i r = inl (KeyError m)
  end.
Proof.
  induction ks as [|k ks IH]; intros Hf i r; [reflexivity |].
  apply Forall_cons_iff in Hf as [Hk Hf]. simpl. unfold extract_step. rewrite Hk. simpl.
  destruct (py_subscript r (JStr k)) as [e|x] eqn:E.
  - rewrite (py_subscript_str_lookup_error _ _ _ E). eauto.
  - apply IH, Hf.
Qed.

(** C18: On a dotted path of plain keys (no ['.'] or ['['] inside a key),
    [extract_data] agrees with the path walk [py_path] the resolver uses:
    it yields exactly the values [py_path] yields, and where [py_path]
    fails (a missing key, a non-dict, an index out of range) it raises a
    [KeyError] carrying its report. *)
Theorem extract_data_plain_path (v : json) (ks : list string) :
  Forall (fun k => char_in "." k = false /\ char_in "[" k = false) ks -> ks <> [] ->
  (forall x, py_path v ks = inr x <-> extract_data v (join_with "." ks) = inr x) /\
  (forall e, py_path v ks = inl e -> exists m, extract_data v (join_with "." ks) = inl (KeyError m)).
Proof.
  intros Hf Hne. unfold extract_data.
  rewrite split_join_char by first [exact Hne | eapply Forall_impl; [exact Hf | intros k [H _]; exact H]].
  assert (Hb : Forall (fun k => char_in "[" k = false) ks)
    by (eapply Forall_impl; [exact Hf | intros k [_ H]; exact H]).
  pose proof (extract_loop_plain ks (join_with "." ks) ks Hb 0 v) as H.
  destruct (py_path v ks) as [e|x]; split.
  - intros x. split; [discriminate |]. destruct H as [m ->]. discriminate.
  - intros e' _. exact H.
  - intros x'. rewrite H. split; congruence.
  - discriminate.
Qed.

Definition extract_sample : json := JObj [("data", JObj [("name", JStr "x")])].

Lemma extract_data_plain_path_witness :
  Forall (fun k => char_in "." k = false /\ char_in "[" k = false) ["data"; "name"] /\
  ["data"; "name"] <> [] /\
  extract_data extract_sample (join_with "." ["data"; "name"]) = inr (JStr "x").
Proof.
  assert (Hf : Forall (fun k => char_in "." k = false /\ char_in "[" k = false) ["data"; "name"])
    by (repeat constructor).
  split; [exact Hf | split; [discriminate |]].
  apply (proj1 (extract_data_plain_path extract_sample ["data"; "name"] Hf ltac:(discriminate))).
  reflexivity.
Defined.
