(* ===== verification/Config.v ===== *)
(** * Config store: [APIHandler.__init__] and [load_config] (src/utils/api.py)

    [APIHandler(config_path='config.json')] sets [self.config] to what
    [load_config] returns: the path is joined under [sys._MEIPASS] in the
    packaged app, the file is opened as UTF-8 text ([read_text], then the
    strict decoder [utf8_valid] and universal newlines
    [translate_newlines]) and parsed by [json.load] ([json_loads]).  The
    other half of the store, [set_request_interval], is in Location.v: it
    rewrites [config.json] in the working directory, always.

    The theorems show the read-modify-write of the spec: a handler created
    after [set_request_interval n] reads back exactly the updated config;
    in the packaged app it reads the bundled file instead, so the saved
    interval is lost; a missing file or a UTF-8 BOM makes the handler's
    creation raise. *)

From Stdlib Require Import String Ascii List ZArith QArith Bool Lia.
From stdpp Require Import gmap.
From S2P Require Import Prelude Json JsonParse NtPath World Transport Location.
Import ListNotations.
Open Scope string_scope.
Open Scope py_scope.

(** Lines 13-16: the path [load_config] opens. *)
Definition config_path_of (env : py_env) (config_path : string) : string :=
  match e_meipass env with
  | Some d => nt_join d config_path
  | None => config_path
  end.

(** [load_config(config_path)]: [None] when the file is not UTF-8 (a
    [UnicodeDecodeError], whose message is not modelled) or holds a float,
    both outside the model. *)
Definition load_config (config_path : string) : M (option json) :=
  env <- gets w_env ;;
  data <- read_text (config_path_of env config_path) ;;
  if utf8_valid data then
    match json_loads (translate_newlines data) with
    | Some (inr v) => ret (Some v)
    | Some (inl e) => raise e
    | None => ret None
    end
  else ret None.

(** [APIHandler.__init__(config_path)]: [self.config = self.load_config(config_path)]. *)
Definition api_handler_init (config_path : string) : M (option unit) :=
  cfg <- load_config config_path ;;
  match cfg with
  | Some v => modify (set_config v) ;; ret (Some tt)
  | None => ret None
  end.

(** ** Lemmas on dict updates *)

Lemma existsb_assoc_set k' k v kvs :
  existsb (fun kv => String.eqb (fst kv) k') (assoc_set k v kvs)
  = existsb (fun kv => String.eqb (fst kv) k') kvs || String.eqb k k'.
Proof.
  induction kvs as [|[k1 x1] r IH]; simpl; [now rewrite orb_false_r|].
  destruct (String.eqb_spec k1 k) as [->|Hne]; simpl.
  - destruct (String.eqb k k'), (existsb _ r); reflexivity.
  - rewrite IH. now rewrite orb_assoc.
Qed.

Lemma nodup_keys_assoc_set k v kvs : nodup_keys kvs = true -> nodup_keys (assoc_set k v kvs) = true.
Proof.
  induction kvs as [|[k1 x1] r IH]; simpl; [reflexivity|].
  intros H. apply andb_true_iff in H as [H1 H2].
  destruct (String.eqb_spec k1 k) as [->|Hne]; simpl.
  - now rewrite H1, H2.
  - rewrite existsb_assoc_set, IH by exact H2. apply negb_true_iff in H1. rewrite H1. simpl.
    apply String.eqb_neq in Hne. now rewrite String.eqb_sym, Hne.
Qed.

Lemma forallb_assoc_set (Q : string * json -> bool) k v kvs :
  Q (k, v) = true -> forallb Q kvs = true -> forallb Q (assoc_set k v kvs) = true.
Proof.
  intros Hq. induction kvs as [|[k1 x1] r IH]; simpl; [now rewrite Hq|].
  intros H. apply andb_true_iff in H as [H1 H2].
  destruct (String.eqb_spec k1 k) as [->|_]; simpl; rewrite ?Hq, ?H1, ?H2, ?IH; auto.
Qed.

Lemma forallb_assoc (Q : string * json -> bool) k x kvs :
  assoc k kvs = Some x -> forallb Q kvs = true -> Q (k, x) = true.
Proof.
  induction kvs as [|[k1 x1] r IH]; simpl; [discriminate|].
  intros Ha H. apply andb_true_iff in H as [H1 H2].
  destruct (String.eqb_spec k1 k) as [->|_]; [injection Ha as ->; exact H1 | now apply IH].
Qed.

(** The updated config is still one [json.loads] gives back. *)
Lemma interval_config_wf n ckvs akvs skvs :
  json_wf (JObj ckvs) = true -> assoc "apis" ckvs = Some (JObj akvs) ->
  assoc "song_download" akvs = Some (JObj skvs) -> int_digits_ok n = true ->
  json_wf (interval_config n ckvs akvs skvs) = true.
Proof.
  intros Hc Ha Hs Hn. unfold interval_config.
  pose (Q := fun kv : string * json => json_wf (snd kv)).
  cbn [json_wf] in *. apply andb_true_iff in Hc as [Hcn Hcf].
  pose proof (forallb_assoc Q _ _ _ Ha Hcf) as Ha'. unfold Q in Ha'; cbn [snd json_wf] in Ha'.
  apply andb_true_iff in Ha' as [Han Haf].
  pose proof (forallb_assoc Q _ _ _ Hs Haf) as Hs'. unfold Q in Hs'; cbn [snd json_wf] in Hs'.
  apply andb_true_iff in Hs' as [Hsn Hsf].
  rewrite nodup_keys_assoc_set by exact Hcn. apply (forallb_assoc_set Q); [|exact Hcf].
  unfold Q; cbn [snd json_wf]. rewrite nodup_keys_assoc_set by exact Han.
  apply (forallb_assoc_set Q); [|exact Haf].
  unfold Q; cbn [snd json_wf]. rewrite nodup_keys_assoc_set by exact Hsn.
  now apply (forallb_assoc_set Q).
Qed.

(** ... and still holds text only. *)
Lemma interval_config_text n ckvs akvs skvs :
  json_text_ok (JObj ckvs) = true -> assoc "apis" ckvs = Some (JObj akvs) ->
  assoc "song_download" akvs = Some (JObj skvs) ->
  json_text_ok (interval_config n ckvs akvs skvs) = true.
Proof.
  intros Hc Ha Hs. unfold interval_config.
  pose (Q := fun kv : string * json => utf8_valid (fst kv) && json_text_ok (snd kv)).
  cbn [json_text_ok] in *.
  pose proof (forallb_assoc Q _ _ _ Ha Hc) as Ha'. unfold Q in Ha'; cbn [fst snd json_text_ok] in Ha'.
  pose proof (forallb_assoc Q _ _ _ Hs Ha') as Hs'. unfold Q in Hs'; cbn [fst snd json_text_ok] in Hs'.
  apply (forallb_assoc_set Q); [|exact Hc]. unfold Q; cbn [fst snd json_text_ok].
  apply (forallb_assoc_set Q); [|exact Ha']. unfold Q; cbn [fst snd json_text_ok].
  now apply (forallb_assoc_set Q).
Qed.

(** ** Lemmas on [load_config] *)

(** What [load_config] returns depends only on the environment, the file
    it opens and the directories. *)
Lemma load_config_result cp w1 w2 :
  w_env w1 = w_env w2 ->
  w_files w1 !! config_path_of (w_env w1) cp = w_files w2 !! config_path_of (w_env w1) cp ->
  w_dirs w1 = w_dirs w2 ->
  fst (load_config cp w1) = fst (load_config cp w2).
Proof.
  intros He Hf Hd. unfold load_config, bind, gets, read_text. rewrite <- He, <- Hf, <- Hd.
  destruct (w_files w1 !! _); [|destruct (bool_decide _); reflexivity].
  destruct (utf8_valid _); [|reflexivity]. destruct (json_loads _) as [[e|v]|]; reflexivity.
Qed.

(** A file holding the text-mode dump of a config is read back as that config. *)
Lemma load_config_dump cp w v :
  w_files w !! config_path_of (w_env w) cp = Some (crlf_newlines (json_dump v)) ->
  json_wf v = true -> json_text_ok v = true ->
  load_config cp w = (Ok (Some v), w).
Proof.
  intros Hf Hwf Hok. unfold load_config, bind, gets, read_text. rewrite Hf. unfold json_dump.
  rewrite json_dump_file_utf8 by exact Hok.
  rewrite translate_crlf by (now apply json_dump_no_cr). fold (json_dump v). now rewrite json_loads_dump.
Qed.

Lemma set_config_same w : set_config (w_config w) w = w.
Proof. destruct w; reflexivity. Qed.

(** ** Reading the config back *)

Definition sample_config : json :=
  JObj [("apis", JObj [("song_download", loc_api "text")])].

(** The packaged app: [sys._MEIPASS] is the bundle's temporary directory,
    which holds the bundled [config.json]. *)
Definition bundled_world : world :=
  set_files (<["C:\Temp\_MEI2\config.json" := crlf_newlines (json_dump sample_config)]> ∅)
    (set_env (mk_env (Some "C:\Temp\_MEI2") "C:\app" "C:\app" []) (loc_world "text" [])).

(** C26: Read-modify-write of the config: an [APIHandler] created after
    [set_request_interval n] (outside the packaged app) reads back exactly
    the updated config from [config.json]: the text-mode dump is valid
    UTF-8 and [json.load] of it is the config, so creating the handler
    leaves the world as it was. *)
Theorem set_request_interval_then_reload (n : Z) (w : world) ckvs akvs skvs :
  w_config w = JObj ckvs -> assoc "apis" ckvs = Some (JObj akvs) ->
  assoc "song_download" akvs = Some (JObj skvs) ->
  bool_decide ("config.json" ∈ w_dirs w) = false -> e_meipass (w_env w) = None ->
  json_wf (w_config w) = true -> json_text_ok (w_config w) = true -> int_digits_ok n = true ->
  exists w', set_request_interval n w = (Ok tt, w') /\
    w_config w' = interval_config n ckvs akvs skvs /\
    api_handler_init "config.json" w' = (Ok (Some tt), w').
Proof.
  intros Hc Ha Hs Hd Hm Hwf Hok Hn.
  destruct (set_request_interval_run n w ckvs akvs skvs Hc Ha Hs Hd) as (w' & Hrun & Hcfg & Hf & _ & Henv).
  exists w'. split; [exact Hrun|]. split; [exact Hcfg|].
  rewrite Hc in Hwf, Hok. unfold api_handler_init, bind.
  rewrite (load_config_dump "config.json" w' (w_config w')).
  - cbn. now rewrite set_config_same.
  - unfold config_path_of. rewrite Henv, Hm, Hf, Hcfg, lookup_insert_eq. reflexivity.
  - rewrite Hcfg. now apply interval_config_wf.
  - rewrite Hcfg. now apply interval_config_text.
Qed.

Lemma set_request_interval_then_reload_witness :
  exists w', set_request_interval 500 (loc_world "text" []) = (Ok tt, w') /\
    w_config w' = interval_config 500 [("apis", JObj [("song_download", loc_api "text")])]
                    [("song_download", loc_api "text")]
                    [("request_format", JStr "http://api/?id={song_id}&br={quality}");
                     ("response_type", JStr "text"); ("default_quality", JStr "320k");
                     ("request_interval", JInt 200)] /\
    api_handler_init "config.json" w' = (Ok (Some tt), w').
Proof.
  apply (set_request_interval_then_reload 500 (loc_world "text" [])
           [("apis", JObj [("song_download", loc_api "text")])] [("song_download", loc_api "text")]
           [("request_format", JStr "http://api/?id={song_id}&br={quality}"); ("response_type", JStr "text");
            ("default_quality", JStr "320k"); ("request_interval", JInt 200)]);
    vm_compute; reflexivity.
Defined.

(** C28: In the packaged app the saved interval is lost:
    [set_request_interval] writes [config.json] in the working directory
    (api.py line 165) while [load_config] reads [sys._MEIPASS\config.json]
    (lines 14-16), so a handler created after the change loads what it
    loaded before it. *)
Theorem set_request_interval_lost_when_bundled (n : Z) (w : world) ckvs akvs skvs d :
  w_config w = JObj ckvs -> assoc "apis" ckvs = Some (JObj akvs) ->
  assoc "song_download" akvs = Some (JObj skvs) ->
  bool_decide ("config.json" ∈ w_dirs w) = false ->
  e_meipass (w_env w) = Some d -> nt_join d "config.json" <> "config.json" ->
  exists w', set_request_interval n w = (Ok tt, w') /\
    w_config w' = interval_config n ckvs akvs skvs /\
    fst (load_config "config.json" w') = fst (load_config "config.json" w).
Proof.
  intros Hc Ha Hs Hd Hm Hne.
  destruct (set_request_interval_run n w ckvs akvs skvs Hc Ha Hs Hd) as (w' & Hrun & Hcfg & Hf & Hdirs & Henv).
  exists w'. split; [exact Hrun|]. split; [exact Hcfg|].
  apply load_config_result; [exact Henv | | exact Hdirs].
  unfold config_path_of. rewrite Henv, Hm, Hf, !lookup_insert_ne by (intros H; apply Hne; now symmetry).
  reflexivity.
Qed.

Lemma set_request_interval_lost_when_bundled_witness :
  exists w', set_request_interval 500 bundled_world = (Ok tt, w') /\
    w_config w' = interval_config 500 [("apis", JObj [("song_download", loc_api "text")])]
                    [("song_download", loc_api "text")]
                    [("request_format", JStr "http://api/?id={song_id}&br={quality}");
                     ("response_type", JStr "text"); ("default_quality", JStr "320k");
                     ("request_interval", JInt 200)] /\
    fst (load_config "config.json" w') = fst (load_config "config.json" bundled_world).
Proof.
  apply (set_request_interval_lost_when_bundled 500 bundled_world
           [("apis", JObj [("song_download", loc_api "text")])] [("song_download", loc_api "text")]
           [("request_format", JStr "http://api/?id={song_id}&br={quality}"); ("response_type", JStr "text");
            ("default_quality", JStr "320k"); ("request_interval", JInt 200)] "C:\Temp\_MEI2");
    try reflexivity. vm_compute. discriminate.
Defined.

(** ** Failing to create the handler *)

(** C30: A [config.json] saved with a UTF-8 byte order mark (as some Windows
    editors write it) is refused: the file is opened with
    [encoding='utf-8'], not ['utf-8-sig'], so [json.load] sees U+FEFF and
    [APIHandler()] raises [JSONDecodeError] at line 1 column 1, whatever
    follows. *)
Theorem api_handler_init_rejects_bom (w : world) (data : string) :
  e_meipass (w_env w) = None -> w_files w !! "config.json" = Some (bom ++ data) ->
  utf8_valid data = true ->
  api_handler_init "config.json" w =
    (Raise (DecodeError "Unexpected UTF-8 BOM (decode using utf-8-sig): line 1 column 1 (char 0)"), w).
Proof.
  intros Hm Hf Hd. unfold api_handler_init, load_config, bind, gets, read_text, config_path_of.
  rewrite Hm, Hf, utf8_valid_app, Hd by reflexivity. now rewrite translate_bom, json_loads_bom.
Qed.

Lemma api_handler_init_rejects_bom_witness :
  api_handler_init "config.json"
    (set_files (<["config.json" := bom ++ crlf_newlines (json_dump sample_config)]> ∅) (loc_world "text" [])) =
    (Raise (DecodeError "Unexpected UTF-8 BOM (decode using utf-8-sig): line 1 column 1 (char 0)"),
     set_files (<["config.json" := bom ++ crlf_newlines (json_dump sample_config)]> ∅) (loc_world "text" [])).
Proof. apply (api_handler_init_rejects_bom _ (crlf_newlines (json_dump sample_config))); vm_compute; reflexivity. Defined.

(** Without a [config.json] (and outside the packaged app)
    [APIHandler()] raises [FileNotFoundError] and sets no config. *)
Theorem api_handler_init_missing (w : world) :
  e_meipass (w_env w) = None -> w_files w !! "config.json" = None ->
  bool_decide ("config.json" ∈ w_dirs w) = false ->
  api_handler_init "config.json" w =
    (Raise (OSError FileNotFoundError "[Errno 2] No such file or directory: 'config.json'"), w).
Proof.
  intros Hm Hf Hd. unfold api_handler_init, load_config, bind, gets, read_text, config_path_of.
  now rewrite Hm, Hf, Hd.
Qed.

Lemma api_handler_init_missing_witness :
  api_handler_init "config.json" (loc_world "text" []) =
    (Raise (OSError FileNotFoundError "[Errno 2] No such file or directory: 'config.json'"), loc_world "text" []).
Proof. apply api_handler_init_missing; reflexivity. Defined.
