(* ===== verification/Downloader.v ===== *)
(** * [SongDownloader] (src/utils/downloader.py)

    [download_song] derives and sanitises the file name, returns early when
    the file exists and skipping is asked, and otherwise makes up to three
    attempts, 3 s apart, of: wait until [request_interval] has passed since
    [last_request_time], fetch the location, record the time, stream the
    file.  [download_file] streams in chunks and sleeps whenever the bytes
    received run ahead of [speed_limit] KiB/s.  The downloader's two fields
    live in the world ([w_dl_interval], [w_dl_last]). *)

From Stdlib Require Import String Ascii List ZArith QArith Lqa Lia Bool.
From stdpp Require Import gmap.
From S2P Require Import Prelude Json NtPath World Transport Resolver Location.
Import ListNotations.
Open Scope string_scope.
Open Scope py_scope.

(** [SongDownloader.__init__]: [request_interval] is read once, here. *)
Definition song_downloader_init : M unit :=
  interval <- request_interval_seconds ;;
  modify (set_dl_interval interval) ;;
  modify (set_dl_last 0).

(** [illegal_chars]: the characters [< > : / \ | ? *] and the double quote, in this order. *)
Definition illegal_chars : string := "<>:/\|?*" ++ dquote.

(** [sanitize_filename]: [for char in illegal_chars: filename = filename.replace(char, '_')] *)
Definition sanitize_filename (filename : string) : string :=
  str_fold_left (fun fn ch => replace_char ch "_" fn) illegal_chars filename.

(** The name before sanitising (lines 17-23). *)
Definition song_filename (song : song_info) (filename_format : Z) : string :=
  if Z.eqb filename_format 0
  then py_str (si_name song) ++ " - " ++ py_str (si_artist song) ++ ".mp3"
  else py_str (si_artist song) ++ " - " ++ py_str (si_name song) ++ ".mp3".

(** [int(response.headers.get('content-length', 0))] *)
Definition content_length_int (h : option string) : sum exn Z :=
  match h with
  | None => inr 0%Z
  | Some s => py_int_of_str s
  end.

(** Lines 82-86: after a chunk, sleep while the bytes received run ahead
    of [speed_limit] KiB/s. *)
Definition rate_limit (speed_limit : Z) (start_time : Q) (downloaded : Z) : M unit :=
  if (speed_limit >? 0)%Z then
    now <- time_time ;;
    let elapsed := (now - start_time)%Q in
    let expected_time := (inject_Z downloaded / inject_Z (speed_limit * 1024))%Q in
    if Qltb elapsed expected_time then time_sleep (expected_time - elapsed)%Q else ret tt
  else ret tt.

(** [for chunk in response.iter_content(chunk_size=1024): ...] (lines 77-87) *)
Fixpoint stream_chunks (filepath : string) (speed_limit : Z) (start_time : Q) (downloaded : Z)
    (cs : list (N * string)) : M unit :=
  match cs with
  | [] => ret tt
  | (d, chunk) :: rest =>
      net_wait d ;;
      if String.eqb chunk "" then stream_chunks filepath speed_limit start_time downloaded rest
      else
        file_append filepath chunk ;;
        let downloaded' := (downloaded + Z.of_nat (String.length chunk))%Z in
        rate_limit speed_limit start_time downloaded' ;;
        stream_chunks filepath speed_limit start_time downloaded' rest
  end.

(** [download_file(url, filepath, speed_limit)]; requests turns the url
    into a str with [str()]. *)
Definition download_file (url : json) (filepath : string) (speed_limit : Z) : M unit :=
  response <- requests_get (py_str url) ;;
  raise_for_status response ;;
  _ <- lift (content_length_int (content_length response)) ;;
  open_wb filepath ;;
  start_time <- time_time ;;
  stream_chunks filepath speed_limit start_time 0 (chunks response) ;;
  match stream_error response with
  | Some m => raise (RequestException ConnectionError m)
  | None => ret tt
  end.

(** Lines 37-41: sleep until [request_interval] has passed since
    [last_request_time]. *)
Definition throttle : M unit :=
  current_time <- time_time ;;
  last <- gets w_dl_last ;;
  interval <- gets w_dl_interval ;;
  let elapsed := (current_time - last)%Q in
  if Qltb elapsed interval then time_sleep (interval - elapsed)%Q else ret tt.

(** The body of the per-attempt [try] (lines 37-53). *)
Definition download_attempt (song : song_info) (filepath : string) (quality : option string)
    (speed_limit : Z) : M (bool * string) :=
  throttle ;;
  download_url <- get_song_download_url (si_id song) quality ;;
  t <- time_time ;;
  modify (set_dl_last t) ;;
  (if py_truthy download_url then ret tt
   else raise (ValueError ("Failed to get download URL for song: " ++ py_str (si_name song)))) ;;
  download_file download_url filepath speed_limit ;;
  ret (true, filepath).

Definition max_retries : nat := 3.

(** [for attempt in range(max_retries): try ... except Exception as e: ...]
    (lines 35-61); [None] is falling off the end of the function. *)
Fixpoint download_attempts (song : song_info) (filepath : string) (quality : option string)
    (speed_limit : Z) (attempts : list nat) : M (option (bool * string)) :=
  match attempts with
  | [] => ret None
  | attempt :: rest =>
      r <- try_except any_exn
             (p <- download_attempt song filepath quality speed_limit ;; ret (Some p))
             (fun e =>
                if Nat.ltb attempt (max_retries - 1) then
                  time_sleep 3 ;;
                  print ("Download attempt " ++ str_of_nat (S attempt) ++ " failed for song "
                         ++ py_str (si_name song) ++ ", retrying in 3 seconds...") ;;
                  ret None
                else ret (Some (false, "Failed after " ++ str_of_nat max_retries ++ " attempts: " ++ exn_str e))) ;;
      match r with
      | Some p => ret (Some p)
      | None => download_attempts song filepath quality speed_limit rest
      end
  end.

Definition skipped_message (filename : string) : string :=
  "已跳过: " ++ filename ++ "（文件已存在）".

(** [download_song(song_info, save_path, quality, speed_limit, skip_existing, filename_format)] *)
Definition download_song (song : song_info) (save_path : string) (quality : option string)
    (speed_limit : Z) (skip_existing : bool) (filename_format : Z) : M (option (bool * string)) :=
  let filename := sanitize_filename (song_filename song filename_format) in
  let filepath := nt_join save_path filename in
  exists_ <- (if skip_existing then os_path_exists filepath else ret false) ;;
  if exists_ then ret (Some (true, skipped_message filename))
  else
    os_makedirs save_path ;;
    download_attempts song filepath quality speed_limit (seq 0 max_retries).

Open Scope list_scope.

(** ** Clock monotonicity *)

Lemma mono_rate_limit sl start downloaded : mono (rate_limit sl start downloaded).
Proof. unfold rate_limit. solve_mono. Qed.

#[export] Hint Resolve mono_rate_limit : mono.

Lemma mono_stream_chunks fp sl start downloaded cs : mono (stream_chunks fp sl start downloaded cs).
Proof.
  revert downloaded. induction cs as [|[d chunk] cs IH]; intros downloaded; simpl; solve_mono.
Qed.

Lemma mono_download_file url fp sl : mono (download_file url fp sl).
Proof. unfold download_file. pose proof mono_stream_chunks. solve_mono. Qed.

Lemma mono_throttle : mono throttle.
Proof. unfold throttle. solve_mono. Qed.

#[export] Hint Resolve mono_stream_chunks mono_download_file mono_throttle : mono.

(** ** The throttle *)

(** The earliest time the next location fetch may start. *)
Definition throttle_bound (w : world) : Q := (w_dl_last w + w_dl_interval w)%Q.

Lemma throttle_spec (w : world) :
  exists w', throttle w = (Ok tt, w') /\ w_log w' = w_log w /\
    (throttle_bound w <= w_clock w')%Q /\ (w_clock w <= w_clock w')%Q.
Proof.
  unfold throttle, throttle_bound, bind, gets, time_time. simpl.
  qltb_cases (w_clock w - w_dl_last w)%Q (w_dl_interval w).
  - unfold time_sleep. replace (Qle_bool 0 (w_dl_interval w - (w_clock w - w_dl_last w))) with true
      by (symmetry; apply Qle_bool_iff; lra).
    eexists. split; [reflexivity |]. simpl. split; [reflexivity | split; lra].
  - eexists. split; [reflexivity |]. split; [reflexivity | split; lra].
Qed.

(** [throttled c]: every request [c] issues, and the clock when it ends,
    are no earlier than [throttle_bound] at its start. *)
Definition throttled {A} (c : M A) : Prop :=
  forall w o w', c w = (o, w') ->
    (throttle_bound w <= w_clock w')%Q /\
    exists L, w_log w' = L ++ w_log w /\ Forall (fun p => (throttle_bound w <= fst p)%Q) L.

Lemma throttled_after_throttle {A} (k : unit -> M A) :
  (forall u, mono (k u)) -> throttled (bind throttle k).
Proof.
  intros Hk w o w' H. destruct (throttle_spec w) as (w1 & Ht & Hlog & Hb & _).
  rewrite (bind_ok _ _ _ _ _ Ht) in H.
  destruct (Hk tt _ _ _ H) as [Hc (L & HL & HF)]. split; [lra |].
  exists L. rewrite HL, Hlog. split; [reflexivity |].
  eapply Forall_impl; [exact HF |]. intros p Hp. simpl in Hp. lra.
Qed.

Lemma throttled_bind {A B} (c : M A) (k : A -> M B) :
  throttled c -> (forall a, mono (k a)) -> throttled (bind c k).
Proof.
  intros Hc Hk w o w' H. unfold bind in H.
  destruct (c w) as [[a|e] w1] eqn:E; destruct (Hc _ _ _ E) as [C1 (L1 & HL1 & F1)].
  - destruct (Hk a _ _ _ H) as [C2 (L2 & HL2 & F2)]. split; [lra |].
    exists (L2 ++ L1). rewrite HL2, HL1, app_assoc. split; [reflexivity |].
    apply Forall_app. split; [| exact F1].
    eapply Forall_impl; [exact F2 |]. intros p Hp. simpl in Hp. lra.
  - injection H as _ <-. eauto.
Qed.

Lemma throttled_try_except {A} (f : exn -> bool) (c : M A) (h : exn -> M A) :
  throttled c -> (forall e, mono (h e)) -> throttled (try_except f c h).
Proof.
  intros Hc Hh w o w' H. unfold try_except in H.
  destruct (c w) as [[a|e] w1] eqn:E; destruct (Hc _ _ _ E) as [C1 (L1 & HL1 & F1)].
  - injection H as _ <-. eauto.
  - destruct (f e); [| injection H as _ <-; eauto].
    destruct (Hh e _ _ _ H) as [C2 (L2 & HL2 & F2)]. split; [lra |].
    exists (L2 ++ L1). rewrite HL2, HL1, app_assoc. split; [reflexivity |].
    apply Forall_app. split; [| exact F1].
    eapply Forall_impl; [exact F2 |]. intros p Hp. simpl in Hp. lra.
Qed.

Lemma throttled_download_attempt song fp q sl : throttled (download_attempt song fp q sl).
Proof. unfold download_attempt. apply throttled_after_throttle. solve_mono. Qed.

Lemma mono_download_attempt song fp q sl : mono (download_attempt song fp q sl).
Proof. unfold download_attempt. solve_mono. Qed.

#[export] Hint Resolve mono_download_attempt : mono.

Lemma mono_download_attempts song fp q sl attempts : mono (download_attempts song fp q sl attempts).
Proof. induction attempts; simpl; solve_mono. Qed.

#[export] Hint Resolve mono_download_attempts : mono.

Lemma throttled_download_attempts song fp q sl a rest :
  throttled (download_attempts song fp q sl (a :: rest)).
Proof.
  simpl. apply throttled_bind; [apply throttled_try_except |].
  - apply throttled_bind; [apply throttled_download_attempt | solve_mono].
  - solve_mono.
  - solve_mono.
Qed.

(** ** File names *)

Lemma sanitize_filename_replace_all (s : string) : sanitize_filename s = replace_all illegal_chars "_" s.
Proof. reflexivity. Qed.

(** No character of [< > : / \ | ? *] or the double quote survives
    [sanitize_filename]. *)
Theorem sanitize_filename_no_illegal (s : string) (c : ascii) :
  char_in c illegal_chars = true -> char_in c (sanitize_filename s) = false.
Proof.
  intros Hc. rewrite sanitize_filename_replace_all, char_in_replace_all, Hc.
  - apply andb_false_r.
  - destruct c as [[] [] [] [] [] [] [] []]; vm_compute in Hc |- *; congruence.
Qed.

(** [sanitize_filename] is idempotent and keeps the length of the
    name: each illegal character becomes exactly one [_]. *)
Theorem sanitize_filename_idempotent (s : string) :
  sanitize_filename (sanitize_filename s) = sanitize_filename s /\
  String.length (sanitize_filename s) = String.length s.
Proof.
  split.
  - rewrite (sanitize_filename_replace_all (sanitize_filename s)).
    apply replace_all_absent. intros d Hd. now apply sanitize_filename_no_illegal.
  - rewrite sanitize_filename_replace_all. now apply length_replace_all.
Qed.

(** ** [download_song] *)

Definition song_path (song : song_info) (save_path : string) (filename_format : Z) : string :=
  nt_join save_path (sanitize_filename (song_filename song filename_format)).

Lemma os_makedirs_keeps p w o w' :
  os_makedirs p w = (o, w') ->
  w_log w' = w_log w /\ w_clock w' = w_clock w /\ w_dl_last w' = w_dl_last w /\
  w_dl_interval w' = w_dl_interval w.
Proof.
  unfold os_makedirs. destruct (String.eqb p ""); [intros H; injection H as _ <-; auto |].
  destruct (w_files w !! p); intros H; injection H as _ <-; auto.
Qed.

(** C6: Skip without a request: when skipping is asked and the target file
    exists, [download_song] reports it as skipped and leaves the world as
    it was: no request is sent, no file is touched. *)
Theorem download_song_skips_existing song save_path q sl ff w contents :
  w_files w !! song_path song save_path ff = Some contents ->
  download_song song save_path q sl true ff w =
    (Ok (Some (true, skipped_message (sanitize_filename (song_filename song ff)))), w).
Proof.
  intros Hf. unfold download_song, bind, os_path_exists, gets. unfold song_path in Hf.
  now rewrite Hf.
Qed.

(** C1: Rate limit across calls: every request [download_song] sends is
    sent at least [request_interval] after the downloader's
    [last_request_time] as it was when the call began. *)
Theorem download_song_respects_interval song save_path q sl skip ff w o w' :
  download_song song save_path q sl skip ff w = (o, w') ->
  exists L, w_log w' = L ++ w_log w /\
            Forall (fun p => (w_dl_last w + w_dl_interval w <= fst p)%Q) L.
Proof.
  unfold download_song, bind.
  assert (Hs : exists b, (if skip then os_path_exists (song_path song save_path ff) else ret false) w = (Ok b, w))
    by (destruct skip; eexists; reflexivity).
  unfold song_path in Hs. destruct Hs as [b Hs]. rewrite Hs.
  destruct b; intros H; [injection H as _ <-; exists []; auto |].
  destruct (os_makedirs save_path w) as [[u|e] w1] eqn:Hm;
    destruct (os_makedirs_keeps _ _ _ _ Hm) as (Hlog & _ & Hlast & Hint);
    [| injection H as _ <-; exists []; rewrite Hlog; auto].
  destruct (throttled_download_attempts _ _ _ _ _ _ _ _ _ H) as [_ (L & HL & HF)].
  exists L. rewrite HL, Hlog. unfold throttle_bound in HF. rewrite Hlast, Hint in HF. auto.
Qed.

(** The attempts loop, started at attempt [k] with [k + m = 3] and
    [m >= 1], always returns a pair: the last attempt turns any exception
    into [(False, message)]. *)
Lemma download_attempts_return song fp q sl : forall m k w,
  (k + m = max_retries)%nat -> (1 <= m)%nat ->
  exists p w', download_attempts song fp q sl (seq k m) w = (Ok (Some p), w').
Proof.
  induction m as [|m IH]; intros k w Hkm Hm; [lia |].
  unfold max_retries in *. cbn [seq download_attempts]. unfold bind at 1, try_except, bind at 1.
  destruct (download_attempt song fp q sl w) as [[p|e] w1].
  - cbn. eauto.
  - destruct (Nat.ltb k (max_retries - 1)) eqn:Hlt.
    + apply Nat.ltb_lt in Hlt. unfold max_retries in Hlt. cbn -[download_attempts seq]. apply IH; lia.
    + cbn. eauto.
Qed.

(** C7: Errors never escape the retry loop: once the save directory can
    be made, [download_song] returns a [(success, detail)] pair, whatever
    the network, the config and the files do. *)
Theorem download_song_returns song save_path q sl skip ff w :
  save_path <> "" -> w_files w !! save_path = None ->
  exists p w', download_song song save_path q sl skip ff w = (Ok (Some p), w').
Proof.
  intros Hne Hnf. unfold download_song, bind.
  assert (Hs : exists b, (if skip then os_path_exists (song_path song save_path ff) else ret false) w = (Ok b, w))
    by (destruct skip; eexists; reflexivity).
  unfold song_path in Hs. destruct Hs as [b Hs]. rewrite Hs.
  destruct b; [eauto |].
  unfold os_makedirs. apply String.eqb_neq in Hne. rewrite Hne, Hnf.
  apply download_attempts_return; unfold max_retries; lia.
Qed.

(** ** [download_file] *)

Definition total_bytes (cs : list (N * string)) : Z :=
  fold_right (fun p acc => (Z.of_nat (String.length (snd p)) + acc)%Z) 0%Z cs.

Definition concat_chunks (cs : list (N * string)) : string :=
  fold_right (fun p acc => (snd p ++ acc)%string) "" cs.

Lemma rate_limit_spec sl start downloaded w :
  (0 < sl)%Z ->
  exists w2, rate_limit sl start downloaded w = (Ok tt, w2) /\ w_files w2 = w_files w /\
    (start + inject_Z downloaded / inject_Z (sl * 1024) <= w_clock w2)%Q /\ (w_clock w <= w_clock w2)%Q.
Proof.
  intros Hsl. unfold rate_limit. replace (sl >? 0)%Z with true by lia.
  unfold bind, time_time, gets.
  set (E := (inject_Z downloaded / inject_Z (sl * 1024))%Q).
  qltb_cases (w_clock w - start)%Q E.
  - unfold time_sleep. replace (Qle_bool 0 (E - (w_clock w - start))) with true
      by (symmetry; apply Qle_bool_iff; lra).
    eexists. split; [reflexivity |]. simpl. split; [reflexivity | split; lra].
  - eexists. split; [reflexivity |]. split; [reflexivity | split; lra].
Qed.

(** The streaming loop never raises; it appends every chunk to the file,
    and with a positive [speed_limit] the time since [start_time] always
    covers the bytes received at [speed_limit] KiB/s. *)
Lemma stream_chunks_spec fp sl start : forall cs downloaded w old,
  (0 < sl)%Z -> w_files w !! fp = Some old ->
  (start + inject_Z downloaded / inject_Z (sl * 1024) <= w_clock w)%Q ->
  exists w', stream_chunks fp sl start downloaded cs w = (Ok tt, w') /\
    w_files w' !! fp = Some (old ++ concat_chunks cs)%string /\
    (start + inject_Z (downloaded + total_bytes cs) / inject_Z (sl * 1024) <= w_clock w')%Q.
Proof.
  induction cs as [|[d chunk] cs IH]; intros downloaded w old Hsl Hf Hinv.
  - exists w. simpl. rewrite Z.add_0_r, append_nil_r. auto.
  - pose proof (event_delay_nonneg (NetOk d (mk_response 0 "" None None [] None))) as Hd. simpl in Hd.
    set (w0 := set_clock (w_clock w + us d)%Q w).
    cbn [stream_chunks]. rewrite (bind_ok _ _ w tt w0) by reflexivity.
    destruct (String.eqb_spec chunk "") as [-> | Hne].
    + destruct (IH downloaded w0 old) as (w' & Hrun & Hf' & Hb); [exact Hsl | exact Hf | simpl; lra |].
      exists w'. split; [exact Hrun |]. simpl. rewrite Z.add_0_l. auto.
    + set (D' := (downloaded + Z.of_nat (String.length chunk))%Z).
      set (w1 := set_files (insert fp (old ++ chunk)%string (w_files w0)) w0).
      rewrite (bind_ok _ _ w0 tt w1) by (unfold file_append, modify, w1; simpl; now rewrite Hf).
      destruct (rate_limit_spec sl start D' w1 Hsl) as (w2 & Hs & Hf2 & Hb2 & _).
      rewrite (bind_ok _ _ w1 tt w2 Hs).
      destruct (IH D' w2 (old ++ chunk)%string) as (w' & Hrun & Hf' & Hb); [exact Hsl | | exact Hb2 |].
      { rewrite Hf2. apply lookup_insert_eq. }
      exists w'. split; [exact Hrun |]. split.
      * rewrite Hf'. simpl. rewrite append_assoc. reflexivity.
      * replace (downloaded + total_bytes ((d, chunk) :: cs))%Z with (D' + total_bytes cs)%Z
          by (unfold D'; simpl; lia). exact Hb.
Qed.

(** C32: A completed transfer writes exactly the bytes the server streamed
    (the file is truncated first), and with a positive [speed_limit] it
    lasts at least [bytes / (speed_limit * 1024)] seconds after the
    response arrived: the average rate never exceeds the limit. *)
Theorem download_file_writes_stream url fp sl w d r n :
  (0 < sl)%Z ->
  fst (next_answer (w_net w)) = NetOk d r -> ok_status r = true ->
  content_length_int (content_length r) = inr n -> stream_error r = None ->
  bool_decide (fp ∈ w_dirs w) = false ->
  exists w', download_file url fp sl w = (Ok tt, w') /\
    w_files w' !! fp = Some (concat_chunks (chunks r)) /\
    (w_clock w + us d + inject_Z (total_bytes (chunks r)) / inject_Z (sl * 1024) <= w_clock w')%Q.
Proof.
  intros Hsl Hev Hok Hcl Hse Hdir.
  set (w1 := after_request (py_str url) w).
  set (w2 := set_files (insert fp "" (w_files w1)) w1).
  unfold download_file.
  rewrite (bind_ok _ _ w r w1) by (unfold requests_get; now rewrite Hev).
  rewrite (bind_ok _ _ w1 tt w1)
    by (unfold raise_for_status, ok_status in *; apply negb_true_iff in Hok; now rewrite Hok).
  rewrite (bind_ok _ _ w1 n w1) by (unfold lift; now rewrite Hcl).
  rewrite (bind_ok _ _ w1 tt w2) by (unfold open_wb, w1; now rewrite after_request_dirs, Hdir).
  rewrite (bind_ok _ _ w2 (w_clock w2) w2) by reflexivity.
  assert (Hclock : w_clock w2 = (w_clock w + us d)%Q).
  { unfold w2, w1. simpl. rewrite after_request_clock, Hev. reflexivity. }
  destruct (stream_chunks_spec fp sl (w_clock w2) (chunks r) 0 w2 "" Hsl) as (w' & Hrun & Hf & Hb).
  - apply lookup_insert_eq.
  - assert (H0 : (inject_Z 0 / inject_Z (sl * 1024) == 0)%Q) by (unfold Qdiv; rewrite Qmult_0_l; reflexivity).
    rewrite H0. lra.
  - rewrite (bind_ok _ _ w2 tt w' Hrun), Hse. exists w'.
    split; [reflexivity |]. split; [exact Hf |]. rewrite Hclock in Hb. exact Hb.
Qed.

(** ** Concrete runs and witnesses *)

Definition dl_api : json :=
  JObj [("request_format", JStr "http://api/?id={song_id}&br={quality}"); ("response_type", JStr "text");
        ("default_quality", JStr "320k"); ("request_interval", JInt 1000)].

Definition music_dir : string := "C:" ++ backslash ++ "music".

(** A world right after [SongDownloader.__init__] with [request_interval = 1000] ms. *)
Definition dl_world (net : list net_event) : world :=
  set_dl_interval 1 (set_dirs {[music_dir]} (base_world 100 net (JObj [("apis", JObj [("song_download", dl_api)])]))).

Definition song_a : song_info := mk_song (JStr "a/b") (JStr "c") "1".
Definition song_b : song_info := mk_song (JStr "d") (JStr "e") "2".

Definition location_response : http_response := mk_response 200 "http://cdn/1.mp3" None None [] None.
Definition file_response : http_response :=
  mk_response 200 "" None (Some "4") [(100%N, "ab"); (100%N, "cd")] None.

Lemma sanitize_filename_no_illegal_witness :
  char_in "/" illegal_chars = true /\ char_in "/" (sanitize_filename "a/b") = false.
Proof. split; [reflexivity | apply sanitize_filename_no_illegal; reflexivity]. Defined.

Lemma download_song_skips_existing_witness :
  download_song song_a music_dir None 0 true 0
    (set_files {[song_path song_a music_dir 0 := "mp3"]} (dl_world [])) =
  (Ok (Some (true, skipped_message "a_b - c.mp3")), set_files {[song_path song_a music_dir 0 := "mp3"]} (dl_world [])).
Proof.
  apply (download_song_skips_existing song_a music_dir None 0 0 _ "mp3"). vm_compute. reflexivity.
Defined.

Definition two_songs_run (net : list net_event) :=
  (r1 <- download_song song_a music_dir None 0 false 0 ;;
   r2 <- download_song song_b music_dir None 0 false 0 ;; ret (r1, r2)) (dl_world net).

Lemma download_song_respects_interval_witness :
  exists L, w_log (snd (download_song song_a music_dir None 1 false 0
                          (dl_world [NetOk 1000 location_response; NetOk 10 file_response]))) =
            L ++ w_log (dl_world [NetOk 1000 location_response; NetOk 10 file_response]) /\
    Forall (fun p => (w_dl_last (dl_world []) + w_dl_interval (dl_world []) <= fst p)%Q) L.
Proof.
  apply (download_song_respects_interval song_a music_dir None 1 false 0
           (dl_world [NetOk 1000 location_response; NetOk 10 file_response])
           (fst (download_song song_a music_dir None 1 false 0
                   (dl_world [NetOk 1000 location_response; NetOk 10 file_response])))).
  vm_compute. reflexivity.
Defined.

Lemma download_song_returns_witness :
  exists p w', download_song song_a music_dir None 0 false 0 (dl_world []) = (Ok (Some p), w').
Proof.
  apply download_song_returns; [discriminate | reflexivity].
Defined.

Lemma download_file_writes_stream_witness :
  exists w', download_file (JStr "http://cdn/1.mp3") "f.mp3" 1 (dl_world [NetOk 10 file_response]) = (Ok tt, w') /\
    w_files w' !! "f.mp3" = Some (concat_chunks (chunks file_response)) /\
    (w_clock (dl_world []) + us 10 + inject_Z (total_bytes (chunks file_response)) / inject_Z (1 * 1024)
       <= w_clock w')%Q.
Proof.
  apply (download_file_writes_stream (JStr "http://cdn/1.mp3") "f.mp3" 1 (dl_world [NetOk 10 file_response])
           10 file_response 4); reflexivity.
Defined.


