(* ===== verification/Converter.v ===== *)
(** * The batch format converter: [NCMConverter] of src/utils/ncm_converter.py

    [ncm_converter_init] and [find_ncmdump] locate the external [ncmdump]
    executable, and [convert_single_file] runs it on one file and looks for
    its output at the two places it may be.  [batch_convert] lists a
    directory with [glob] ([glob_ncm]) and converts every file.  The
    executable's runs are the world's scripted [proc_answer]s
    ([subprocess_run]).

    The theorems show the following:
    - the executable search is the first existing candidate of a fixed list
      ([find_ncmdump_first_existing]);
    - single-file conversion reports each of its outcomes: failure with the
      tool's error stream, output found next to the source or in the target
      directory, output missing after a zero exit.  It never raises;
    - the batch reports exactly one result per listed file, in listing order. *)

From Stdlib Require Import String Ascii List ZArith QArith Lia Bool.
From stdpp Require Import gmap.
From S2P Require Import Prelude Json NtPath World.
Import ListNotations.
Open Scope string_scope.
Open Scope py_scope.

(** ** [glob.glob(os.path.join(input_dir, '*.ncm'))] on Windows *)

Definition ends_with (suffix s : string) : bool :=
  Nat.leb (String.length suffix) (String.length s)
  && String.eqb (str_drop (String.length s - String.length suffix) s) suffix.

Definition is_hidden (name : string) : bool :=
  match name with String c _ => is_dot c | EmptyString => false end.

(** [fnmatch(name, '*.ncm')] after [normcase], and glob's rule that a
    wildcard does not match a leading dot. *)
Definition glob_match_ncm (name : string) : bool :=
  negb (is_hidden name) && ends_with ".ncm" (str_lower name).

(** [os.listdir(dirname)]: the files and directories whose path splits
    into [dirname] and a non-empty name, in the store's order. *)
Definition dir_entries (dirname : string) (w : world) : list string :=
  let paths := (map fst (map_to_list (w_files w)) ++ elements (w_dirs w))%list in
  flat_map (fun p => let '(h, t) := nt_split p in
                     if String.eqb h dirname && negb (String.eqb t "") then [t] else []) paths.

Definition ncm_listing (input_dir : string) (w : world) : list string :=
  let dirname := fst (nt_split (nt_join input_dir "*.ncm")) in
  map (nt_join dirname) (filter glob_match_ncm (dir_entries dirname w)).

Definition glob_ncm (input_dir : string) : M (list string) := gets (ncm_listing input_dir).

(** ** Locating the executable *)

(** [if os.path.exists(p): return p], else go on with [k]. *)
Definition exists_then (p : string) (k : M (option string)) : M (option string) :=
  b <- os_path_exists p ;;
  if b then ret (Some p) else k.

(** [for path in os.environ['PATH'].split(os.pathsep): ...] *)
Fixpoint search_path (dirs : list string) : M (option string) :=
  match dirs with
  | [] => ret None
  | d :: ds => exists_then (nt_join d "ncmdump.exe") (search_path ds)
  end.

Definition find_ncmdump : M (option string) :=
  env <- gets w_env ;;
  let up := nt_join (e_module_dir env) ".." in
  let rest :=
    b <- os_path_exists "ncmdump.exe" ;;
    if b then ret (Some (nt_abspath (e_cwd env) "ncmdump.exe"))
    else exists_then (nt_join (nt_join up "app") "ncmdump.exe")
           (exists_then (nt_join (nt_join (nt_join up ".conda") "Scripts") "ncmdump.exe")
              (search_path (e_path env))) in
  match e_meipass env with
  | Some m => exists_then (nt_join m "ncmdump.exe")
                (exists_then (nt_join (nt_join m "app") "ncmdump.exe") rest)
  | None => rest
  end.

(** [NCMConverter.__init__(ncmdump_path)]: the object's one field. *)
Definition ncm_converter_init (ncmdump_path : option string) : M string :=
  p <- (match ncmdump_path with
        | None => find_ncmdump
        | Some p => ret (Some p)
        end) ;;
  match p with
  | Some s => if String.eqb s "" then raise (OSError FileNotFoundError
                  "ncmdump executable not found. Please provide the path.")
              else ret s
  | None => raise (OSError FileNotFoundError "ncmdump executable not found. Please provide the path.")
  end.

(** ** Converting *)

(** [os.path.splitext(p)[0] + '.mp3'] *)
Definition mp3_of (p : string) : string := fst (splitext p) ++ ".mp3".

Definition conversion_handler (e : exn) : M (bool * string) :=
  match e with
  | CalledProcessError _ err => ret (false, "Conversion failed: " ++ err)
  | e => ret (false, exn_str e)
  end.

Definition convert_single_file (tool ncm_file : string) (output_dir : option string)
    : M (bool * string) :=
  try_except any_exn (
    let out := match output_dir with None => nt_dirname ncm_file | Some d => d end in
    os_makedirs out ;;
    subprocess_run [tool; ncm_file; "-o"; out] ;;
    let mp3a := mp3_of ncm_file in
    a <- os_path_exists mp3a ;;
    if a then ret (true, mp3a)
    else
      let mp3b := nt_join out (mp3_of (nt_basename ncm_file)) in
      b <- os_path_exists mp3b ;;
      if b then ret (true, mp3b)
      else ret (false, "Converted file not found: " ++ mp3b))
    conversion_handler.

(** One entry of [batch_convert]'s result list. *)
Record conv_result := mk_result {
  r_file : option string;
  r_success : bool;
  r_message : string
}.

Fixpoint convert_each (tool : string) (output_dir : option string) (files : list string)
    : M (list conv_result) :=
  match files with
  | [] => ret []
  | f :: fs =>
      r <- convert_single_file tool f output_dir ;;
      rs <- convert_each tool output_dir fs ;;
      ret (mk_result (Some f) (fst r) (snd r) :: rs)
  end.

Definition batch_convert (tool input_dir : string) (output_dir : option string)
    : M (list conv_result) :=
  files <- glob_ncm input_dir ;;
  match files with
  | [] => ret [mk_result None false ("No NCM files found in " ++ input_dir)]
  | _ => convert_each tool output_dir files
  end.

(** ** The search order, as a list *)

(** [os.path.exists(p)] as a function of the world. *)
Definition path_exists (w : world) (p : string) : bool :=
  match w_files w !! p with Some _ => true | None => bool_decide (p ∈ w_dirs w) end.

(** The places [find_ncmdump] looks at, in order: the path it tests and the
    path it returns. *)
Definition ncmdump_candidates (env : py_env) : list (string * string) :=
  let up := nt_join (e_module_dir env) ".." in
  let same p := (p, p) in
  ((match e_meipass env with
    | Some m => [same (nt_join m "ncmdump.exe"); same (nt_join (nt_join m "app") "ncmdump.exe")]
    | None => []
    end) ++
   [("ncmdump.exe", nt_abspath (e_cwd env) "ncmdump.exe");
    same (nt_join (nt_join up "app") "ncmdump.exe");
    same (nt_join (nt_join (nt_join up ".conda") "Scripts") "ncmdump.exe")] ++
   map (fun d => same (nt_join d "ncmdump.exe")) (e_path env))%list.

Fixpoint first_existing (w : world) (cs : list (string * string)) : option string :=
  match cs with
  | [] => None
  | (c, r) :: cs' => if path_exists w c then Some r else first_existing w cs'
  end.

Open Scope list_scope.

Lemma path_exists_events (evs : list ui_event) (w : world) (p : string) :
  path_exists (set_events evs w) p = path_exists w p.
Proof. reflexivity. Qed.

Lemma os_path_exists_bind {A} (p : string) (k : bool -> M A) (w : world) :
  bind (os_path_exists p) k w = k (path_exists w p) w.
Proof. reflexivity. Qed.

(** [if os.path.exists(p): return x] followed by [k]. *)
Lemma if_exists_run {A} (p : string) (x : A) (k : M A) (w : world) :
  bind (os_path_exists p) (fun b => if b then ret x else k) w =
  if path_exists w p then (Ok x, w) else k w.
Proof.
  unfold bind, os_path_exists, gets, path_exists.
  destruct (w_files w !! p); [reflexivity |]. destruct (bool_decide _); reflexivity.
Qed.

(** One existence check of the search is one candidate of the list. *)
Lemma if_exists_first (p x : string) (k : M (option string)) cs (w : world) :
  k w = (Ok (first_existing w cs), w) ->
  bind (os_path_exists p) (fun b => if b then ret (Some x) else k) w =
  (Ok (first_existing w ((p, x) :: cs)), w).
Proof. intros Hk. rewrite if_exists_run. simpl. destruct (path_exists w p); auto. Qed.

Lemma exists_then_first (p : string) (k : M (option string)) cs (w : world) :
  k w = (Ok (first_existing w cs), w) ->
  exists_then p k w = (Ok (first_existing w ((p, p) :: cs)), w).
Proof. apply if_exists_first. Qed.

Lemma first_existing_app (w : world) (l1 l2 : list (string * string)) :
  first_existing w (l1 ++ l2) =
  match first_existing w l1 with Some r => Some r | None => first_existing w l2 end.
Proof.
  induction l1 as [|[c r] l1 IH]; simpl; [reflexivity |].
  destruct (path_exists w c); [reflexivity | exact IH].
Qed.

Lemma search_path_run (dirs : list string) (w : world) :
  search_path dirs w =
  (Ok (first_existing w (map (fun d => (nt_join d "ncmdump.exe", nt_join d "ncmdump.exe")) dirs)), w).
Proof.
  induction dirs as [|d ds IH]; [reflexivity |]. apply exists_then_first, IH.
Qed.

(** C17: The executable search of [find_ncmdump] returns the first candidate of
    [ncmdump_candidates] that exists (the [_MEIPASS] places, then the
    working directory, the app and [.conda/Scripts] directories next to the
    module, then each [PATH] entry), and changes nothing. *)
Theorem find_ncmdump_first_existing (w : world) :
  find_ncmdump w = (Ok (first_existing w (ncmdump_candidates (w_env w))), w).
Proof.
  unfold find_ncmdump, ncmdump_candidates. cbn [bind gets].
  destruct (e_meipass (w_env w)) as [m|]; cbv zeta beta; cbn [app];
  repeat (apply exists_then_first || apply if_exists_first); apply search_path_run.
Qed.

(** ** Single-file conversion *)

Lemma os_makedirs_new (p : string) (w : world) :
  String.eqb p "" = false -> w_files w !! p = None ->
  os_makedirs p w = (Ok tt, set_dirs ({[p]} ∪ w_dirs w) w).
Proof. intros H1 H2. unfold os_makedirs. now rewrite H1, H2. Qed.

Lemma subprocess_run_ok (argv : list string) p ps (w : world) :
  w_procs w = p :: ps -> Z.eqb (p_returncode p) 0 = true ->
  subprocess_run argv w = (Ok p, proc_world p ps argv w).
Proof. intros H1 H2. unfold subprocess_run. now rewrite H1, H2. Qed.

Lemma subprocess_run_fail (argv : list string) p ps (w : world) :
  w_procs w = p :: ps -> Z.eqb (p_returncode p) 0 = false ->
  subprocess_run argv w = (Raise (CalledProcessError (p_returncode p) (p_stderr p)), proc_world p ps argv w).
Proof. intros H1 H2. unfold subprocess_run. now rewrite H1, H2. Qed.

(** C14: [convert_single_file tool src out] into an existing-or-creatable
    directory, with the next run of the tool scripted as [p]: a non-zero
    exit reports the tool's standard error; otherwise the output is looked
    for next to the source, then in the target directory, and a zero exit
    without either file is a failure ("Converted file not found").  The
    directory is created and the tool's files are written in every case. *)
Theorem convert_single_file_spec (tool src out : string) (p : proc_answer) ps (w : world) :
  String.eqb out "" = false -> w_files w !! out = None -> w_procs w = p :: ps ->
  let w1 := proc_world p ps [tool; src; "-o"; out] (set_dirs ({[out]} ∪ w_dirs w) w) in
  let mp3a := mp3_of src in
  let mp3b := nt_join out (mp3_of (nt_basename src)) in
  convert_single_file tool src (Some out) w =
  (Ok (if Z.eqb (p_returncode p) 0 then
         if path_exists w1 mp3a then (true, mp3a)
         else if path_exists w1 mp3b then (true, mp3b)
         else (false, "Converted file not found: " ++ mp3b)%string
       else (false, "Conversion failed: " ++ p_stderr p)%string), w1).
Proof.
  intros Hout Hfile Hprocs w1 mp3a mp3b. subst mp3a mp3b.
  unfold convert_single_file, try_except.
  rewrite (bind_ok _ _ _ _ _ (os_makedirs_new out w Hout Hfile)).
  assert (Hp : w_procs (set_dirs ({[out]} ∪ w_dirs w) w) = p :: ps) by exact Hprocs.
  destruct (Z.eqb (p_returncode p) 0) eqn:Hrc.
  - rewrite (bind_ok _ _ _ _ _ (subprocess_run_ok _ _ _ _ Hp Hrc)). fold w1.
    rewrite if_exists_run. destruct (path_exists w1 (mp3_of src)); [reflexivity |].
    rewrite if_exists_run. destruct (path_exists w1 (nt_join out (mp3_of (nt_basename src)))); reflexivity.
  - rewrite (bind_raise _ _ _ _ _ (subprocess_run_fail _ _ _ _ Hp Hrc)). reflexivity.
Qed.

(** Every exception of the body is turned into a [(False, message)] pair. *)
Lemma convert_single_file_total (tool src : string) (out : option string) (w : world) :
  exists r w', convert_single_file tool src out w = (Ok r, w').
Proof.
  unfold convert_single_file, try_except.
  match goal with |- context [match ?c w with _ => _ end] => destruct (c w) as [[r|e] w'] end;
  [eauto | cbn; destruct e; eauto].
Qed.

Lemma convert_each_results (tool : string) (out : option string) (files : list string) (w : world) :
  exists rs w', convert_each tool out files w = (Ok rs, w') /\ map r_file rs = map Some files.
Proof.
  revert w. induction files as [|f fs IH]; intros w; [eexists [], w; auto |].
  simpl. destruct (convert_single_file_total tool f out w) as (r & w1 & H1).
  rewrite (bind_ok _ _ _ _ _ H1). destruct (IH w1) as (rs & w2 & H2 & Hm).
  rewrite (bind_ok _ _ _ _ _ H2). eexists _, w2. split; [reflexivity | simpl; congruence].
Qed.

(** [batch_convert] returns one result per file [glob] lists, in the
    listing's order, and a single result without a file when it lists none;
    no exception escapes. *)
Theorem batch_convert_one_result_per_file (tool input_dir : string) (out : option string) (w : world) :
  exists rs w', batch_convert tool input_dir out w = (Ok rs, w') /\
    map r_file rs = match ncm_listing input_dir w with
                    | [] => [None]
                    | files => map Some files
                    end.
Proof.
  unfold batch_convert, glob_ncm. cbn [bind gets].
  destruct (ncm_listing input_dir w) as [|f fs] eqn:E; [eexists _, w; split; reflexivity |].
  rewrite <- E. apply convert_each_results.
Qed.

(** ** Examples *)

(** [ncmdump]'s behaviour: it writes [<out>\<stem>.mp3]. *)
Definition ncmdump_writes (argv : list string) : list (string * string) :=
  match argv with
  | [_; src; _; out] => [(nt_join out (mp3_of (nt_basename src)), "ID3")]
  | _ => []
  end.

Definition ncmdump_run : proc_answer := mk_proc 500000 0 "" ncmdump_writes.
Definition silent_run : proc_answer := mk_proc 500000 0 "" (fun _ => []).
Definition failing_run : proc_answer := mk_proc 1000 1 "Error: not a valid ncm file" (fun _ => []).

Definition conv_world (procs : list proc_answer) (files : list (string * string)) : world :=
  set_procs procs (set_files (list_to_map files) (set_dirs {[ "C:\in" ]} (base_world 0 [] (JObj [])))).

Lemma convert_single_file_spec_witness :
  exists w', convert_single_file "ncmdump.exe" "C:\in\A - B.ncm" (Some "C:\out")
               (conv_world [silent_run] [("C:\in\A - B.ncm", "CTENFDAM")]) =
             (Ok (false, "Converted file not found: C:\out\A - B.mp3"), w').
Proof.
  eexists. rewrite (convert_single_file_spec "ncmdump.exe" "C:\in\A - B.ncm" "C:\out" silent_run []);
    [| reflexivity | vm_compute; reflexivity | reflexivity].
  vm_compute. reflexivity.
Defined.
