(* ===== verification/Window.v ===== *)
(** * What the two worker threads of the window share: src/utils/ui.py

    [log] is [MainWindow.log] (a [log_signal]); the counters, the item tag
    [[i/total]] and the progress percentage are written the same way in
    [download_playlist] and [convert_ncm_files], and so is their loop,
    [item_loop]: [item_loop_progress] shows that the progress signals of a
    run are those of its first items, in item order. *)

From Stdlib Require Import String List ZArith QArith Lia Bool.
From S2P Require Import Prelude Json World PyFloat.
Import ListNotations.
Open Scope string_scope.
Open Scope py_scope.

(** [self.log(message)] *)
Definition log (msg : string) : M unit := emit (Log msg).

(** [f"{'是' if b else '否'}"] *)
Definition yes_no (b : bool) : string := if b then "是" else "否".

(** [int(progress)], which raises only on a non-finite float. *)
Definition int_progress (i total : nat) : M Z :=
  lift (match progress_percent i total with
        | Some p => inr p
        | None => inl (ValueError "cannot convert float NaN to integer")
        end).

(** The counters of the loop: [success_count], [fail_count], [skip_count]. *)
Record counts := mk_counts { c_success : nat; c_fail : nat; c_skip : nat }.

Definition counts0 : counts := mk_counts 0 0 0.
Definition add_success (c : counts) : counts := mk_counts (S (c_success c)) (c_fail c) (c_skip c).
Definition add_fail (c : counts) : counts := mk_counts (c_success c) (S (c_fail c)) (c_skip c).
Definition add_skip (c : counts) : counts := mk_counts (c_success c) (c_fail c) (S (c_skip c)).

(** [f"[{i+1}/{total}] "] *)
Definition item_tag (i total : nat) : string :=
  "[" ++ str_of_nat (S i) ++ "/" ++ str_of_nat total ++ "] ".


Open Scope list_scope.

Definition count_sum (c : counts) : nat := (c_success c + c_fail c + c_skip c)%nat.

(** The signals that move a progress bar, in the order they were sent
    ([new] is newest first, as the world keeps them). *)
Definition is_progress (ev : ui_event) : bool :=
  match ev with Progress _ _ | NcmProgress _ _ => true | _ => false end.

Definition progress_trace (new : list ui_event) : list ui_event := filter is_progress (rev new).

(** [c] sends no progress signal (log lines are allowed). *)
Definition no_progress {A} (c : M A) : Prop :=
  forall w, exists new, w_events (snd (c w)) = new ++ w_events w /\ progress_trace new = [].

(** The loop both workers run: [for i, x in enumerate(xs)], checking the
    stop flag before each item and logging [stop_msg] when it is set. *)
Fixpoint item_loop {X : Type} (stop : M bool) (stop_msg : string) (item : nat -> X -> counts -> M counts)
    (i : nat) (xs : list X) (c : counts) : M counts :=
  match xs with
  | [] => ret c
  | x :: xs' =>
      s <- stop ;;
      if s then log stop_msg ;; ret c
      else c' <- item i x c ;; item_loop stop stop_msg item (S i) xs' c'
  end.

(** The signals of items [i], [i+1], ... in item order. *)
Fixpoint item_events {X : Type} (ev : nat -> X -> list ui_event) (i : nat) (xs : list X) : list ui_event :=
  match xs with
  | [] => []
  | x :: xs' => ev i x ++ item_events ev (S i) xs'
  end.

(** Every percentage of a run of [total] items is a finite float. *)
Definition progress_finite (total : nat) : bool :=
  forallb (fun j => match progress_percent j total with Some _ => true | None => false end)
          (seq 0 total).

Lemma progress_finite_at (total j : nat) :
  progress_finite total = true -> (j < total)%nat -> exists p, progress_percent j total = Some p.
Proof.
  intros H Hj. unfold progress_finite in H. rewrite forallb_forall in H.
  specialize (H j). destruct (progress_percent j total); [eauto |].
  discriminate H. apply in_seq. lia.
Qed.

Lemma progress_trace_app (a b : list ui_event) : progress_trace (a ++ b) = progress_trace b ++ progress_trace a.
Proof. unfold progress_trace. now rewrite rev_app_distr, filter_app. Qed.

Lemma no_progress_silent {A} (c : M A) : silent c -> no_progress c.
Proof. intros Hc w. exists []. split; [apply Hc | reflexivity]. Qed.

Lemma no_progress_log (msg : string) : no_progress (log msg).
Proof. intros w. exists [Log msg]. split; reflexivity. Qed.

Lemma no_progress_bind {A B} (c : M A) (k : A -> M B) :
  no_progress c -> (forall a, no_progress (k a)) -> no_progress (bind c k).
Proof.
  intros Hc Hk w. unfold bind. destruct (Hc w) as (n1 & E1 & T1).
  destruct (c w) as [[a|e] w1]; simpl in *; [|now exists n1].
  destruct (Hk a w1) as (n2 & E2 & T2). exists (n2 ++ n1). split.
  - now rewrite E2, E1, app_assoc.
  - now rewrite progress_trace_app, T1, T2.
Qed.

Lemma no_progress_try_except {A} (catches : exn -> bool) (c : M A) (h : exn -> M A) :
  no_progress c -> (forall e, no_progress (h e)) -> no_progress (try_except catches c h).
Proof.
  intros Hc Hh w. unfold try_except. destruct (Hc w) as (n1 & E1 & T1).
  destruct (c w) as [[a|e] w1]; simpl in *; [now exists n1|].
  destruct (catches e); [|now exists n1].
  destruct (Hh e w1) as (n2 & E2 & T2). exists (n2 ++ n1). split.
  - now rewrite E2, E1, app_assoc.
  - now rewrite progress_trace_app, T1, T2.
Qed.

(** One progress signal, then a computation that sends none. *)
Lemma progress_then {A} (ev : ui_event) (c : M A) (w : world) :
  is_progress ev = true -> no_progress c ->
  exists new, w_events (snd ((emit ev ;; c) w)) = new ++ w_events w /\ progress_trace new = [ev].
Proof.
  intros Hev Hc. destruct (Hc (set_events (ev :: w_events w) w)) as (n & E & T).
  exists (n ++ [ev]). split.
  - cbn. rewrite E. now rewrite <- app_assoc.
  - rewrite progress_trace_app, T. unfold progress_trace. simpl. now rewrite Hev.
Qed.

Section ItemLoop.
Context {X : Type} (stop : M bool) (stop_msg : string) (item : nat -> X -> counts -> M counts)
  (ev : nat -> X -> list ui_event).
Hypothesis Hstop : silent stop.
Hypothesis Hitem : forall i x c w,
  exists new, w_events (snd (item i x c w)) = new ++ w_events w /\ progress_trace new = ev i x.

(** Whatever happens, the progress signals of a run of the loop are those
    of its first [k] items, in item order. *)
Lemma item_loop_progress i xs c w :
  exists k new, (k <= length xs)%nat /\
    w_events (snd (item_loop stop stop_msg item i xs c w)) = new ++ w_events w /\
    progress_trace new = item_events ev i (firstn k xs).
Proof.
  revert i c w. induction xs as [|x xs IH]; intros i c w.
  - exists 0%nat, []. repeat split. simpl. lia.
  - cbn [item_loop]. unfold bind at 1. pose proof (Hstop w) as Hs.
    destruct (stop w) as [[[]|e] w0]; cbn [fst snd] in Hs |- *.
    + exists 0%nat, [Log stop_msg]. repeat split; [simpl; lia | cbn; now rewrite Hs].
    + unfold bind. destruct (Hitem i x c w0) as (n1 & E1 & T1).
      destruct (item i x c w0) as [[c'|e] w1]; cbn in E1 |- *.
      * destruct (IH (S i) c' w1) as (k & n2 & Hk & E2 & T2).
        exists (S k), (n2 ++ n1). split; [simpl; lia|]. split.
        -- now rewrite E2, E1, Hs, app_assoc.
        -- now rewrite progress_trace_app, T1, T2.
      * exists 1%nat, n1. split; [simpl; lia|]. split; [now rewrite E1, Hs|].
        rewrite T1. cbn [firstn item_events]. now rewrite app_nil_r.
    + exists 0%nat, []. repeat split; [simpl; lia | exact Hs].
Qed.

End ItemLoop.

Ltac solve_no_progress :=
  repeat match goal with
  | |- forall _, _ => intro
  | |- no_progress (bind _ _) => apply no_progress_bind
  | |- no_progress (try_except _ _ _) => apply no_progress_try_except
  | |- no_progress (log _) => apply no_progress_log
  | |- no_progress (if ?b then _ else _) => destruct b
  | |- no_progress (match ?x with _ => _ end) => destruct x
  | |- no_progress _ => apply no_progress_silent; solve [solve_silent]
  end.

Lemma returns_log (msg : string) : returns (fun _ => True) (log msg).
Proof. apply returns_emit. Qed.

