(* ===== verification/ConvertTask.v ===== *)
(** * The conversion task of the window: src/utils/ui.py

    [MainWindow.__init__] builds the converter once ([ui_init_converter]);
    [start_ncm_convert] checks its inputs, clears the stop flag and starts
    the worker [convert_ncm_files], which lists the source directory, walks
    the files ([convert_loop], one [convert_item] each), derives the target
    name ([target_filename], with the optional artist/title flip), skips,
    converts through [Converter.convert_single_file] and renames, and
    reports through the window's signals ([emit]).  [stop_convert_task] is
    the stop button.

    The worker runs on its own thread; here it runs after the handler that
    starts it, and the window's stop click is the time stored in
    [w_stop_convert] (see [World.stop_seen]). *)

From Stdlib Require Import String Ascii List ZArith QArith Lia Bool.
From stdpp Require Import gmap.
From S2P Require Import Prelude Json NtPath World PyFloat Converter Window.
Import ListNotations.
Open Scope string_scope.
Open Scope py_scope.

(** The derived target name of ui.py lines 681-692. *)
Definition target_filename (ncm_basename : string) (flip_filename : bool) : string :=
  let plain := ncm_basename ++ ".mp3" in
  if flip_filename && str_in " - " ncm_basename then
    match split_dash ncm_basename "" with
    | artist :: (_ :: _) as rest => join_with " - " rest ++ " - " ++ artist ++ ".mp3"
    | _ => plain
    end
  else plain.

(** The body of the loop for the [i]-th file. *)
Definition convert_item (tool output_dir : string) (skip_existing flip_filename : bool)
    (total i : nat) (ncm_file : string) (c : counts) : M counts :=
  let tag := item_tag i total in
  pct <- int_progress i total ;;
  emit (NcmProgress pct ("正在转换: " ++ nt_basename ncm_file ++ " (" ++ str_of_nat (S i)
                         ++ "/" ++ str_of_nat total ++ ")")) ;;
  log (tag ++ "正在处理: " ++ nt_basename ncm_file) ;;
  let target := target_filename (fst (splitext (nt_basename ncm_file))) flip_filename in
  let target_path := nt_join output_dir target in
  ex <- (if skip_existing then os_path_exists target_path else ret false) ;;
  if ex then
    log (tag ++ "已跳过: " ++ target ++ "（文件已存在）") ;;
    ret (add_skip c)
  else
    r <- convert_single_file tool ncm_file (Some output_dir) ;;
    let '(success, message) := r in
    if success then
      let converted_basename := nt_basename message in
      let converted_path := nt_join output_dir converted_basename in
      rn <- (if negb (String.eqb converted_basename target) then os_path_exists converted_path
             else ret false) ;;
      (if rn then
         try_except any_exn
           (os_rename converted_path target_path ;;
            log (tag ++ "转换成功: " ++ target ++ "（已重命名）"))
           (fun e => log (tag ++ "转换成功，但重命名失败: " ++ exn_str e))
       else log (tag ++ "转换成功: " ++ target)) ;;
      ret (add_success c)
    else
      log (tag ++ "转换失败: " ++ message) ;;
      ret (add_fail c).

(** The [NcmProgress] signal [convert_item] sends for the [i]-th file,
    when its percentage is a finite float. *)
Definition item_ncm_progress_event (total i : nat) (ncm_file : string) : list ui_event :=
  match progress_percent i total with
  | Some p => [NcmProgress p ("正在转换: " ++ nt_basename ncm_file ++ " (" ++ str_of_nat (S i)
                                ++ "/" ++ str_of_nat total ++ ")")]
  | None => []
  end.

(** [if self.stop_convert:] *)
Definition stop_convert_requested : M bool :=
  gets (fun w => stop_seen (w_stop_convert w) (w_clock w)).

(** [for i, ncm_file in enumerate(ncm_files): ...], from index [i]. *)
Fixpoint convert_loop (tool output_dir : string) (skip_existing flip_filename : bool)
    (total i : nat) (files : list string) (c : counts) : M counts :=
  match files with
  | [] => ret c
  | f :: fs =>
      stop <- stop_convert_requested ;;
      if stop then log "转换已停止" ;; ret c
      else
        c' <- convert_item tool output_dir skip_existing flip_filename total i f c ;;
        convert_loop tool output_dir skip_existing flip_filename total (S i) fs c'
  end.

Definition summary_line (c : counts) (total : nat) : string :=
  "NCM转换完成! 成功: " ++ str_of_nat (c_success c) ++ ", 跳过: " ++ str_of_nat (c_skip c)
  ++ ", 失败: " ++ str_of_nat (c_fail c) ++ ", 总计: " ++ str_of_nat total.

(** [MainWindow.convert_ncm_files], the worker thread. *)
Definition convert_ncm_files (tool input_dir output_dir : string)
    (skip_existing flip_filename : bool) : M unit :=
  try_finally
    (try_except any_exn
       (log ("开始转换NCM文件，源目录: " ++ input_dir) ;;
        log ("跳过已存在文件: " ++ yes_no skip_existing) ;;
        log ("翻转文件名格式: " ++ yes_no flip_filename) ;;
        files <- glob_ncm input_dir ;;
        match files with
        | [] => log "未找到NCM文件" ;; emit (NcmComplete 0 0)
        | _ =>
            log ("找到 " ++ str_of_nat (length files) ++ " 个NCM文件") ;;
            c <- convert_loop tool output_dir skip_existing flip_filename (length files) 0 files counts0 ;;
            emit (NcmProgress 100 "转换完成") ;;
            log (summary_line c (length files)) ;;
            emit (NcmComplete (Z.of_nat (c_success c)) (Z.of_nat (c_fail c)))
        end)
       (fun e => log ("转换失败: " ++ exn_str e) ;; emit (NcmError (exn_str e))))
    (emit (NcmButtonState true false)).

(** [try: self.ncm_converter = NCMConverter() except FileNotFoundError as e]
    of [MainWindow.__init__]: the executable, or the exception caught. *)
Definition ui_init_converter : M (exn + string) :=
  try_except (fun e => match e with OSError FileNotFoundError _ => true | _ => false end)
    (tool <- ncm_converter_init None ;; ret (inr tool))
    (fun e => ret (inl e)).

(** What [InfoBar.error] shows when a handler refuses to start. *)
Definition not_initialised : string := "NCM转换器未初始化，无法使用转换功能".
Definition no_source_dir : string := "源文件夹不存在".

(** The checks of [MainWindow.start_ncm_convert]: the error it shows, or
    the converter's executable. *)
Definition convert_args (converter : option string) (input_dir : string) : M (string + string) :=
  match converter with
  | None => ret (inl not_initialised)
  | Some tool =>
      ex <- os_path_exists input_dir ;;
      if negb ex then ret (inl no_source_dir) else ret (inr tool)
  end.

(** [self.stop_convert = False] *)
Definition reset_stop_convert : M unit :=
  modify (fun w => set_stop_convert (reset_stop (w_stop_convert w) (w_clock w)) w).

(** [MainWindow.start_ncm_convert] followed by the worker it starts;
    [Some msg] is the error the window shows instead of starting. *)
Definition start_ncm_convert (converter : option string) (input_dir output_dir : string)
    (skip_existing flip_filename : bool) : M (option string) :=
  a <- convert_args converter input_dir ;;
  match a with
  | inl msg => ret (Some msg)
  | inr tool =>
      reset_stop_convert ;;
      convert_ncm_files tool input_dir output_dir skip_existing flip_filename ;;
      ret None
  end.

(** [MainWindow.stop_convert_task] *)
Definition stop_convert_task : M unit :=
  t <- time_time ;;
  modify (set_stop_convert (Some t)) ;;
  log "正在停止转换...".

Open Scope list_scope.

(** ** The derived name *)

(** C16: With the flip option, a stem [a - b] whose first part has no ['-']
    gives the target [b - a.mp3]: the stem is cut at its first [" - "] and
    the rest, separators included, comes first. *)
Theorem target_filename_flip (a b : string) :
  char_in "-"%char a = false ->
  target_filename (a ++ " - " ++ b) true = (b ++ " - " ++ a ++ ".mp3")%string.
Proof.
  intros Ha. unfold target_filename. rewrite str_in_middle, split_dash_first by exact Ha.
  destruct (split_dash_not_nil b) as (h & t & E). rewrite E, <- E, join_split_dash. reflexivity.
Qed.

Lemma target_filename_flip_witness :
  char_in "-"%char "Artist" = false /\
  target_filename ("Artist" ++ " - " ++ "Song - Live") true = "Song - Live - Artist.mp3".
Proof. split; [reflexivity |]. apply (target_filename_flip "Artist" "Song - Live"). reflexivity. Defined.

(** ** The stop flag is read only between items *)

Lemma frame_convert_single_file (tool src : string) (out : option string) :
  stop_frame ConvertFlag (convert_single_file tool src out).
Proof. unfold convert_single_file, conversion_handler. solve_frame. Qed.

#[export] Hint Resolve frame_convert_single_file : frame.

Lemma frame_convert_item (tool out : string) (skip flip : bool) (total i : nat)
    (f : string) (c : counts) :
  stop_frame ConvertFlag (convert_item tool out skip flip total i f c).
Proof. unfold convert_item, int_progress, log. solve_frame. Qed.

(** C11: Processing one file ([convert_item]) never reads or writes the stop
    flag: a stop click during an item changes nothing of that item, which
    runs to its end; the flag takes effect at the next item. *)
Theorem convert_item_ignores_stop (tool out : string) (skip flip : bool) (total i : nat)
    (f : string) (c : counts) :
  stop_frame ConvertFlag (convert_item tool out skip flip total i f c).
Proof. apply frame_convert_item. Qed.

(** ** Counting *)

Lemma silent_convert_single_file (tool src : string) (out : option string) :
  silent (convert_single_file tool src out).
Proof. unfold convert_single_file, conversion_handler. solve_silent. Qed.

#[local] Hint Resolve silent_convert_single_file : silent.

(** One file sends its [NcmProgress] signal (when the percentage is finite)
    and log lines; the tool run and the rename are silent. *)
Lemma convert_item_progress tool out skip flip total i f c w :
  exists new, w_events (snd (convert_item tool out skip flip total i f c w)) = new ++ w_events w /\
    progress_trace new = item_ncm_progress_event total i f.
Proof.
  unfold convert_item, int_progress, item_ncm_progress_event.
  destruct (progress_percent i total) as [p|]; [|exists []; split; reflexivity].
  rewrite bind_lift_inr. cbv beta zeta. apply progress_then; [reflexivity|]. solve_no_progress.
Qed.

Lemma returns_convert_single_file (tool src : string) (out : option string) :
  returns (fun _ => True) (convert_single_file tool src out).
Proof.
  intros w. destruct (convert_single_file_total tool src out w) as (r & w' & E). eauto.
Qed.

(** One item adds one to exactly one counter. *)
Lemma convert_item_counts (tool out : string) (skip flip : bool) (total i : nat) (f : string)
    (c : counts) (p : Z) :
  progress_percent i total = Some p ->
  returns (fun c' => count_sum c' = S (count_sum c)) (convert_item tool out skip flip total i f c).
Proof.
  intros Hp. unfold convert_item, int_progress, log. rewrite Hp.
  apply (returns_bind (fun _ => True)); [apply returns_ret; auto | intros ? _].
  solve_returns; try apply returns_convert_single_file; unfold count_sum; simpl; lia.
Qed.

(** C10: The loop over the listed files returns whenever every percentage of
    the run is a finite float (for every run of at most 100 files by
    [progress_percent_bounds]).  It counts each file it processes exactly once
    as a success, a failure or a skip, so it adds at most one count per file;
    with no stop click it processes every file. *)
Theorem convert_loop_counts (tool out : string) (skip flip : bool) (total i : nat)
    (files : list string) (c : counts) :
  progress_finite total = true -> i + length files <= total ->
  returns (fun c' => count_sum c <= count_sum c' <= count_sum c + length files)
          (convert_loop tool out skip flip total i files c) /\
  (forall w, w_stop_convert w = None ->
     exists c' w', convert_loop tool out skip flip total i files c w = (Ok c', w') /\
                   count_sum c' = count_sum c + length files).
Proof.
  intros Hfin. revert i c. induction files as [|f fs IH]; intros i c Hlen.
  - split; [apply returns_ret; lia | intros w _; exists c, w; simpl; split; [reflexivity | lia]].
  - simpl in Hlen. destruct (progress_finite_at total i Hfin ltac:(lia)) as [p Hp].
    pose proof (convert_item_counts tool out skip flip total i f c p Hp) as Hitem.
    split.
    + simpl. apply (returns_bind (fun _ => True)); [apply returns_gets | intros [] _].
      * apply (returns_bind (fun _ => True)); [apply returns_emit | intros; apply returns_ret; lia].
      * eapply returns_bind; [exact Hitem |]. intros c1 Hc1.
        eapply returns_weaken; [apply (proj1 (IH (S i) c1 ltac:(lia))) |]. intros a Ha. cbv beta in *. simpl. lia.
    + intros w Hw. cbn [convert_loop]. unfold stop_convert_requested. cbn [bind gets]. rewrite Hw. cbn [stop_seen].
      destruct (Hitem w) as (c1 & w1 & E1 & Hc1). rewrite (bind_ok _ _ _ _ _ E1).
      assert (Hw1 : w_stop_convert w1 = None).
      { rewrite <- Hw. replace w1 with (snd (convert_item tool out skip flip total i f c w)) by now rewrite E1.
        apply (frame_keeps_flag ConvertFlag), frame_convert_item. }
      destruct (proj2 (IH (S i) c1 ltac:(lia)) w1 Hw1) as (c2 & w2 & E2 & Hc2).
      exists c2, w2. split; [exact E2 | simpl; lia].
Qed.

(** The conversion loop is the workers' [item_loop]. *)
Lemma convert_loop_item_loop tool out skip flip total i files c w :
  convert_loop tool out skip flip total i files c w =
  item_loop stop_convert_requested "转换已停止" (convert_item tool out skip flip total) i files c w.
Proof.
  revert i c w. induction files as [|f fs IH]; intros i c w; [reflexivity|].
  cbn [convert_loop item_loop]. unfold bind. destruct (stop_convert_requested w) as [[[]|e] w0]; [reflexivity| |reflexivity].
  destruct (convert_item tool out skip flip total i f c w0) as [[c'|e] w1]; [apply IH | reflexivity].
Qed.

(** Conversion progress is reported in item order: whatever happens in
    a run of the conversion loop (a stop click, an exception), the
    [NcmProgress] signals it sends are, in the order sent, exactly those of
    its first [k] files, one per file by increasing index, for some [k] at
    most the number of files. *)
Theorem convert_loop_progress_in_order tool out skip flip total i files c w :
  exists k new, k <= length files /\
    w_events (snd (convert_loop tool out skip flip total i files c w)) = new ++ w_events w /\
    progress_trace new = item_events (item_ncm_progress_event total) i (firstn k files).
Proof.
  rewrite convert_loop_item_loop. apply item_loop_progress.
  - apply silent_gets.
  - apply convert_item_progress.
Qed.

(** C13: Once the worker sees the stop flag at an item boundary it starts no
    further item: it logs "转换已停止" and returns the counts so far,
    touching neither files nor the tool. *)
Theorem convert_loop_stops_when_flag_seen (tool out : string) (skip flip : bool) (total i : nat)
    (f : string) (fs : list string) (c : counts) (w : world) :
  stop_seen (w_stop_convert w) (w_clock w) = true ->
  convert_loop tool out skip flip total i (f :: fs) c w =
  (Ok c, set_events (Log "转换已停止" :: w_events w) w).
Proof.
  intros Hs. simpl. unfold stop_convert_requested. cbn [bind gets]. rewrite Hs. reflexivity.
Qed.

(** C15: With skip-existing on, a file whose derived target (after the
    optional flip) exists in the output directory is counted as skipped
    without running the tool: the files, directories and the tool's
    scripted runs are unchanged. *)
Theorem convert_item_skips_derived_name (tool out : string) (flip : bool) (total i : nat)
    (f : string) (c : counts) (p : Z) (w : world) :
  progress_percent i total = Some p ->
  path_exists w (nt_join out (target_filename (fst (splitext (nt_basename f))) flip)) = true ->
  exists w', convert_item tool out true flip total i f c w = (Ok (add_skip c), w') /\
    w_procs w' = w_procs w /\ w_files w' = w_files w /\ w_dirs w' = w_dirs w.
Proof.
  intros Hp Hex. unfold convert_item, int_progress. rewrite Hp. cbn [lift bind ret emit modify log].
  rewrite os_path_exists_bind, !path_exists_events, Hex. eexists. split; [reflexivity | auto].
Qed.

(** C8: Every run of the conversion worker returns (no exception leaves the
    thread) and its last two signals are a completion ([NcmComplete]) or an
    error ([NcmError]) report, then the button state that re-enables the
    start button. *)
Theorem convert_ncm_files_reports (tool input_dir out : string) (skip flip : bool) (w : world) :
  exists w' ev rest, convert_ncm_files tool input_dir out skip flip w = (Ok tt, w') /\
    w_events w' = NcmButtonState true false :: ev :: rest /\
    ((exists s f, ev = NcmComplete s f) \/ (exists m, ev = NcmError m)).
Proof.
  apply worker_shape.
  - unfold log. solve_ends.
  - intros e. unfold log. solve_ends.
  - intros e. unfold log. solve_returns.
Qed.

(** ** Examples *)

(** Two sources whose names differ only in the case of the extension: both
    derive the target [B - A.mp3]. *)
Definition collision_world : world :=
  conv_world [ncmdump_run; ncmdump_run] [("C:\in\A - B.ncm", "CTENFDAM"); ("C:\in\A - B.NCM", "CTENFDAM")].

(** A tool that writes its output next to the source file. *)
Definition beside_writes (argv : list string) : list (string * string) :=
  match argv with
  | [_; src; _; _] => [(mp3_of src, "ID3")]
  | _ => []
  end.

Definition beside_world : world :=
  conv_world [mk_proc 500000 0 "" beside_writes] [("C:\in\A - B.ncm", "CTENFDAM")].

(** Two files whose flipped target names collide: the second file's
    rename fails (the target exists, [WinError 183]); it is logged as a
    warning, the conversion still counts as a success (two successes, no
    failure), and the second raw output stays under its tool-given name. *)
Theorem flip_collision_counts_both (w' : world) :
  convert_ncm_files "ncmdump.exe" "C:\in" "C:\out" false true collision_world = (Ok tt, w') ->
  nth 1 (w_events w') (Log "") = NcmComplete 2 0 /\
  nth 4 (w_events w') (Log "") =
    Log "[2/2] 转换成功，但重命名失败: [WinError 183] Cannot create a file when that file already exists" /\
  w_files w' !! "C:\out\B - A.mp3" = Some "ID3" /\ w_files w' !! "C:\out\A - B.mp3" = Some "ID3".
Proof. vm_compute. intros H. injection H as <-. vm_compute. repeat split. Qed.

Lemma flip_collision_counts_both_witness :
  exists w', convert_ncm_files "ncmdump.exe" "C:\in" "C:\out" false true collision_world = (Ok tt, w') /\
  nth 1 (w_events w') (Log "") = NcmComplete 2 0 /\
  nth 4 (w_events w') (Log "") =
    Log "[2/2] 转换成功，但重命名失败: [WinError 183] Cannot create a file when that file already exists" /\
  w_files w' !! "C:\out\B - A.mp3" = Some "ID3" /\ w_files w' !! "C:\out\A - B.mp3" = Some "ID3".
Proof.
  eexists. split; [vm_compute; reflexivity |]. apply flip_collision_counts_both. vm_compute. reflexivity.
Defined.



Lemma convert_loop_counts_witness :
  progress_finite 2 = true /\ 0 + length ["C:\in\A - B.ncm"; "C:\in\A - B.NCM"] <= 2 /\
  (returns (fun c' => count_sum counts0 <= count_sum c' <= count_sum counts0 + 2)
     (convert_loop "ncmdump.exe" "C:\out" false true 2 0 ["C:\in\A - B.ncm"; "C:\in\A - B.NCM"] counts0) /\
   (forall w, w_stop_convert w = None ->
      exists c' w', convert_loop "ncmdump.exe" "C:\out" false true 2 0
                      ["C:\in\A - B.ncm"; "C:\in\A - B.NCM"] counts0 w = (Ok c', w') /\
                    count_sum c' = count_sum counts0 + 2)).
Proof.
  split; [vm_compute; reflexivity | split; [simpl; lia |]].
  apply (convert_loop_counts "ncmdump.exe" "C:\out" false true 2 0 ["C:\in\A - B.ncm"; "C:\in\A - B.NCM"] counts0);
    [vm_compute; reflexivity | simpl; lia].
Defined.

Lemma convert_loop_stops_when_flag_seen_witness :
  stop_seen (w_stop_convert (set_stop_convert (Some 0%Q) collision_world))
            (w_clock (set_stop_convert (Some 0%Q) collision_world)) = true /\
  convert_loop "ncmdump.exe" "C:\out" false true 2 0 ["C:\in\A - B.ncm"; "C:\in\A - B.NCM"] counts0
    (set_stop_convert (Some 0%Q) collision_world) =
  (Ok counts0, set_events (Log "转换已停止" :: w_events (set_stop_convert (Some 0%Q) collision_world))
                 (set_stop_convert (Some 0%Q) collision_world)).
Proof.
  split; [vm_compute; reflexivity |]. apply convert_loop_stops_when_flag_seen. vm_compute. reflexivity.
Defined.

Lemma convert_item_skips_derived_name_witness :
  progress_percent 0 1 = Some 100%Z /\
  path_exists (set_files (<["C:\out\B - A.mp3" := "ID3"]> (w_files beside_world)) beside_world)
    (nt_join "C:\out" (target_filename (fst (splitext (nt_basename "C:\in\A - B.ncm"))) true)) = true /\
  exists w', convert_item "ncmdump.exe" "C:\out" true true 1 0 "C:\in\A - B.ncm" counts0
    (set_files (<["C:\out\B - A.mp3" := "ID3"]> (w_files beside_world)) beside_world) =
    (Ok (add_skip counts0), w') /\
    w_procs w' = w_procs beside_world /\
    w_files w' = <["C:\out\B - A.mp3" := "ID3"]> (w_files beside_world) /\
    w_dirs w' = w_dirs beside_world.
Proof.
  split; [vm_compute; reflexivity | split; [vm_compute; reflexivity |]].
  apply (convert_item_skips_derived_name _ _ _ _ _ _ _ 100%Z); vm_compute; reflexivity.
Defined.
