(* ===== verification/DownloadTask.v ===== *)
(** * The download task and the settings page of the window: src/utils/ui.py

    [start_download] reads the form, refuses a speed that is not an integer
    or an empty playlist id, clears the stop flag and starts the worker
    [download_playlist_ui] ([MainWindow.download_playlist]).  The worker
    resolves the playlist ([Resolver.get_playlist_songs]), then walks the
    songs ([download_loop], one [download_item] each) through
    [Downloader.download_song], and classifies each result as downloaded,
    skipped or failed.  [stop_download_task] is the stop button;
    [save_request_interval] and [test_api] are the settings page's two
    buttons.  [downloader_download_playlist] is
    [SongDownloader.download_playlist] of src/utils/downloader.py, which the
    window does not call. *)

From Stdlib Require Import String Ascii List ZArith QArith Lia Bool.
From stdpp Require Import gmap.
From S2P Require Import Prelude Json NtPath World PyFloat Transport Resolver Location Downloader Window.
Import ListNotations.
Open Scope string_scope.
Open Scope py_scope.

(** [f"{song['artist']} - {song['name']}"] *)
Definition song_label (song : song_info) : string :=
  py_str (si_artist song) ++ " - " ++ py_str (si_name song).

(** [success, message = ...] on the [None] that [download_song] would
    return if its loop ended without a [return]. *)
Definition unpack_none : exn := TypeError "cannot unpack non-iterable NoneType object".

(** The body of the loop for the [i]-th song. *)
Definition download_item (save_path quality : string) (speed_limit : Z) (skip_existing : bool)
    (filename_format : Z) (total i : nat) (song : song_info) (c : counts) : M counts :=
  let tag := item_tag i total in
  pct <- int_progress i total ;;
  emit (Progress pct ("正在下载: " ++ song_label song ++ " (" ++ str_of_nat (S i) ++ "/"
                      ++ str_of_nat total ++ ")")) ;;
  log (tag ++ "正在处理: " ++ song_label song) ;;
  r <- download_song song save_path (Some quality) speed_limit skip_existing filename_format ;;
  match r with
  | None => raise unpack_none
  | Some (success, message) =>
      if success then
        if str_in "已跳过" message then
          log (tag ++ message) ;; ret (add_skip c)
        else
          log (tag ++ "下载成功: " ++ message) ;; ret (add_success c)
      else
        log (tag ++ "下载失败: " ++ message) ;; ret (add_fail c)
  end.

(** [if self.stop_download:] *)
Definition stop_download_requested : M bool :=
  gets (fun w => stop_seen (w_stop_download w) (w_clock w)).

(** [for i, song in enumerate(songs): ...], from index [i]. *)
Fixpoint download_loop (save_path quality : string) (speed_limit : Z) (skip_existing : bool)
    (filename_format : Z) (total i : nat) (songs : list song_info) (c : counts) : M counts :=
  match songs with
  | [] => ret c
  | s :: ss =>
      stop <- stop_download_requested ;;
      if stop then log "下载已停止" ;; ret c
      else
        c' <- download_item save_path quality speed_limit skip_existing filename_format total i s c ;;
        download_loop save_path quality speed_limit skip_existing filename_format total (S i) ss c'
  end.

(** The [Progress] signal [download_item] sends for the [i]-th song, when
    its percentage is a finite float. *)
Definition item_progress_event (total i : nat) (song : song_info) : list ui_event :=
  match progress_percent i total with
  | Some p => [Progress p ("正在下载: " ++ song_label song ++ " (" ++ str_of_nat (S i) ++ "/"
                             ++ str_of_nat total ++ ")")]
  | None => []
  end.

(** [traceback.format_exc()]: its first and last lines; the stack frames
    in between are not modelled. *)
Definition format_exc (e : exn) : string :=
  "Traceback (most recent call last):" ++ newline ++ exn_class_name e ++ ": " ++ exn_str e ++ newline.

(** The three [except] clauses of [download_playlist]. *)
Definition download_handler (e : exn) : M unit :=
  match e with
  | KeyError _ =>
      log ("下载失败: API响应结构异常 - " ++ exn_str e) ;;
      emit (DownloadError ("API响应结构异常: " ++ exn_str e))
  | RequestException _ _ =>
      log ("下载失败: 网络请求异常 - " ++ exn_str e) ;;
      emit (DownloadError ("网络请求异常: " ++ exn_str e))
  | _ =>
      log ("下载失败: 发生未知错误 - " ++ exn_str e) ;;
      log ("错误详细信息: " ++ format_exc e) ;;
      emit (DownloadError ("未知错误: " ++ exn_str e))
  end.

Definition download_summary (c : counts) (total : nat) : string :=
  "歌单下载完成! 成功: " ++ str_of_nat (c_success c) ++ ", 跳过: " ++ str_of_nat (c_skip c)
  ++ ", 失败: " ++ str_of_nat (c_fail c) ++ ", 总计: " ++ str_of_nat total.

(** [MainWindow.download_playlist], the worker thread. *)
Definition download_playlist_ui (list_id save_path quality : string) (speed_limit : Z)
    (skip_existing : bool) (filename_format : Z) : M unit :=
  try_finally
    (try_except any_exn
       (log ("开始下载歌单: " ++ list_id) ;;
        log ("音质: " ++ quality ++ ", 保存路径: " ++ save_path) ;;
        log ("跳过已存在文件: " ++ yes_no skip_existing) ;;
        log ("文件名格式: " ++ (if Z.eqb filename_format 0 then "歌名 - 作者" else "作者 - 歌名")) ;;
        log "正在获取歌单歌曲列表..." ;;
        songs <- get_playlist_songs list_id ;;
        log ("获取到 " ++ str_of_nat (length songs) ++ " 首歌曲") ;;
        c <- download_loop save_path quality speed_limit skip_existing filename_format
               (length songs) 0 songs counts0 ;;
        emit (Progress 100 "下载完成") ;;
        log (download_summary c (length songs)) ;;
        emit (DownloadComplete (Z.of_nat (c_success c)) (Z.of_nat (c_fail c))))
       download_handler)
    (emit (ButtonState true false)).

Definition speed_not_int : string := "下载速度必须是整数".
Definition no_list_id : string := "请输入歌单ID".

(** The checks of [MainWindow.start_download]: the error it shows, or the
    stripped playlist id and the speed limit. *)
Definition download_args (list_id_text speed_text : string) : string + (string * Z) :=
  let list_id := py_strip list_id_text in
  match py_int_of_str speed_text with
  | inl _ => inl speed_not_int
  | inr speed_limit => if String.eqb list_id "" then inl no_list_id else inr (list_id, speed_limit)
  end.

(** [self.stop_download = False] *)
Definition reset_stop_download : M unit :=
  modify (fun w => set_stop_download (reset_stop (w_stop_download w) (w_clock w)) w).

(** [MainWindow.start_download] followed by the worker it starts; [Some msg]
    is the error the window shows instead of starting. *)
Definition start_download (list_id_text quality save_path speed_text : string)
    (skip_existing : bool) (filename_format : Z) : M (option string) :=
  match download_args list_id_text speed_text with
  | inl msg => ret (Some msg)
  | inr (list_id, speed_limit) =>
      reset_stop_download ;;
      download_playlist_ui list_id save_path quality speed_limit skip_existing filename_format ;;
      ret None
  end.

(** [MainWindow.stop_download_task] *)
Definition stop_download_task : M unit :=
  t <- time_time ;;
  modify (set_stop_download (Some t)) ;;
  log "正在停止下载...".

(** What [InfoBar.success] / [InfoBar.error] show. *)
Inductive info_bar := InfoSuccess (title content : string) | InfoError (title content : string).

Definition is_value_error (e : exn) : bool := match e with ValueError _ => true | _ => false end.

(** [MainWindow.save_request_interval] with the entry's text. *)
Definition save_request_interval (text : string) : M info_bar :=
  try_except is_value_error
    (interval <- lift (py_int_of_str text) ;;
     (if Z.ltb interval 0 then raise (ValueError "请求间隔不能为负数") else ret tt) ;;
     set_request_interval interval ;;
     log ("API请求间隔已设置为 " ++ str_of_Z interval ++ " 毫秒") ;;
     ret (InfoSuccess "成功" ("API请求间隔已设置为 " ++ str_of_Z interval ++ " 毫秒")))
    (fun e => ret (InfoError "错误" ("请输入有效的请求间隔: " ++ exn_str e))).

Definition test_playlist_id : string := "3778678".

(** [test_api], the thread [MainWindow.test_api_feasibility] starts. *)
Definition test_api : M unit :=
  try_except any_exn
    (log "正在测试API可行性..." ;;
     songs <- get_playlist_songs test_playlist_id ;;
     match songs with
     | _ :: _ =>
         log "API测试成功" ;;
         emit (ApiTest "API测试成功" "API服务正常，可以使用下载功能" 0)
     | [] =>
         log "API测试失败: 未获取到歌曲列表" ;;
         emit (ApiTest "API测试警告" "API服务可能异常，获取歌曲列表为空。可手动再次检测" 1)
     end)
    (fun e => log ("API测试失败: " ++ exn_str e) ;;
              emit (ApiTest "API测试失败" ("API服务异常，无法使用下载功能: " ++ exn_str e
                                           ++ "。可手动再次检测") 2)).

(** ** [SongDownloader.download_playlist] *)

Record dl_result := mk_dl_result {
  d_song : option song_info;
  d_success : bool;
  d_message : string
}.

Fixpoint download_each (save_path : string) (quality : option string) (speed_limit : Z)
    (songs : list song_info) : M (list dl_result) :=
  match songs with
  | [] => ret []
  | s :: ss =>
      r <- download_song s save_path quality speed_limit false 0 ;;
      match r with
      | None => raise unpack_none
      | Some (success, message) =>
          rs <- download_each save_path quality speed_limit ss ;;
          ret (mk_dl_result (Some s) success message :: rs)
      end
  end.

Definition downloader_download_playlist (list_id save_path : string) (quality : option string)
    (speed_limit : Z) : M (list dl_result) :=
  try_except any_exn
    (songs <- get_playlist_songs list_id ;;
     match songs with
     | [] => raise (ValueError ("No songs found in playlist: " ++ list_id))
     | _ =>
         os_makedirs save_path ;;
         download_each save_path quality speed_limit songs
     end)
    (fun e => ret [mk_dl_result None false (exn_str e)]).

Open Scope list_scope.

(** ** The stop flags are read only between items *)

Section Frames.
Variable fl : stop_flag.

Lemma frame_request_with_retry (url : string) (n : nat) : stop_frame fl (request_with_retry url n).
Proof.
  unfold request_with_retry, request_interval_seconds, song_download_api, sub2. solve_frame.
  generalize (seq 0 n). intros rs. induction rs as [|r rs IH]; simpl; [solve_frame |].
  unfold attempt. solve_frame.
Qed.

Lemma frame_get_song_download_url (id : string) (q : option string) :
  stop_frame fl (get_song_download_url id q).
Proof.
  pose proof frame_request_with_retry.
  unfold get_song_download_url, read_location, response_text_opt, response_json_opt,
    song_download_api, sub2. solve_frame.
Qed.

Lemma frame_download_file (url : json) (fp : string) (sl : Z) : stop_frame fl (download_file url fp sl).
Proof.
  assert (Hs : forall st d cs, stop_frame fl (stream_chunks fp sl st d cs)).
  { intros st d cs. revert d. induction cs as [|[t c] cs IH]; intros d; simpl;
      unfold rate_limit; solve_frame. }
  unfold download_file. solve_frame.
Qed.

Lemma frame_download_song (song : song_info) (save_path : string) (q : option string) (sl : Z)
    (skip : bool) (ff : Z) : stop_frame fl (download_song song save_path q sl skip ff).
Proof.
  pose proof frame_get_song_download_url. pose proof frame_download_file.
  unfold download_song. solve_frame.
  generalize (seq 0 max_retries). intros rs. induction rs as [|r rs IH]; simpl; [solve_frame |].
  unfold download_attempt, throttle. solve_frame.
Qed.

End Frames.

(** ** The transfer sends no signal *)

Lemma silent_request_with_retry (url : string) (n : nat) : silent (request_with_retry url n).
Proof.
  unfold request_with_retry, request_interval_seconds, song_download_api, sub2. solve_silent.
  generalize (seq 0 n). intros rs. induction rs as [|r rs IH]; simpl; [solve_silent |].
  unfold attempt. solve_silent.
Qed.

Lemma silent_download_song (song : song_info) (save_path : string) (q : option string) (sl : Z)
    (skip : bool) (ff : Z) : silent (download_song song save_path q sl skip ff).
Proof.
  assert (Hurl : forall id q, silent (get_song_download_url id q)).
  { pose proof silent_request_with_retry.
    intros id q'. unfold get_song_download_url, read_location, response_text_opt, response_json_opt,
      song_download_api, sub2. solve_silent. }
  assert (Hfile : forall url fp sl, silent (download_file url fp sl)).
  { intros url fp sl'.
    assert (Hs : forall st d cs, silent (stream_chunks fp sl' st d cs)).
    { intros st d cs. revert d. induction cs as [|[t c] cs IH]; intros d; simpl;
        unfold rate_limit; solve_silent. }
    unfold download_file. solve_silent. }
  unfold download_song. solve_silent.
  generalize (seq 0 max_retries). intros rs. induction rs as [|r rs IH]; simpl; [solve_silent |].
  unfold download_attempt, throttle. solve_silent.
Qed.

Lemma frame_download_item (save_path quality : string) (sl : Z) (skip : bool) (ff : Z)
    (total i : nat) (song : song_info) (c : counts) :
  stop_frame DownloadFlag (download_item save_path quality sl skip ff total i song c).
Proof.
  pose proof (frame_download_song DownloadFlag).
  unfold download_item, int_progress, log. solve_frame.
Qed.

(** Transferring one song ([download_item]: its location fetch with
    every retry and sleep, its stream and its rate limiting) never reads or
    writes [self.stop_download]: a stop click during a song changes nothing
    of that song, which runs to its end; the flag is read at the next song. *)
Theorem download_item_ignores_stop (save_path quality : string) (sl : Z) (skip : bool) (ff : Z)
    (total i : nat) (song : song_info) (c : counts) :
  stop_frame DownloadFlag (download_item save_path quality sl skip ff total i song c).
Proof. apply frame_download_item. Qed.

(** ** Progress signals follow the item order *)

#[local] Hint Resolve silent_download_song : silent.

(** One song sends its [Progress] signal (when the percentage is finite)
    and log lines, nothing else: the transfer itself is silent. *)
Lemma download_item_progress sp q sl skip ff total i s c w :
  exists new, w_events (snd (download_item sp q sl skip ff total i s c w)) = new ++ w_events w /\
    progress_trace new = item_progress_event total i s.
Proof.
  unfold download_item, int_progress, item_progress_event.
  destruct (progress_percent i total) as [p|]; [|exists []; split; reflexivity].
  rewrite bind_lift_inr. cbv beta. apply progress_then; [reflexivity|]. solve_no_progress.
Qed.

(** The download loop is the workers' [item_loop]. *)
Lemma download_loop_item_loop sp q sl skip ff total i songs c w :
  download_loop sp q sl skip ff total i songs c w =
  item_loop stop_download_requested "下载已停止" (download_item sp q sl skip ff total) i songs c w.
Proof.
  revert i c w. induction songs as [|s ss IH]; intros i c w; [reflexivity|].
  cbn [download_loop item_loop]. unfold bind. destruct (stop_download_requested w) as [[[]|e] w0]; [reflexivity| |reflexivity].
  destruct (download_item sp q sl skip ff total i s c w0) as [[c'|e] w1]; [apply IH | reflexivity].
Qed.


(** Once the worker sees the stop flag at a song boundary it starts no
    further song: it logs "下载已停止" and returns the counts so far, with
    no request sent. *)
Theorem download_loop_stops_when_flag_seen (save_path quality : string) (sl : Z) (skip : bool)
    (ff : Z) (total i : nat) (s : song_info) (ss : list song_info) (c : counts) (w : world) :
  stop_seen (w_stop_download w) (w_clock w) = true ->
  download_loop save_path quality sl skip ff total i (s :: ss) c w =
  (Ok c, set_events (Log "下载已停止" :: w_events w) w).
Proof.
  intros Hs. simpl. unfold stop_download_requested. cbn [bind gets]. rewrite Hs. reflexivity.
Qed.

(** C9: Every run of the download worker returns (no exception leaves the
    thread) and its last two signals are a completion ([DownloadComplete])
    or an error ([DownloadError], for a structure, a network or any other
    exception), then the button state that re-enables the start button. *)
Theorem download_playlist_ui_reports (list_id save_path quality : string) (sl : Z) (skip : bool)
    (ff : Z) (w : world) :
  exists w' ev rest, download_playlist_ui list_id save_path quality sl skip ff w = (Ok tt, w') /\
    w_events w' = ButtonState true false :: ev :: rest /\
    ((exists s f, ev = DownloadComplete s f) \/ (exists m, ev = DownloadError m)).
Proof.
  apply worker_shape.
  - unfold log. solve_ends.
  - intros e. unfold download_handler, log. solve_ends.
  - intros e. unfold download_handler, log. solve_returns.
Qed.

(** [start_download] validates before starting: a speed that [int()]
    rejects is reported first ("下载速度必须是整数"), then a playlist id that
    is empty after [strip()] ("请输入歌单ID"); in both cases nothing else
    happens (no request, no signal, the stop flag untouched). *)
Theorem start_download_rejects (list_id_text quality save_path speed_text : string) (skip : bool)
    (ff : Z) (w : world) :
  (forall e, py_int_of_str speed_text = inl e ->
     start_download list_id_text quality save_path speed_text skip ff w = (Ok (Some speed_not_int), w)) /\
  (forall sl, py_int_of_str speed_text = inr sl -> py_strip list_id_text = "" ->
     start_download list_id_text quality save_path speed_text skip ff w = (Ok (Some no_list_id), w)).
Proof.
  unfold start_download, download_args. split; [intros e -> | intros sl -> ->]; reflexivity.
Qed.

Lemma start_download_rejects_witness :
  py_int_of_str "10k" = inl (ValueError ("invalid literal for int() with base 10: " ++ repr_str "10k")) /\
  start_download "  " "320k" "C:\music" "10k" false 0 (dl_world []) = (Ok (Some speed_not_int), dl_world []) /\
  py_int_of_str " 0 " = inr 0%Z /\ py_strip "  " = "" /\
  start_download "  " "320k" "C:\music" " 0 " false 0 (dl_world []) = (Ok (Some no_list_id), dl_world []).
Proof.
  pose proof (start_download_rejects "  " "320k" "C:\music" "10k" false 0 (dl_world [])) as [H1 _].
  pose proof (start_download_rejects "  " "320k" "C:\music" " 0 " false 0 (dl_world [])) as [_ H2].
  split; [reflexivity | split; [eapply H1; reflexivity |]].
  split; [reflexivity | split; [reflexivity |]]. apply (H2 0%Z); reflexivity.
Defined.

(** The "已跳过" example: a save directory whose name contains the
    skip marker. *)
Definition marker_dir : string := "C:\已跳过".

Definition marker_world : world :=
  set_dirs {[marker_dir]} (dl_world [NetOk 0 location_response; NetOk 0 file_response]).



(** The API test always returns; its last signal is an [ApiTest] whose
    kind is 0 when the test playlist resolves to songs, 1 when it resolves
    to none, and 2 when the resolution raises. *)
Theorem test_api_classifies (w : world) :
  let w0 := set_events (Log "正在测试API可行性..." :: w_events w) w in
  exists w' title content k rest, test_api w = (Ok tt, w') /\
    w_events w' = ApiTest title content k :: rest /\
    k = match fst (get_playlist_songs test_playlist_id w0) with
        | Ok (_ :: _) => 0%Z
        | Ok [] => 1%Z
        | Raise _ => 2%Z
        end.
Proof.
  intros w0. unfold test_api, try_except, log. cbn [bind emit modify].
  fold w0. unfold bind at 1. destruct (get_playlist_songs test_playlist_id w0) as [[[|s ss]|e] w1]; simpl;
    do 5 eexists; (split; [reflexivity | split; reflexivity]).
Qed.

(** Saving the request interval refuses, with an error notification and
    without touching the config or any file, a text that [int()] rejects
    and a negative number. *)
Theorem save_request_interval_rejects (text : string) (w : world) :
  (forall m, py_int_of_str text = inl (ValueError m) ->
     save_request_interval text w = (Ok (InfoError "错误" ("请输入有效的请求间隔: " ++ m)), w)) /\
  (forall z, py_int_of_str text = inr z -> (z < 0)%Z ->
     save_request_interval text w =
     (Ok (InfoError "错误" "请输入有效的请求间隔: 请求间隔不能为负数"), w)).
Proof.
  unfold save_request_interval, try_except. split.
  - intros m H. rewrite H. reflexivity.
  - intros z H Hz. rewrite H. cbn [lift bind ret]. apply Z.ltb_lt in Hz. rewrite Hz. reflexivity.
Qed.

Lemma save_request_interval_rejects_witness :
  py_int_of_str "-5" = inr (-5)%Z /\ (-5 < 0)%Z /\
  save_request_interval "-5" (dl_world []) =
  (Ok (InfoError "错误" "请输入有效的请求间隔: 请求间隔不能为负数"), dl_world []).
Proof.
  split; [reflexivity | split; [lia |]].
  apply (proj2 (save_request_interval_rejects "-5" (dl_world [])) (-5)%Z); [reflexivity | lia].
Defined.

Lemma download_each_shape (sp : string) (q : option string) (sl : Z) (songs : list song_info) :
  forall w rs w', download_each sp q sl songs w = (Ok rs, w') -> map d_song rs = map Some songs.
Proof.
  induction songs as [|s ss IH]; intros w rs w' H; simpl in H.
  - injection H as <- _. reflexivity.
  - unfold bind at 1 in H. destruct (download_song s sp q sl false 0 w) as [[[[ok m]|]|e] w1];
      try discriminate.
    unfold bind in H. destruct (download_each sp q sl ss w1) as [[rs'|e] w2] eqn:E; [| discriminate].
    injection H as <- _. simpl. f_equal. eapply IH. exact E.
Qed.

(** [SongDownloader.download_playlist] always returns a list: one
    result per resolved song, in order, or a single result without a song
    whose message is the exception's (an empty playlist, a resolution or a
    directory error). *)
Theorem downloader_download_playlist_shape (list_id sp : string) (q : option string) (sl : Z)
    (w : world) :
  exists rs w', downloader_download_playlist list_id sp q sl w = (Ok rs, w') /\
    ((exists songs w1, get_playlist_songs list_id w = (Ok songs, w1) /\ songs <> [] /\
                       map d_song rs = map Some songs) \/
     (exists m, rs = [mk_dl_result None false m])).
Proof.
  unfold downloader_download_playlist, try_except, bind at 1.
  destruct (get_playlist_songs list_id w) as [[songs|e] w1] eqn:E; [| simpl; eauto 6].
  destruct songs as [|s ss]; [simpl; eauto 6 |].
  unfold bind. destruct (os_makedirs sp w1) as [[[]|e] w2]; [| simpl; eauto 6].
  destruct (download_each sp q sl (s :: ss) w2) as [[rs|e] w3] eqn:E3; [| simpl; eauto 6].
  exists rs, w3. split; [reflexivity |]. left. exists (s :: ss), w1.
  split; [reflexivity | split; [discriminate | eapply download_each_shape; exact E3]].
Qed.
