(* ===== verification/Slots.v ===== *)
(** * What the window shows: the slots of MainWindow (src/utils/ui.py)

    The worker threads talk to the window only through Qt signals
    ([World.ui_event]); each signal is connected to a slot that updates a
    widget.  [panel] is the state of those widgets, [deliver] the signal
    connections of [MusicDownloaderUI.__init__], one function per slot.
    [run_worker] runs a computation and lets the event loop deliver, in the
    order they were sent, the signals it sent.  [fetch_version] is the
    version check thread.

    [emits_only] and [reports] say which signals a computation sends; the
    class [WorkerThread] states what the window relies on of a worker
    thread (it returns, sends feed signals, one report, then its final
    signals), [worker_delivered] is proved against it, and the download,
    conversion and API-test threads are its instances. *)

From Stdlib Require Import String List ZArith QArith Lia Bool.
From S2P Require Import Prelude Json World PyFloat Transport Resolver Location Downloader Window Converter ConvertTask DownloadTask.
Import ListNotations.
Open Scope string_scope.
Open Scope py_scope.

(** ** The widgets *)

(** [InfoBar.success], [InfoBar.warning], [InfoBar.error]. *)
Inductive info_level := LevelSuccess | LevelWarning | LevelError.

(** One [InfoBar]: its kind, title, content and [duration] (ms); all are
    shown at [BOTTOM_RIGHT], horizontal and closable. *)
Record notice := mk_notice { n_level : info_level; n_title : string; n_content : string; n_duration : Z }.

(** A page's progress card: the bar, the label under it, and the start and
    stop buttons' [isEnabled()]. *)
Record progress_view := mk_view {
  v_value : Z; v_label : string; v_start_enabled : bool; v_stop_enabled : bool }.

Record panel := mk_panel {
  p_log : list string;          (** the paragraphs of [log_text], oldest first *)
  p_playlist : progress_view;   (** [PlaylistPage]: download / stop buttons *)
  p_ncm : progress_view;        (** [NcmConvertPage]: convert / stop buttons *)
  p_notices : list notice;      (** the InfoBars shown, newest first *)
  p_latest_version : string;    (** [self.latest_version] *)
  p_version_label : string      (** [latest_version_label.text()] *)
}.

Definition set_playlist (v : progress_view) (p : panel) : panel :=
  mk_panel (p_log p) v (p_ncm p) (p_notices p) (p_latest_version p) (p_version_label p).
Definition set_ncm (v : progress_view) (p : panel) : panel :=
  mk_panel (p_log p) (p_playlist p) v (p_notices p) (p_latest_version p) (p_version_label p).

(** [InfoBar.*(..., parent=self)] *)
Definition show_notice (n : notice) (p : panel) : panel :=
  mk_panel (p_log p) (p_playlist p) (p_ncm p) (n :: p_notices p) (p_latest_version p) (p_version_label p).

(** [QProgressBar.setValue]: a value outside the range (0 to 100, never
    changed by ui.py) leaves the bar as it is. *)
Definition bar_set_value (v old : Z) : Z := if ((0 <=? v) && (v <=? 100))%Z then v else old.

(** [progress_bar.setValue(progress); progress_label.setText(text)] *)
Definition view_progress (progress : Z) (text : string) (v : progress_view) : progress_view :=
  mk_view (bar_set_value progress (v_value v)) text (v_start_enabled v) (v_stop_enabled v).

(** [start_button.setEnabled(a); stop_button.setEnabled(b)] *)
Definition view_buttons (start_enabled stop_enabled : bool) (v : progress_view) : progress_view :=
  mk_view (v_value v) (v_label v) start_enabled stop_enabled.

(** ** The slots *)

(** [log_slot]: [log_text.append(message)]; the scroll to the bottom is
    not modelled. *)
Definition log_slot (message : string) (p : panel) : panel :=
  mk_panel (p_log p ++ [message]) (p_playlist p) (p_ncm p) (p_notices p) (p_latest_version p)
    (p_version_label p).

Definition progress_slot (progress : Z) (text : string) (p : panel) : panel :=
  set_playlist (view_progress progress text (p_playlist p)) p.

Definition ncm_progress_slot (progress : Z) (text : string) (p : panel) : panel :=
  set_ncm (view_progress progress text (p_ncm p)) p.

Definition button_state_slot (download_enabled stop_enabled : bool) (p : panel) : panel :=
  set_playlist (view_buttons download_enabled stop_enabled (p_playlist p)) p.

Definition ncm_button_state_slot (convert_enabled stop_enabled : bool) (p : panel) : panel :=
  set_ncm (view_buttons convert_enabled stop_enabled (p_ncm p)) p.

(** The three branches [download_complete_slot] and [ncm_complete_slot]
    share; [done_] and [failed] are "歌单下载" / "NCM转换" followed by
    "完成! " or "失败! ". *)
Definition complete_notice (done_ failed : string) (success_count fail_count : Z) : notice :=
  if Z.eqb fail_count 0 then
    mk_notice LevelSuccess "成功" (done_ ++ "成功: " ++ str_of_Z success_count) 5000
  else if Z.ltb 0 success_count then
    mk_notice LevelWarning "部分成功"
      (done_ ++ "成功: " ++ str_of_Z success_count ++ ", 失败: " ++ str_of_Z fail_count) 5000
  else
    mk_notice LevelError "失败" (failed ++ "失败: " ++ str_of_Z fail_count) 5000.

Definition download_complete_slot (success_count fail_count : Z) (p : panel) : panel :=
  show_notice (complete_notice "歌单下载完成! " "歌单下载失败! " success_count fail_count) p.

Definition ncm_complete_slot (success_count fail_count : Z) (p : panel) : panel :=
  show_notice (complete_notice "NCM转换完成! " "NCM转换失败! " success_count fail_count) p.

(** The notifications of [download_error_slot] and [ncm_error_slot]. *)
Definition download_error_notice (error_message : string) : notice :=
  mk_notice LevelError "错误" ("下载失败: " ++ error_message) 5000.

Definition ncm_error_notice (error_message : string) : notice :=
  mk_notice LevelError "错误" ("NCM转换失败: " ++ error_message) 5000.

Definition download_error_slot (error_message : string) (p : panel) : panel :=
  show_notice (download_error_notice error_message) p.

Definition ncm_error_slot (error_message : string) (p : panel) : panel :=
  show_notice (ncm_error_notice error_message) p.

(** The notification of [api_test_result_slot(title, content, type)]: 0
    success, 1 warning, anything else error. *)
Definition api_test_notice (title content : string) (type : Z) : notice :=
  let level := if Z.eqb type 0 then LevelSuccess else if Z.eqb type 1 then LevelWarning else LevelError in
  mk_notice level title content 5000.

Definition api_test_result_slot (title content : string) (type : Z) (p : panel) : panel :=
  show_notice (api_test_notice title content type) p.

Definition update_latest_version (version : string) (p : panel) : panel :=
  mk_panel (p_log p) (p_playlist p) (p_ncm p) (p_notices p) version ("最新版本: " ++ version).

(** The connections made in [MusicDownloaderUI.__init__]. *)
Definition deliver (ev : ui_event) (p : panel) : panel :=
  match ev with
  | Log m => log_slot m p
  | Progress v t => progress_slot v t p
  | DownloadComplete s f => download_complete_slot s f p
  | DownloadError m => download_error_slot m p
  | ButtonState a b => button_state_slot a b p
  | NcmProgress v t => ncm_progress_slot v t p
  | NcmComplete s f => ncm_complete_slot s f p
  | NcmError m => ncm_error_slot m p
  | NcmButtonState a b => ncm_button_state_slot a b p
  | ApiTest t c k => api_test_result_slot t c k p
  | Version v => update_latest_version v p
  end.

(** The event loop delivers queued signals in the order they were sent. *)
Definition deliver_all (evs : list ui_event) (p : panel) : panel :=
  fold_left (fun p ev => deliver ev p) evs p.

(** ** Threads, the event loop and the handlers *)

(** The signals sent between [w] and [w'], oldest last. *)
Definition new_events (w w' : world) : list ui_event :=
  firstn (length (w_events w') - length (w_events w)) (w_events w').

(** [threading.Thread(target=c, daemon=True).start()], then the event
    loop: the signals the thread sent reach their slots in the order they
    were sent.  An exception that escapes the thread ends only the thread. *)
Definition run_worker (c : M unit) (p : panel) : M panel :=
  fun w => let w' := snd (c w) in (Ok (deliver_all (rev (new_events w w')) p), w').

Definition version_url : string := "https://ncm.dgtsr.top/version/".

(** [fetch_version], the thread [get_latest_version] starts. *)
Definition fetch_version : M unit :=
  try_except any_exn
    (response <- requests_get version_url ;;
     raise_for_status response ;;
     emit (Version (py_strip (text response))))
    (fun e => log ("获取最新版本号失败: " ++ exn_str e) ;; emit (Version "获取失败")).

Open Scope list_scope.

(** ** Which signals a computation sends *)

(** [emits_only P c]: every signal [c] sends satisfies [P]. *)
Definition emits_only {A} (P : ui_event -> bool) (c : M A) : Prop :=
  forall w, exists new, w_events (snd (c w)) = new ++ w_events w /\ forallb P new = true.

Section EmitsOnly.
Variable P : ui_event -> bool.

Lemma emits_only_silent {A} (c : M A) : silent c -> emits_only P c.
Proof. intros Hc w. exists []. split; [apply Hc | reflexivity]. Qed.

Lemma emits_only_emit (ev : ui_event) : P ev = true -> emits_only P (emit ev).
Proof. intros H w. exists [ev]. simpl. now rewrite H. Qed.

Lemma emits_only_bind {A B} (c : M A) (k : A -> M B) :
  emits_only P c -> (forall a, emits_only P (k a)) -> emits_only P (bind c k).
Proof.
  intros Hc Hk w. unfold bind. destruct (Hc w) as (n1 & E1 & T1).
  destruct (c w) as [[a|e] w1]; simpl in *; [|now exists n1].
  destruct (Hk a w1) as (n2 & E2 & T2). exists (n2 ++ n1).
  rewrite E2, E1, app_assoc, forallb_app, T1, T2. auto.
Qed.

Lemma emits_only_try_except {A} (catches : exn -> bool) (c : M A) (h : exn -> M A) :
  emits_only P c -> (forall e, emits_only P (h e)) -> emits_only P (try_except catches c h).
Proof.
  intros Hc Hh w. unfold try_except. destruct (Hc w) as (n1 & E1 & T1).
  destruct (c w) as [[a|e] w1]; simpl in *; [now exists n1|].
  destruct (catches e); [|now exists n1].
  destruct (Hh e w1) as (n2 & E2 & T2). exists (n2 ++ n1).
  rewrite E2, E1, app_assoc, forallb_app, T1, T2. auto.
Qed.

Lemma emits_only_item_loop {X} (stop : M bool) (msg : string) (item : nat -> X -> counts -> M counts)
    i xs c :
  silent stop -> P (Log msg) = true -> (forall i x c, emits_only P (item i x c)) ->
  emits_only P (item_loop stop msg item i xs c).
Proof.
  intros Hs Hm Hi. revert i c. induction xs as [|x xs IH]; intros i c; simpl.
  - apply emits_only_silent, silent_ret.
  - apply emits_only_bind; [now apply emits_only_silent |]. intros [].
    + apply emits_only_bind; [now apply emits_only_emit | intros; apply emits_only_silent, silent_ret].
    + apply emits_only_bind; auto.
Qed.

End EmitsOnly.

Create HintDb feeds.

Ltac solve_emits :=
  repeat match goal with
  | |- forall _, _ => intro
  | |- emits_only _ (bind _ _) => apply emits_only_bind
  | |- emits_only _ (try_except _ _ _) => apply emits_only_try_except
  | |- emits_only _ (log _) => apply emits_only_emit; reflexivity
  | |- emits_only _ (emit _) => apply emits_only_emit; reflexivity
  | |- emits_only _ (if ?b then _ else _) => destruct b
  | |- emits_only _ (match ?x with _ => _ end) => destruct x
  | |- emits_only _ _ => solve [eauto with feeds]
  | |- emits_only _ _ => apply emits_only_silent; solve [solve_silent]
  end.

(** The signals that only feed the log and the progress cards. *)
Definition feed_event (ev : ui_event) : bool :=
  match ev with Log _ | Progress _ _ | NcmProgress _ _ => true | _ => false end.

(** [reports P c]: [c] sends feed signals only, followed, when it returns,
    by one last signal in [P]. *)
Definition reports (P : ui_event -> Prop) (c : M unit) : Prop :=
  forall w, match c w with
    | (Ok _, w') => exists ev mid, w_events w' = ev :: mid ++ w_events w /\
                                  forallb feed_event mid = true /\ P ev
    | (Raise _, w') => exists mid, w_events w' = mid ++ w_events w /\ forallb feed_event mid = true
    end.

(** ** Lemmas: delivery *)

Lemma deliver_all_app (a b : list ui_event) (p : panel) :
  deliver_all (a ++ b) p = deliver_all b (deliver_all a p).
Proof. apply fold_left_app. Qed.

(** What feed signals never change: the buttons, the notifications and the
    version shown. *)
Definition controls (p : panel) :=
  (v_start_enabled (p_playlist p), v_stop_enabled (p_playlist p), v_start_enabled (p_ncm p),
   v_stop_enabled (p_ncm p), p_notices p, p_latest_version p, p_version_label p).

Lemma deliver_feed_controls (evs : list ui_event) (p : panel) :
  forallb feed_event evs = true -> controls (deliver_all evs p) = controls p.
Proof.
  revert p. induction evs as [|ev evs IH]; intros p H; [reflexivity |].
  simpl in H. apply andb_prop in H as [H1 H2]. simpl. rewrite IH by exact H2.
  destruct ev; try discriminate; reflexivity.
Qed.

Lemma new_events_app (w w' : world) (new : list ui_event) :
  w_events w' = new ++ w_events w -> new_events w w' = new.
Proof.
  intros H. unfold new_events. rewrite H, length_app, Nat.add_sub, firstn_app, Nat.sub_diag.
  now rewrite firstn_O, app_nil_r, firstn_all.
Qed.

Lemma forallb_rev {A} (f : A -> bool) (l : list A) : forallb f (rev l) = forallb f l.
Proof.
  induction l as [|x l IH]; simpl; [reflexivity |].
  rewrite forallb_app, IH. simpl. now rewrite andb_true_r, andb_comm.
Qed.

(** A run ends with the signals [fin] after [ev]: the window shows the
    effect of [ev] and of [fin] on a panel whose controls the feed signals
    kept. *)
Lemma run_worker_report (c : M unit) (p : panel) (w : world) (fin : list ui_event) (ev : ui_event)
    (mid : list ui_event) :
  w_events (snd (c w)) = fin ++ ev :: mid ++ w_events w -> forallb feed_event mid = true ->
  exists q, controls q = controls p /\
    run_worker c p w = (Ok (deliver_all (rev fin) (deliver ev q)), snd (c w)).
Proof.
  intros E T. exists (deliver_all (rev mid) p). split.
  - apply deliver_feed_controls. now rewrite forallb_rev.
  - unfold run_worker. rewrite (new_events_app w _ (fin ++ ev :: mid)) by now rewrite E, <- app_assoc.
    rewrite rev_app_distr. cbn [rev]. now rewrite !deliver_all_app.
Qed.

(** ** Lemmas: what the workers send *)

Lemma reports_emit (P : ui_event -> Prop) (ev : ui_event) : P ev -> reports P (emit ev).
Proof. intros H w. exists ev, []. auto. Qed.

Lemma reports_bind {A} (P : ui_event -> Prop) (c : M A) (k : A -> M unit) :
  emits_only feed_event c -> (forall a, reports P (k a)) -> reports P (bind c k).
Proof.
  intros Hc Hk w. unfold bind. destruct (Hc w) as (n1 & E1 & T1).
  destruct (c w) as [[a|e] w1]; simpl in E1 |- *; [| now exists n1].
  specialize (Hk a w1). destruct (k a w1) as [[u|e] w2].
  - destruct Hk as (ev & mid & E2 & T2 & HP). exists ev, (mid ++ n1).
    rewrite E2, E1, app_assoc, forallb_app, T2, T1. auto.
  - destruct Hk as (mid & E2 & T2). exists (mid ++ n1).
    rewrite E2, E1, app_assoc, forallb_app, T2, T1. auto.
Qed.

Ltac solve_reports :=
  repeat match goal with
  | |- forall _, _ => intro
  | |- reports _ (bind _ _) => apply reports_bind; [solve_emits |]
  | |- reports _ (if ?b then _ else _) => destruct b
  | |- reports _ (match ?x with _ => _ end) => destruct x
  | |- reports _ (emit _) => apply reports_emit; eauto
  end.

(** [try: body except Exception: handler], with a handler that returns:
    it returns, having sent feed signals and then one signal of the body or
    of the handler. *)
Lemma try_reports (body : M unit) (h : exn -> M unit) (P : ui_event -> Prop) (w : world) :
  reports P body -> (forall e, reports P (h e)) -> (forall e, returns (fun _ => True) (h e)) ->
  exists w' ev mid, try_except any_exn body h w = (Ok tt, w') /\
    w_events w' = ev :: mid ++ w_events w /\ forallb feed_event mid = true /\ P ev.
Proof.
  intros Hb Hh Hr. unfold try_except. specialize (Hb w).
  destruct (body w) as [[[]|e] w1] eqn:E.
  - destruct Hb as (ev & mid & E1 & T & HP). eauto 7.
  - destruct Hb as (mid1 & E1 & T1). destruct (Hr e w1) as ([] & w2 & E2 & _).
    specialize (Hh e w1). rewrite E2 in Hh. destruct Hh as (ev & mid2 & E3 & T2 & HP).
    unfold any_exn. exists w2, ev, (mid2 ++ mid1).
    rewrite E3, E1, app_assoc, forallb_app, T2, T1. auto.
Qed.

(** The shape of a worker thread: [try: body except: handler finally:
    emit(fin)]: the same, then [fin]. *)
Lemma worker_reports (body : M unit) (h : exn -> M unit) (fin : ui_event) (P : ui_event -> Prop)
    (w : world) :
  reports P body -> (forall e, reports P (h e)) -> (forall e, returns (fun _ => True) (h e)) ->
  exists w' ev mid, try_finally (try_except any_exn body h) (emit fin) w = (Ok tt, w') /\
    w_events w' = fin :: ev :: mid ++ w_events w /\ forallb feed_event mid = true /\ P ev.
Proof.
  intros Hb Hh Hr. destruct (try_reports body h P w Hb Hh Hr) as (w1 & ev & mid & E & Ev & T & HP).
  unfold try_finally. rewrite E. exists (set_events (fin :: w_events w1) w1), ev, mid.
  cbn. rewrite Ev. auto.
Qed.

(** The resolution of a playlist sends no signal (it only prints). *)
Lemma silent_select_songs (api data : json) : silent (select_songs api data).
Proof. unfold select_songs, sub2. solve_silent. Qed.

Lemma silent_collect_songs (api : json) (i : nat) (songs : list json) : silent (collect_songs api i songs).
Proof.
  revert i. induction songs as [|s ss IH]; intros i; simpl; [solve_silent |].
  unfold normalize_song, sub2. solve_silent.
Qed.

Lemma silent_get_playlist_songs (list_id : string) : silent (get_playlist_songs list_id).
Proof.
  unfold get_playlist_songs, sub2. solve_silent.
  match goal with |- silent (try_playlist_apis _ ?l) => induction l as [|api rest IH] end;
    simpl; [solve_silent |].
  pose proof silent_select_songs. pose proof silent_collect_songs. pose proof silent_request_with_retry.
  unfold playlist_api_body, response_json_opt. solve_silent.
Qed.

#[local] Hint Resolve silent_get_playlist_songs silent_download_song silent_convert_single_file : silent.

Lemma feeds_download_loop sp q sl skip ff total i songs c :
  emits_only feed_event (download_loop sp q sl skip ff total i songs c).
Proof.
  intros w. rewrite download_loop_item_loop. revert w. apply emits_only_item_loop; [| reflexivity |].
  - unfold stop_download_requested. solve_silent.
  - unfold download_item, int_progress. solve_emits.
Qed.

Lemma feeds_convert_loop tool out skip flip total i files c :
  emits_only feed_event (convert_loop tool out skip flip total i files c).
Proof.
  intros w. rewrite convert_loop_item_loop. revert w. apply emits_only_item_loop; [| reflexivity |].
  - unfold stop_convert_requested. solve_silent.
  - unfold convert_item, int_progress. solve_emits.
Qed.

#[export] Hint Resolve feeds_download_loop feeds_convert_loop : feeds.

(** ** What a run shows *)

Lemma controls_eq (p q : panel) : controls q = controls p ->
  v_start_enabled (p_playlist q) = v_start_enabled (p_playlist p) /\
  v_stop_enabled (p_playlist q) = v_stop_enabled (p_playlist p) /\
  v_start_enabled (p_ncm q) = v_start_enabled (p_ncm p) /\ v_stop_enabled (p_ncm q) = v_stop_enabled (p_ncm p) /\
  p_notices q = p_notices p /\ p_latest_version q = p_latest_version p /\ p_version_label q = p_version_label p.
Proof. unfold controls. intros H. injection H. tauto. Qed.

(** The notification a download run ends with. *)
Definition download_notice (ev : ui_event) : option notice :=
  match ev with
  | DownloadComplete s f => Some (complete_notice "歌单下载完成! " "歌单下载失败! " s f)
  | DownloadError m => Some (download_error_notice m)
  | _ => None
  end.

Definition ncm_notice (ev : ui_event) : option notice :=
  match ev with
  | NcmComplete s f => Some (complete_notice "NCM转换完成! " "NCM转换失败! " s f)
  | NcmError m => Some (ncm_error_notice m)
  | _ => None
  end.

Definition api_notice (ev : ui_event) : option notice :=
  match ev with ApiTest t c k => Some (api_test_notice t c k) | _ => None end.

Lemma download_playlist_ui_run list_id save_path quality sl skip ff w :
  exists w' ev mid, download_playlist_ui list_id save_path quality sl skip ff w = (Ok tt, w') /\
    w_events w' = ButtonState true false :: ev :: mid ++ w_events w /\
    forallb feed_event mid = true /\ download_notice ev <> None.
Proof.
  apply worker_reports.
  - unfold log. solve_reports; discriminate.
  - intros e. unfold download_handler, log. solve_reports; discriminate.
  - intros e. unfold download_handler, log. solve_returns.
Qed.

Lemma convert_ncm_files_run tool input_dir out skip flip w :
  exists w' ev mid, convert_ncm_files tool input_dir out skip flip w = (Ok tt, w') /\
    w_events w' = NcmButtonState true false :: ev :: mid ++ w_events w /\
    forallb feed_event mid = true /\ ncm_notice ev <> None.
Proof.
  apply worker_reports.
  - unfold log, glob_ncm. solve_reports; discriminate.
  - intros e. unfold log. solve_reports; discriminate.
  - intros e. unfold log. solve_returns.
Qed.

(** ** The worker threads' interface *)

(** What the window relies on of a worker thread [c]: it returns, having
    sent feed signals, then one report whose slot shows the notification
    [notice_of] gives, then the signals [fin]. *)
Class WorkerThread (c : M unit) (fin : list ui_event) (notice_of : ui_event -> option notice) : Prop := {
  worker_run : forall w, exists w' ev mid, c w = (Ok tt, w') /\
    w_events w' = fin ++ ev :: mid ++ w_events w /\ forallb feed_event mid = true /\ notice_of ev <> None;
  worker_notice : forall ev n q, notice_of ev = Some n -> deliver ev q = show_notice n q
}.

Section Worker.
Context (c : M unit) (fin : list ui_event) (notice_of : ui_event -> option notice)
  {HW : WorkerThread c fin notice_of}.

(** Once the signals of a run are delivered, the window shows the run's one
    notification on a panel whose controls the feed signals kept, then the
    effect of [fin]. *)
Lemma worker_delivered (p : panel) (w : world) :
  exists w' ev n q, c w = (Ok tt, w') /\ notice_of ev = Some n /\ controls q = controls p /\
    run_worker c p w = (Ok (deliver_all (rev fin) (show_notice n q)), w').
Proof.
  destruct (worker_run w) as (w' & ev & mid & E & Ev & T & Hn).
  destruct (notice_of ev) as [n|] eqn:En; [| congruence].
  assert (Ev' : w_events (snd (c w)) = fin ++ ev :: mid ++ w_events w) by now rewrite E.
  destruct (run_worker_report c p w fin ev mid Ev' T) as (q & Hq & R).
  exists w', ev, n, q. do 3 (split; [assumption |]).
  rewrite R, E. cbn [snd]. now rewrite (worker_notice ev n q En).
Qed.

End Worker.

#[export] Instance download_worker list_id save_path quality sl skip ff :
  WorkerThread (download_playlist_ui list_id save_path quality sl skip ff) [ButtonState true false]
    download_notice.
Proof.
  split; [exact (download_playlist_ui_run list_id save_path quality sl skip ff) |].
  intros [] n q H; try discriminate; now injection H as <-.
Qed.

#[export] Instance convert_worker tool input_dir out skip flip :
  WorkerThread (convert_ncm_files tool input_dir out skip flip) [NcmButtonState true false] ncm_notice.
Proof.
  split; [exact (convert_ncm_files_run tool input_dir out skip flip) |].
  intros [] n q H; try discriminate; now injection H as <-.
Qed.

#[export] Instance test_api_worker : WorkerThread test_api [] api_notice.
Proof.
  split.
  - intros w. apply try_reports.
    + unfold log. solve_reports; discriminate.
    + intros e. unfold log. solve_reports; discriminate.
    + intros e. unfold log. solve_returns.
  - intros [] n q H; try discriminate; now injection H as <-.
Qed.

(** ** The version check *)

(** What the version check makes of the first network answer. *)
Definition version_shown (ev : net_event) : string :=
  match ev with
  | NetOk _ r => if ok_status r then py_strip (text r) else "获取失败"
  | NetErr _ _ _ => "获取失败"
  end.

Lemma after_request_events (url : string) (w : world) : w_events (after_request url w) = w_events w.
Proof. unfold after_request. now destruct (next_answer (w_net w)). Qed.

(** The signals of [fetch_version]: the version, after the logged failure
    when there is one. *)
Lemma fetch_version_events (w : world) :
  let ev := fst (next_answer (w_net w)) in
  w_events (snd (fetch_version w)) =
    match event_exn ev with
    | None => [Version (version_shown ev)]
    | Some e => [Version "获取失败"; Log ("获取最新版本号失败: " ++ exn_str e)]
    end ++ w_events w.
Proof.
  intros ev. unfold fetch_version, try_except, bind, requests_get. fold ev.
  destruct ev as [d r|d k m]; cbn [answer_of version_shown event_exn].
  - unfold raise_for_status, ok_status. destruct ((400 <=? status r) && (status r <? 600))%Z;
      cbn; now rewrite after_request_events.
  - cbn. now rewrite after_request_events.
Qed.

