(* ===== verification/MainWindow.v ===== *)
(** * The main window: its construction, its buttons and its states (src/utils/ui.py)

    [window_init] is [MusicDownloaderUI.__init__] from the configuration
    on: [APIHandler()], [SongDownloader], [NCMConverter()] with its warning
    when the executable is missing, the stop flags, and the two threads it
    starts (the version check and the API test), whose signals reach the
    window once it runs.  The window then waits for the user: [action]
    lists what the user can do between runs, [handle] the slot each action
    runs, [gui_step] the step relation and [reachable] the states of a
    started window.

    The theorems: what each start button shows after a run; the invariant
    that every action keeps, and that holds in every reachable state (both
    pages idle, both bars within range); and a finding: a stopped download
    is shown as a completed one. *)

From Stdlib Require Import String List ZArith QArith Lia Bool.
From stdpp Require Import gmap.
From S2P Require Import Prelude Json World PyFloat Transport Resolver Location Config Downloader Window Converter ConvertTask DownloadTask Slots.
Import ListNotations.
Open Scope string_scope.
Open Scope py_scope.

(** ** Construction *)

(** The progress cards as [PlaylistPage.__init__] and
    [NcmConvertPage.__init__] build them. *)
Definition init_playlist_view : progress_view := mk_view 0 "准备就绪" true false.
Definition init_ncm_view : progress_view := mk_view 0 "准备就绪" true false.

(** The widgets [MusicDownloaderUI.__init__] builds, before any signal. *)
Definition init_panel : panel :=
  mk_panel [] init_playlist_view init_ncm_view [] "" "最新版本: 正在获取...".

(** [InfoBar.warning] of [__init__] when [NCMConverter()] raises. *)
Definition converter_warning (e : exn) : notice :=
  mk_notice LevelWarning "NCM转换器初始化失败" (exn_str e ++ newline ++ "NCM转换功能将不可用") 5000.

(** The window's state besides its widgets: [self.ncm_converter]. *)
Record gui := mk_gui { g_panel : panel; g_converter : option string }.

(** [MusicDownloaderUI.__init__]; [None] when the config file is outside
    the model (see [Config.load_config]).  The threads [__init__] starts
    run once it has returned, in the order started. *)
Definition window_init : M (option gui) :=
  loaded <- api_handler_init "config.json" ;;
  match loaded with
  | None => ret None
  | Some _ =>
      song_downloader_init ;;
      conv <- ui_init_converter ;;
      reset_stop_download ;;
      reset_stop_convert ;;
      let p0 := match conv with
                | inl e => show_notice (converter_warning e) init_panel
                | inr _ => init_panel
                end in
      p1 <- run_worker fetch_version p0 ;;
      p2 <- run_worker test_api p1 ;;
      ret (Some (mk_gui p2 (match conv with inl _ => None | inr tool => Some tool end)))
  end.

(** ** The buttons *)

(** [InfoBar.error(title="错误", content=msg, duration=3000)] of a handler
    that refuses to start. *)
Definition refusal (msg : string) : notice := mk_notice LevelError "错误" msg 3000.

(** [MainWindow.start_download], the download button's slot: the checks,
    [self.stop_download = False], the buttons, then the worker thread. *)
Definition start_download_clicked (list_id_text quality save_path speed_text : string)
    (skip_existing : bool) (filename_format : Z) (p : panel) : M panel :=
  match download_args list_id_text speed_text with
  | inl msg => ret (show_notice (refusal msg) p)
  | inr (list_id, speed_limit) =>
      reset_stop_download ;;
      run_worker (download_playlist_ui list_id save_path quality speed_limit skip_existing filename_format)
        (set_playlist (view_buttons false true (p_playlist p)) p)
  end.

(** [MainWindow.start_ncm_convert], the convert button's slot. *)
Definition start_ncm_convert_clicked (converter : option string) (input_dir output_dir : string)
    (skip_existing flip_filename : bool) (p : panel) : M panel :=
  a <- convert_args converter input_dir ;;
  match a with
  | inl msg => ret (show_notice (refusal msg) p)
  | inr tool =>
      reset_stop_convert ;;
      run_worker (convert_ncm_files tool input_dir output_dir skip_existing flip_filename)
        (set_ncm (view_buttons false true (p_ncm p)) p)
  end.

(** The [InfoBar] of [MainWindow.save_request_interval] (3 s). *)
Definition info_bar_notice (ib : info_bar) : notice :=
  match ib with
  | InfoSuccess t c => mk_notice LevelSuccess t c 3000
  | InfoError t c => mk_notice LevelError t c 3000
  end.

(** [MainWindow.save_request_interval], the save button's slot: it runs in
    the window thread, so its log line reaches the log at once, then its
    [InfoBar] is shown. *)
Definition save_request_interval_clicked (text : string) (p : panel) : M panel :=
  fun w => let '(r, w') := save_request_interval text w in
    match r with
    | Ok ib => (Ok (show_notice (info_bar_notice ib) (deliver_all (rev (new_events w w')) p)), w')
    | Raise e => (Raise e, w')
    end.

(** ** The window as a state machine *)

(** What the user can do while no run is going on (the stop buttons are
    disabled then; a stop click during a run is the time stored in the
    flag, see [World.stop_seen]).  The texts are the entries' contents. *)
Inductive action :=
| ClickDownload (list_id_text quality save_path speed_text : string) (skip_existing : bool)
    (filename_format : Z)
| ClickConvert (input_dir output_dir : string) (skip_existing flip_filename : bool)
| ClickSaveInterval (text : string)
| ClickTestApi.

(** The slot an action runs ([test_api_feasibility] starts the API test). *)
Definition handle_panel (a : action) (converter : option string) (p : panel) : M panel :=
  match a with
  | ClickDownload lt q sp st skip ff => start_download_clicked lt q sp st skip ff p
  | ClickConvert i o skip flip => start_ncm_convert_clicked converter i o skip flip p
  | ClickSaveInterval t => save_request_interval_clicked t p
  | ClickTestApi => run_worker test_api p
  end.

Definition handle (a : action) (g : gui) : M gui :=
  p <- handle_panel a (g_converter g) (g_panel g) ;; ret (mk_gui p (g_converter g)).

(** One action that returns.  An exception escaping a slot ends the
    program (PyQt5 aborts on it), so it has no step. *)
Inductive gui_step : gui * world -> gui * world -> Prop :=
| gui_act (a : action) (g g' : gui) (w w' : world) :
    handle a g w = (Ok g', w') -> gui_step (g, w) (g', w').

(** The states of a started window. *)
Inductive reachable : gui * world -> Prop :=
| reach_init (w0 : world) (g : gui) (w : world) :
    window_init w0 = (Ok (Some g), w) -> reachable (g, w)
| reach_step (s s' : gui * world) : reachable s -> gui_step s s' -> reachable s'.

(** Between runs a page shows its start button enabled, its stop button
    disabled, and a bar value within the bar's range. *)
Definition page_idle (v : progress_view) : Prop :=
  v_start_enabled v = true /\ v_stop_enabled v = false /\ (0 <= v_value v <= 100)%Z.

Definition window_ok (g : gui) : Prop :=
  page_idle (p_playlist (g_panel g)) /\ page_idle (p_ncm (g_panel g)).

Open Scope list_scope.

(** ** What the start buttons show *)

(** [p'] is what the user sees on the page [view] after a run started on
    [p]: the start button enabled, the stop button disabled, and exactly one
    new notification, the one [notice_of] gives for the run's report. *)
Definition run_shown (view : panel -> progress_view) (notice_of : ui_event -> option notice)
    (p p' : panel) : Prop :=
  v_start_enabled (view p') = true /\ v_stop_enabled (view p') = false /\
  exists ev n, notice_of ev = Some n /\ p_notices p' = n :: p_notices p.

(** C22: The download button.  Input the checks refuse (a speed [int()]
    rejects, then an id empty after [strip()]) shows one error
    notification for 3 s and changes nothing else.  Accepted input runs
    the worker; once its signals are delivered, whatever happened in the
    run, the download button is enabled again, the stop button disabled,
    exactly one notification was added (the completion notice for the
    counts or the error notice), and the conversion page's buttons are as
    they were. *)
Theorem start_download_clicked_panel (list_id_text quality save_path speed_text : string) (skip : bool)
    (ff : Z) (p : panel) (w : world) :
  match download_args list_id_text speed_text with
  | inl msg => start_download_clicked list_id_text quality save_path speed_text skip ff p w =
               (Ok (show_notice (refusal msg) p), w)
  | inr _ => exists p' w', start_download_clicked list_id_text quality save_path speed_text skip ff p w =
               (Ok p', w') /\ run_shown p_playlist download_notice p p' /\
             v_start_enabled (p_ncm p') = v_start_enabled (p_ncm p) /\
             v_stop_enabled (p_ncm p') = v_stop_enabled (p_ncm p)
  end.
Proof.
  unfold start_download_clicked.
  destruct (download_args list_id_text speed_text) as [msg|[list_id sl]]; [reflexivity |].
  unfold reset_stop_download. cbn [bind modify].
  set (w0 := set_stop_download _ w).
  destruct (worker_delivered (download_playlist_ui list_id save_path quality sl skip ff) _ download_notice
              (set_playlist (view_buttons false true (p_playlist p)) p) w0) as (w' & ev & n & q & _ & En & Hq & R).
  apply controls_eq in Hq. cbn in Hq. destruct Hq as (_ & _ & H3 & H4 & H5 & _).
  eexists _, w'. rewrite R. split; [reflexivity |]. unfold run_shown. cbn. rewrite H3, H4, H5.
  exact (conj (conj eq_refl (conj eq_refl (ex_intro _ ev (ex_intro _ n (conj En eq_refl))))) (conj eq_refl eq_refl)).
Qed.

(** C21: The convert button.  Without a converter, or with a source
    folder that does not exist, it shows one error notification for 3 s
    and changes nothing else.  Otherwise it runs the conversion worker;
    once its signals are delivered the convert button is enabled again,
    the stop button disabled, exactly one notification was added (the
    completion notice or the error notice), and the download page's
    buttons are as they were. *)
Theorem start_ncm_convert_clicked_panel (converter : option string) (input_dir out : string)
    (skip flip : bool) (p : panel) (w : world) :
  match converter with
  | None => start_ncm_convert_clicked converter input_dir out skip flip p w =
            (Ok (show_notice (refusal not_initialised) p), w)
  | Some _ =>
      if path_exists w input_dir then
        exists p' w', start_ncm_convert_clicked converter input_dir out skip flip p w = (Ok p', w') /\
          run_shown p_ncm ncm_notice p p' /\
          v_start_enabled (p_playlist p') = v_start_enabled (p_playlist p) /\
          v_stop_enabled (p_playlist p') = v_stop_enabled (p_playlist p)
      else start_ncm_convert_clicked converter input_dir out skip flip p w =
           (Ok (show_notice (refusal no_source_dir) p), w)
  end.
Proof.
  unfold start_ncm_convert_clicked. destruct converter as [tool|]; [| reflexivity].
  assert (Ha : convert_args (Some tool) input_dir w =
               (Ok (if path_exists w input_dir then inr tool else inl no_source_dir), w)).
  { unfold convert_args. rewrite os_path_exists_bind. now destruct (path_exists w input_dir). }
  rewrite (bind_ok _ _ _ _ _ Ha). destruct (path_exists w input_dir); [| reflexivity].
  unfold reset_stop_convert. cbn [bind modify].
  set (w0 := set_stop_convert _ w).
  destruct (worker_delivered (convert_ncm_files tool input_dir out skip flip) _ ncm_notice
              (set_ncm (view_buttons false true (p_ncm p)) p) w0) as (w' & ev & n & q & _ & En & Hq & R).
  apply controls_eq in Hq. cbn in Hq. destruct Hq as (H1 & H2 & _ & _ & H5 & _).
  eexists _, w'. rewrite R. split; [reflexivity |]. unfold run_shown. cbn. rewrite H1, H2, H5.
  exact (conj (conj eq_refl (conj eq_refl (ex_intro _ ev (ex_intro _ n (conj En eq_refl))))) (conj eq_refl eq_refl)).
Qed.

(** ** A stopped download *)

(** A playlist of two songs that resolves after 2 ms; the stop button is
    clicked 1 ms after the start. *)
Definition stopped_world : world :=
  set_stop_download (Some (1 # 1000))
    (world_with (config_with [provider_flat])
       [NetOk 2000 (ok_json (JList [flat_song "http://x?id=1"; flat_song "http://x?id=2"]))]).


(** ** The window's invariant *)

(** The signals whose slots leave the buttons alone. *)
Definition no_button (ev : ui_event) : bool :=
  match ev with ButtonState _ _ | NcmButtonState _ _ => false | _ => true end.

Definition buttons (p : panel) : bool * bool * bool * bool :=
  (v_start_enabled (p_playlist p), v_stop_enabled (p_playlist p), v_start_enabled (p_ncm p),
   v_stop_enabled (p_ncm p)).

Definition bars_ok (p : panel) : Prop :=
  (0 <= v_value (p_playlist p) <= 100)%Z /\ (0 <= v_value (p_ncm p) <= 100)%Z.

Lemma window_ok_iff (g : gui) :
  window_ok g <-> buttons (g_panel g) = (true, false, true, false) /\ bars_ok (g_panel g).
Proof.
  unfold window_ok, page_idle, buttons, bars_ok. split.
  - intros ((-> & -> & ?) & (-> & -> & ?)). auto.
  - intros (E & ? & ?). injection E as -> -> -> ->. auto 10.
Qed.

Lemma bar_set_value_ok (v old : Z) : (0 <= old <= 100)%Z -> (0 <= bar_set_value v old <= 100)%Z.
Proof.
  unfold bar_set_value. destruct ((0 <=? v) && (v <=? 100))%Z eqn:E; [| auto].
  apply andb_prop in E as [E1 E2]. rewrite Z.leb_le in E1, E2. lia.
Qed.

#[local] Arguments bar_set_value : simpl never.

(** Whatever the signals, the bars stay within their range. *)
Lemma deliver_all_bars (evs : list ui_event) (p : panel) : bars_ok p -> bars_ok (deliver_all evs p).
Proof.
  revert p. induction evs as [|ev evs IH]; intros p [H1 H2]; simpl; [now split |].
  apply IH. destruct ev; simpl; split; auto;
    match goal with
    | |- context [progress_slot ?v _ _] => exact (bar_set_value_ok v _ H1)
    | |- context [ncm_progress_slot ?v _ _] => exact (bar_set_value_ok v _ H2)
    end.
Qed.

Lemma run_worker_bars (c : M unit) (p p' : panel) (w w' : world) :
  bars_ok p -> run_worker c p w = (Ok p', w') -> bars_ok p'.
Proof. unfold run_worker. intros H E. injection E as <- _. now apply deliver_all_bars. Qed.

Lemma deliver_all_buttons (evs : list ui_event) (p : panel) :
  forallb no_button evs = true -> buttons (deliver_all evs p) = buttons p.
Proof.
  revert p. induction evs as [|ev evs IH]; intros p H; [reflexivity |].
  simpl in H |- *. apply andb_prop in H as [H1 H2]. rewrite IH by exact H2.
  destruct ev; try discriminate; reflexivity.
Qed.

(** The signals a computation sent, delivered, leave the buttons alone when
    it sends no button state. *)
Lemma deliver_new_buttons {A} (c : M A) (w w' : world) (x : outcome A) (p : panel) :
  emits_only no_button c -> c w = (x, w') -> buttons (deliver_all (rev (new_events w w')) p) = buttons p.
Proof.
  intros Hc E. destruct (Hc w) as (new & En & T). rewrite E in En.
  rewrite (new_events_app w w' new En). apply deliver_all_buttons. now rewrite forallb_rev.
Qed.

Lemma run_worker_buttons (c : M unit) (p p' : panel) (w w' : world) :
  emits_only no_button c -> run_worker c p w = (Ok p', w') -> buttons p' = buttons p.
Proof.
  unfold run_worker. intros Hc E. injection E as <- <-.
  apply (deliver_new_buttons c w _ (fst (c w))); [exact Hc | now destruct (c w)].
Qed.

#[local] Hint Resolve silent_get_playlist_songs : silent.

Lemma no_button_test_api : emits_only no_button test_api.
Proof. unfold test_api, log. solve_emits. Qed.

Lemma no_button_fetch_version : emits_only no_button fetch_version.
Proof. unfold fetch_version, log. solve_emits. Qed.

Lemma no_button_save_request_interval (text : string) : emits_only no_button (save_request_interval text).
Proof. unfold save_request_interval, set_request_interval, log. solve_emits. Qed.

Definition idle_buttons : bool * bool * bool * bool := (true, false, true, false).

(** A start button's run on a window at rest: the worker's final signal
    restores the page's buttons, the other page's are untouched. *)
Lemma start_download_clicked_ok lt q sp st skip ff p w p' w' :
  buttons p = idle_buttons -> bars_ok p ->
  start_download_clicked lt q sp st skip ff p w = (Ok p', w') -> buttons p' = idle_buttons /\ bars_ok p'.
Proof.
  intros Hb Hs E. unfold start_download_clicked in E.
  destruct (download_args lt st) as [msg|[list_id sl]]; [injection E as <- <-; auto |].
  unfold reset_stop_download in E. cbn [bind modify] in E.
  set (p0 := set_playlist (view_buttons false true (p_playlist p)) p) in E.
  set (w0 := set_stop_download _ w) in E.
  destruct (worker_delivered (download_playlist_ui list_id sp q sl skip ff) _ download_notice p0 w0)
    as (w1 & ev & n & r & _ & _ & Hq & R).
  rewrite R in E. injection E as <- <-. split; [| exact (run_worker_bars _ p0 _ _ _ Hs R)].
  apply controls_eq in Hq. unfold buttons, idle_buttons in *. cbn in Hq |- *.
  destruct Hq as (_ & _ & -> & -> & _). injection Hb as _ _ -> ->. reflexivity.
Qed.

Lemma start_ncm_convert_clicked_ok conv i o skip flip p w p' w' :
  buttons p = idle_buttons -> bars_ok p ->
  start_ncm_convert_clicked conv i o skip flip p w = (Ok p', w') -> buttons p' = idle_buttons /\ bars_ok p'.
Proof.
  intros Hb Hs E. unfold start_ncm_convert_clicked in E.
  destruct conv as [tool|]; [| injection E as <- <-; auto].
  unfold bind at 1, convert_args in E. rewrite os_path_exists_bind in E.
  destruct (path_exists w i); cbn [negb ret] in E; [| injection E as <- <-; auto].
  unfold reset_stop_convert in E. cbn [bind modify] in E.
  set (p0 := set_ncm (view_buttons false true (p_ncm p)) p) in E.
  set (w0 := set_stop_convert _ w) in E.
  destruct (worker_delivered (convert_ncm_files tool i o skip flip) _ ncm_notice p0 w0)
    as (w1 & ev & n & r & _ & _ & Hq & R).
  rewrite R in E. injection E as <- <-. split; [| exact (run_worker_bars _ p0 _ _ _ Hs R)].
  apply controls_eq in Hq. unfold buttons, idle_buttons in *. cbn in Hq |- *.
  destruct Hq as (-> & -> & _). injection Hb as -> -> _ _. reflexivity.
Qed.

Lemma save_request_interval_clicked_ok t p w p' w' :
  buttons p = idle_buttons -> bars_ok p ->
  save_request_interval_clicked t p w = (Ok p', w') -> buttons p' = idle_buttons /\ bars_ok p'.
Proof.
  intros Hb Hs E. unfold save_request_interval_clicked in E.
  destruct (save_request_interval t w) as [[ib|e] w1] eqn:Es; [| discriminate E].
  injection E as <- <-. split; [| exact (deliver_all_bars _ p Hs)].
  change (buttons (deliver_all (rev (new_events w w1)) p) = idle_buttons).
  now rewrite (deliver_new_buttons _ w w1 _ p (no_button_save_request_interval t) Es).
Qed.

(** Every slot of an action keeps the window at rest. *)
Lemma handle_panel_ok a conv p w p' w' :
  buttons p = idle_buttons -> bars_ok p ->
  handle_panel a conv p w = (Ok p', w') -> buttons p' = idle_buttons /\ bars_ok p'.
Proof.
  destruct a; simpl.
  - apply start_download_clicked_ok.
  - apply start_ncm_convert_clicked_ok.
  - apply save_request_interval_clicked_ok.
  - intros Hb Hs E. rewrite (run_worker_buttons _ _ _ _ _ no_button_test_api E).
    exact (conj Hb (run_worker_bars _ _ _ _ _ Hs E)).
Qed.

(** One [r <- c ;; k] in a hypothesis [E] saying that the whole returned:
    [c] returned [r] ([Ex]), and [E] is now about [k r]. *)
Ltac bind_step E r Ex :=
  unfold bind at 1 in E;
  lazymatch type of E with
  | (match ?x with _ => _ end) = _ =>
      destruct x as [[r|?] ?] eqn:Ex; [cbv beta iota zeta in E | discriminate E]
  end.

(** The window [__init__] builds is at rest once its threads' signals are
    delivered. *)
Lemma window_init_ok (w0 : world) (g : gui) (w : world) :
  window_init w0 = (Ok (Some g), w) -> window_ok g.
Proof.
  intros E. unfold window_init in E. bind_step E loaded El. destruct loaded as [u|]; [| discriminate E].
  bind_step E u0 E0. bind_step E conv Ec. bind_step E u1 E1. bind_step E u2 E2.
  set (p0 := match conv with inl e => show_notice (converter_warning e) init_panel | inr _ => init_panel end)
    in E.
  bind_step E p1 R1. bind_step E p2 R2.
  injection E as Hg _. subst g. apply window_ok_iff. cbn [g_panel].
  assert (H0 : buttons p0 = idle_buttons /\ bars_ok p0) by (destruct conv; unfold bars_ok; cbn; (split; [reflexivity | lia])).
  destruct H0 as [Hb Hs]. split.
  - rewrite (run_worker_buttons _ _ _ _ _ no_button_test_api R2).
    now rewrite (run_worker_buttons _ _ _ _ _ no_button_fetch_version R1).
  - exact (run_worker_bars _ _ _ _ _ (run_worker_bars _ _ _ _ _ Hs R1) R2).
Qed.

(** C12: Every action of the user keeps the window well formed: from a
    window at rest (both pages with the start button enabled, the stop
    button disabled and a bar value within 0 to 100), a download, a
    conversion, a saved interval or an API test that returns leaves the
    window at rest, whatever happened in the run. *)
Theorem handle_keeps_window_ok (a : action) (g g' : gui) (w w' : world) :
  window_ok g -> handle a g w = (Ok g', w') -> window_ok g'.
Proof.
  rewrite !window_ok_iff. intros [Hb Hs] E. unfold handle, bind in E.
  destruct (handle_panel a (g_converter g) (g_panel g) w) as [[p|e] w1] eqn:Eh; [| discriminate E].
  injection E as <- <-. exact (handle_panel_ok a _ _ _ _ _ Hb Hs Eh).
Qed.

(** C20: In every state of a started window (built by [__init__], then
    any sequence of actions that return) both pages are at rest: start
    button enabled, stop button disabled, bar value within 0 to 100. *)
Theorem reachable_window_ok (g : gui) (w : world) : reachable (g, w) -> window_ok g.
Proof.
  change g with (fst (g, w)) at 2. generalize (g, w). clear g w. intros s H.
  induction H as [w0 g w E | s s' Hr IH Hst]; [exact (window_init_ok w0 g w E) |].
  destruct Hst as [a g g' w w' E]. cbn in *. apply window_ok_iff in IH as [Hb Hs].
  unfold handle, bind in E.
  destruct (handle_panel a (g_converter g) (g_panel g) w) as [[p|e] w1] eqn:Eh; [| discriminate E].
  injection E as <- <-. apply window_ok_iff. exact (handle_panel_ok a _ _ _ _ _ Hb Hs Eh).
Qed.

(** ** Witnesses *)

(** A window started on a [config.json] with one playlist provider, no
    [ncmdump] anywhere and no network. *)
Definition start_world : world :=
  set_files (<["config.json" := json_dump (config_with [provider_flat])]> ∅) (world_with (JObj []) []).

Definition rest_gui : gui := mk_gui init_panel None.

Lemma handle_keeps_window_ok_witness :
  window_ok rest_gui /\
  exists g' w', handle ClickTestApi rest_gui first_world = (Ok g', w') /\ window_ok g'.
Proof.
  assert (H0 : window_ok rest_gui) by (cbv; repeat split; discriminate).
  split; [exact H0 |].
  set (r := handle ClickTestApi rest_gui first_world).
  set (g' := match fst r with Ok g => g | Raise _ => rest_gui end).
  assert (E : r = (Ok g', snd r)) by (vm_compute; reflexivity).
  exists g', (snd r). split; [exact E | exact (handle_keeps_window_ok ClickTestApi rest_gui g' first_world _ H0 E)].
Defined.

Lemma reachable_window_ok_witness :
  exists g w, window_init start_world = (Ok (Some g), w) /\ reachable (g, w) /\ window_ok g.
Proof.
  eexists _, _. split; [vm_compute; reflexivity |].
  assert (R : reachable (_, _)) by (apply (reach_init start_world); vm_compute; reflexivity).
  split; [exact R | exact (reachable_window_ok _ _ R)].
Defined.
